(** * The lazy-rendering PDF viewer, as a transition system

    A shallow embedding of the two viewer components of the repository:

    - [Simple]: [src/routes/+page.svelte], pages capped at [MAX_WIDTH];
    - [HighQuality]: the second viewer (container-relative width, rendered
      at [QUALITY_SCALE] times the display resolution, with a handler for
      resizes).

    Both components are single-threaded JavaScript: an [async] function runs
    until its next [await], is parked, and is resumed when the awaited
    promise settles.  A component is therefore modelled as a [World] (the
    [state] record, the observers, the parked calls, and a log of what was
    asked of the document engine and of the console) together with a total
    function [step : Event -> World -> World]; one event is one turn of the
    event loop: a callback of the host, or the settlement of one awaited
    promise.

    Numbers.  The transition systems compute with exact rationals [Q]:
    they say which field is written, in which turn, and by which
    expression of the source.  Every division in the source is by a page
    width reported by the document engine or by a byte total that was
    tested positive, and the statements below assume those divisors
    positive ([x / 0] is [0] in [Q], infinite in JavaScript).  Where the
    value of an expression is at stake and rounding can change it (the
    progress percentage, the sizes of a layout), the expression is
    evaluated in [Binary64], the IEEE 754 arithmetic of JavaScript.  The
    size of a canvas buffer is a whole number: an assignment to
    [canvas.width] or [canvas.height] converts to [unsigned long].

    The high-quality viewer comes at two levels.  [HighQuality] is the
    component as its handlers: a [Resize] event there is a call of
    [handleResize].  [Wired] adds the ResizeObserver through which the
    browser makes such calls, as [onMount] sets it up. *)

From Stdlib Require Import QArith Qminmax Qround Lia Lqa.
From Stdlib Require SpecFloat.
From stdpp Require Import base list option.

(** ** JavaScript's [Math] *)

Module Math.

(** [Math.round]: nearest integer, ties towards plus infinity. *)
Definition round (x : Q) : Q := inject_Z (Qfloor (x + (1 # 2))).

(** [Math.min] on two numbers. *)
Definition min (x y : Q) : Q := Qmin x y.

End Math.

(** ** JavaScript numbers

    The arithmetic of the code: IEEE 754 binary64, rounding to nearest,
    ties to even.  The expressions whose value is at stake below (the
    progress percentage, the sizes of a layout) are evaluated here as
    the code evaluates them. *)

Module Binary64.

Definition number : Type := SpecFloat.spec_float.

Definition prec : Z := 53.
Definition emax : Z := 1024.

(** The number that an integer denotes, as a literal or as an input. *)
Definition ofZ (n : Z) : number := SpecFloat.binary_normalize prec emax n 0 false.

Definition zero : number := SpecFloat.S754_zero false.

Definition mul (x y : number) : number := SpecFloat.SFmul prec emax x y.
Definition div (x y : number) : number := SpecFloat.SFdiv prec emax x y.

(** [x < y]; false when either is NaN. *)
Definition lt (x y : number) : bool := SpecFloat.SFltb x y.

(** [Math.round]: the integer closest to [x], ties towards plus
    infinity; [-0] for [x] in [[-0.5, 0)]; NaN, the infinities, the
    zeros and the integers are returned as they are.  A number with a
    negative exponent [-d] is [m / 2^d] up to sign, and
    [floor (x + 1/2)] is computed on the integers. *)
Definition round (x : number) : number :=
  match x with
  | SpecFloat.S754_finite s m (Zneg d) =>
      let n := ((2 * SpecFloat.cond_Zopp s (Zpos m) + 2 ^ Zpos d)
                / 2 ^ (Zpos d + 1))%Z in
      match n with
      | Z0 => SpecFloat.S754_zero s
      | _ => ofZ n
      end
  | _ => x
  end.

(** [loadingTask.onProgress], lines 45 to 49 of the simple viewer and 65
    to 69 of the high-quality viewer, as a function of the two numbers it
    is given and of the field it writes: the value of
    [state.loadingProgress] when it returns. *)
Definition onProgress (loaded total loadingProgress : number) : number :=
  if lt zero total
  then round (mul (div loaded total) (ofZ 100))
  else loadingProgress.

(** [const WIDTH_RATIO = 0.9]: the literal denotes the binary64 number
    nearest to 9/10. *)
Definition WIDTH_RATIO : number := div (ofZ 9) (ofZ 10).

(** The numbers of one iteration of [calculatePageDimensions] in the
    high-quality viewer, lines 107 to 117, for the width and the height
    of the page's viewport at scale 1: [scale], [scaledWidth] and
    [scaledHeight]. *)
Definition layout (containerWidth viewportWidth viewportHeight : number)
    : number * number * number :=
  let targetWidth := mul containerWidth WIDTH_RATIO in
  let scale := div targetWidth viewportWidth in
  let scaledWidth := mul viewportWidth scale in
  let scaledHeight := mul viewportHeight scale in
  (scale, scaledWidth, scaledHeight).

(** [Math.min] on two numbers: NaN if either is; [-0] is below [+0]. *)
Definition min (x y : number) : number :=
  match x, y with
  | SpecFloat.S754_nan, _ | _, SpecFloat.S754_nan => SpecFloat.S754_nan
  | SpecFloat.S754_zero true, SpecFloat.S754_zero _ => x
  | SpecFloat.S754_zero _, SpecFloat.S754_zero true => y
  | _, _ => if lt y x then y else x
  end.

(** A number converted to [unsigned long] (Web IDL): NaN and the
    infinities give 0; a finite number is truncated towards zero, then
    taken modulo 2^32. *)
Definition toUnsignedLong (x : number) : Z :=
  match x with
  | SpecFloat.S754_finite s m (Zneg d) =>
      (Z.quot (SpecFloat.cond_Zopp s (Zpos m)) (2 ^ Zpos d) mod 2 ^ 32)%Z
  | SpecFloat.S754_finite s m e =>
      ((SpecFloat.cond_Zopp s (Zpos m) * 2 ^ e) mod 2 ^ 32)%Z
  | _ => 0%Z
  end.

(** [canvas.width = x] and [canvas.height = x], as in [Dom.reflect]
    below. *)
Definition reflect (default : Z) (x : number) : Z :=
  let n := toUnsignedLong x in
  if (n <=? 2147483647)%Z then n else default.

(** The size of [page.getViewport({ scale })] for a page of the given
    natural size, modelled as in [Pdfjs] below: the natural size times
    [scale]. *)
Definition getViewport (naturalWidth naturalHeight scale : number)
    : number * number :=
  (mul naturalWidth scale, mul naturalHeight scale).

(** [const MAX_WIDTH = 1000] of the simple viewer. *)
Definition MAX_WIDTH : number := ofZ 1000.


(** [const QUALITY_SCALE = 2] of the high-quality viewer. *)
Definition QUALITY_SCALE : number := ofZ 2.


End Binary64.

(** ** The document engine (pdfjs-dist) *)

Module Pdfjs.

(** A [PageViewport]: only its size is read by the viewers. *)
Record PageViewport := { width : Q; height : Q }.

(** A [PDFPageProxy] is known by its natural size, the viewport at
    scale 1. *)
Record PDFPageProxy := { natural : PageViewport }.

(** A [PDFDocumentProxy]: its pages, in order; [numPages] is their
    number. *)
Record PDFDocumentProxy := { pageList : list PDFPageProxy }.

Definition numPages (doc : PDFDocumentProxy) : nat := length (pageList doc).

(** Modelled from the spec: [Page.getNaturalSize] and the display scale
    of the document engine, which is not code of this repository.
    [page.getViewport({ scale })] multiplies the natural size by
    [scale]. *)
Definition getViewport (page : PDFPageProxy) (scale : Q) : PageViewport :=
  {| width := width (natural page) * scale;
     height := height (natural page) * scale |}.

(** The page that [doc.getPage(n)] resolves to (page numbers start
    at 1); [None] when the engine has no such page and the promise
    rejects. *)
Definition getPage (doc : PDFDocumentProxy) (n : nat) : option PDFPageProxy :=
  match n with
  | O => None
  | S i => pageList doc !! i
  end.

(** How an awaited promise settles. *)
Inductive Outcome := Fulfilled | Rejected.

End Pdfjs.

(** ** The host page *)

Module Dom.

(** An [HTMLCanvasElement]: the size of its backing buffer (the [width]
    and [height] attributes, of type [unsigned long]), the CSS size set
    through [canvas.style] (in px, [None] while unset), and whether
    [getContext('2d')] yields a context. *)
Record Canvas := {
  width : Z;
  height : Z;
  style_width : option Q;
  style_height : option Q;
  context2d : bool
}.

(** A number converted to [unsigned long] (Web IDL): truncated towards
    zero, then taken modulo 2^32. *)
Definition toUnsignedLong (x : Q) : Z :=
  (Z.quot (Qnum x) (Zpos (Qden x)) mod 2 ^ 32)%Z.

(** [canvas.width = x] and [canvas.height = x].  The attributes reflect
    content attributes (HTML): a value above 2^31 - 1 is not stored, the
    attribute falls back to its default, 300 for the width and 150 for
    the height. *)
Definition reflect (default : Z) (x : Q) : Z :=
  let n := toUnsignedLong x in
  if (n <=? 2147483647)%Z then n else default.

Definition setWidth (x : Q) : Z := reflect 300 x.
Definition setHeight (x : Q) : Z := reflect 150 x.

Arguments setWidth : simpl never.
Arguments setHeight : simpl never.

(** A canvas as the template creates it: 300 x 150, no inline style. *)
Definition newCanvas (context2d : bool) : Canvas :=
  {| width := 300; height := 150;
     style_width := None; style_height := None;
     context2d := context2d |}.

(** The [contentRect] of a [ResizeObserverEntry]. *)
Record ResizeObserverEntry := { contentRect_width : Q; contentRect_height : Q }.

(** An [IntersectionObserver]: the page whose [pageState] its callback
    closes over (as an index into [state.pages]), and the elements it
    observes (by their [data-page] attribute).  [disconnect()] empties
    the latter; the browser calls back only observers that observe
    something. *)
Record IntersectionObserver := { closure : nat; targets : list nat }.

Definition disconnect (o : IntersectionObserver) : IntersectionObserver :=
  {| closure := closure o; targets := [] |}.

Definition observing (o : IntersectionObserver) : bool :=
  match targets o with [] => false | _ :: _ => true end.

(** The life of a Svelte component. *)
Inductive Phase := Unmounted | Mounted | Destroyed.

(** What reaches [console.error]. *)
Inductive LogEntry :=
| ErrorLoadingPDF
| ErrorRenderingPage (pageNum : nat).

End Dom.

(** ** The event loop *)

Module Loop.

(** An [async] call parked at an [await].  A page state is referred to
    by its index in [state.pages]: the array is created once, when the
    document opens, before any call that holds a page state starts. *)
Inductive Task :=
| LoadAwaitDocument                         (* loadPDF, at [await loadingTask.promise] *)
| LoadAwaitLayout                           (* loadPDF, at [await calculatePageDimensions()],
                                               once that call has returned *)
| LayoutAwaitPage (i : nat) (awaited : bool) (* calculatePageDimensions, iteration [i], at
                                               [await getPage(i + 1)]; [awaited] when the
                                               caller is loadPDF *)
| RenderAwaitPage (i : nat)                 (* renderPage(state.pages[i]), at [await getPage] *)
| RenderAwaitRaster (i : nat).              (* renderPage(state.pages[i]), at
                                               [await page.render(...).promise] *)

(** One turn of the event loop. *)
Inductive Event :=
| Mount                                               (* onMount *)
| Progress (loaded total : Q)                         (* loadingTask.onProgress *)
| Flush (context2d : bool)                            (* Svelte brings the DOM up to date *)
| Resize (entries : list Dom.ResizeObserverEntry)     (* the container changed size *)
| Intersect (observer : nat) (entries : list bool)    (* an IntersectionObserver fires; an entry
                                                         is its [isIntersecting] *)
| Settle (k : nat) (r : Pdfjs.Outcome)                (* the promise awaited by [pending[k]] settles *)
| Destroy.                                            (* onDestroy, then Svelte removes the DOM *)

(** A call of [page.render]: the page and the viewport it rasterizes. *)
Record RenderCall := { rc_page : nat; rc_viewport : Pdfjs.PageViewport }.

Record World (State : Type) := mkWorld {
  state : State;                                  (* [let state] *)
  portfolio : Pdfjs.PDFDocumentProxy;             (* the document behind [pdfUrl] *)
  phase : Dom.Phase;
  containerRef : option (list nat);               (* the bound container: the [data-page]
                                                     attributes of the page elements in it *)
  observers : list nat;                           (* [let observers], as positions in [created] *)
  created : list Dom.IntersectionObserver;        (* every IntersectionObserver constructed so far *)
  pending : list Task;                            (* the parked async calls *)
  console : list Dom.LogEntry;                    (* console.error, oldest first *)
  getPageCalls : list nat;                        (* pdfDoc.getPage(n), oldest first *)
  renderCalls : list RenderCall;                  (* page.render(...), oldest first *)
  unhandledRejections : nat                       (* promises rejected with nobody awaiting *)
}.

Arguments mkWorld {State}.
Arguments state {State}.
Arguments portfolio {State}.
Arguments phase {State}.
Arguments containerRef {State}.
Arguments observers {State}.
Arguments created {State}.
Arguments pending {State}.
Arguments console {State}.
Arguments getPageCalls {State}.
Arguments renderCalls {State}.
Arguments unhandledRejections {State}.

Section Effects.
Context {State : Type}.
Implicit Type w : World State.

Definition with_state (f : State -> State) w : World State :=
  mkWorld (f (state w)) (portfolio w) (phase w) (containerRef w) (observers w)
    (created w) (pending w) (console w) (getPageCalls w) (renderCalls w)
    (unhandledRejections w).

Definition with_phase (p : Dom.Phase) w : World State :=
  mkWorld (state w) (portfolio w) p (containerRef w) (observers w)
    (created w) (pending w) (console w) (getPageCalls w) (renderCalls w)
    (unhandledRejections w).

Definition with_containerRef (c : option (list nat)) w : World State :=
  mkWorld (state w) (portfolio w) (phase w) c (observers w)
    (created w) (pending w) (console w) (getPageCalls w) (renderCalls w)
    (unhandledRejections w).

Definition with_observers (o : list nat * list Dom.IntersectionObserver) w
  : World State :=
  mkWorld (state w) (portfolio w) (phase w) (containerRef w) (fst o)
    (snd o) (pending w) (console w) (getPageCalls w) (renderCalls w)
    (unhandledRejections w).

Definition with_pending (l : list Task) w : World State :=
  mkWorld (state w) (portfolio w) (phase w) (containerRef w) (observers w)
    (created w) l (console w) (getPageCalls w) (renderCalls w)
    (unhandledRejections w).

(** The current call parks at an [await]. *)
Definition park (t : Task) w : World State :=
  with_pending (pending w ++ [t]) w.

(** [console.error(...)]. *)
Definition log (e : Dom.LogEntry) w : World State :=
  mkWorld (state w) (portfolio w) (phase w) (containerRef w) (observers w)
    (created w) (pending w) (console w ++ [e]) (getPageCalls w) (renderCalls w)
    (unhandledRejections w).

(** [state.pdfDoc.getPage(n)] is called. *)
Definition callGetPage (n : nat) w : World State :=
  mkWorld (state w) (portfolio w) (phase w) (containerRef w) (observers w)
    (created w) (pending w) (console w) (getPageCalls w ++ [n]) (renderCalls w)
    (unhandledRejections w).

(** [page.render({ canvasContext, viewport })] is called. *)
Definition callRender (n : nat) (viewport : Pdfjs.PageViewport) w : World State :=
  mkWorld (state w) (portfolio w) (phase w) (containerRef w) (observers w)
    (created w) (pending w) (console w) (getPageCalls w)
    (renderCalls w ++ [{| rc_page := n; rc_viewport := viewport |}])
    (unhandledRejections w).

(** An async call ends in a rejection that nothing awaits. *)
Definition rejectUnhandled w : World State :=
  mkWorld (state w) (portfolio w) (phase w) (containerRef w) (observers w)
    (created w) (pending w) (console w) (getPageCalls w) (renderCalls w)
    (S (unhandledRejections w)).

End Effects.

(** *** The visibility tracker, common to both viewers *)

(** [observers.forEach((observer) => observer.disconnect())]. *)
Definition disconnectAll (observers : list nat)
    (created : list Dom.IntersectionObserver) : list Dom.IntersectionObserver :=
  foldl (fun heap o => alter Dom.disconnect o heap) created observers.

(** [containerRef?.querySelector(`[data-page="${n}"]`)]: is there such an
    element? *)
Definition querySelector (containerRef : option (list nat)) (n : nat) : bool :=
  match containerRef with
  | None => false
  | Some elements => bool_decide (n ∈ elements)
  end.

(** One iteration of [state.pages.forEach((pageState, index) => ...)]:
    a new observer closing over [pageState]; it observes the page
    element, and is pushed on [observers], only if the element exists. *)
Definition observePage (containerRef : option (list nat))
    (acc : list nat * list Dom.IntersectionObserver) (index : nat)
    : list nat * list Dom.IntersectionObserver :=
  let observer := length (snd acc) in
  if querySelector containerRef (index + 1)
  then (fst acc ++ [observer],
        snd acc ++ [{| Dom.closure := index; Dom.targets := [index + 1] |}])
  else (fst acc, snd acc ++ [{| Dom.closure := index; Dom.targets := [] |}]).

(** The body of [setupIntersectionObservers] for [pages] page states. *)
Definition setupObservers (containerRef : option (list nat)) (pages : nat)
    (observers : list nat) (created : list Dom.IntersectionObserver)
    : list nat * list Dom.IntersectionObserver :=
  foldl (observePage containerRef) ([], disconnectAll observers created)
    (seq 0 pages).

(** The body of [onDestroy] that concerns the visibility tracker. *)
Definition teardownObservers (observers : list nat)
    (created : list Dom.IntersectionObserver)
    : list nat * list Dom.IntersectionObserver :=
  (observers, disconnectAll observers created).

(** Running a list of events, first to last. *)
Definition run {State} (step : Event -> World State -> World State)
    (events : list Event) (w : World State) : World State :=
  foldl (fun w e => step e w) w events.

End Loop.

(** ** The high-quality viewer

    The component that sizes pages to [WIDTH_RATIO] of the container, renders
    them at [QUALITY_SCALE] times that resolution and lays them out again
    when the container is resized. *)

Module HighQuality.
Import Loop.

Record PageState := {
  pageNum : nat;
  canvas : option Dom.Canvas;
  rendered : bool;
  height : Q;
  width : Q;
  scale : Q;
  actualHeight : Q;
  actualWidth : Q
}.

Record ViewerState := {
  pdfDoc : option Pdfjs.PDFDocumentProxy;
  pageCount : nat;
  loading : bool;
  loadingProgress : Q;
  pages : list PageState;
  containerWidth : Q;
  containerHeight : Q
}.

Definition QUALITY_SCALE : Q := 2.
Definition WIDTH_RATIO : Q := 9 # 10.

Definition World := Loop.World ViewerState.

(** [let state: ViewerState = { ... }]. *)
Definition initialState : ViewerState :=
  {| pdfDoc := None; pageCount := 0; loading := true; loadingProgress := 0;
     pages := []; containerWidth := 0; containerHeight := 0 |}.

(** The component before it is mounted, for the document [doc] at
    [pdfUrl]. *)
Definition init (doc : Pdfjs.PDFDocumentProxy) : World :=
  mkWorld initialState doc Dom.Unmounted None [] [] [] [] [] [] 0.

(** *** Field updates *)

Definition set_canvas (c : option Dom.Canvas) (p : PageState) : PageState :=
  {| pageNum := pageNum p; canvas := c; rendered := rendered p;
     height := height p; width := width p; scale := scale p;
     actualHeight := actualHeight p; actualWidth := actualWidth p |}.

Definition set_rendered (b : bool) (p : PageState) : PageState :=
  {| pageNum := pageNum p; canvas := canvas p; rendered := b;
     height := height p; width := width p; scale := scale p;
     actualHeight := actualHeight p; actualWidth := actualWidth p |}.

Definition set_pages (l : list PageState) (s : ViewerState) : ViewerState :=
  {| pdfDoc := pdfDoc s; pageCount := pageCount s; loading := loading s;
     loadingProgress := loadingProgress s; pages := l;
     containerWidth := containerWidth s; containerHeight := containerHeight s |}.

Definition set_loading (b : bool) (s : ViewerState) : ViewerState :=
  {| pdfDoc := pdfDoc s; pageCount := pageCount s; loading := b;
     loadingProgress := loadingProgress s; pages := pages s;
     containerWidth := containerWidth s; containerHeight := containerHeight s |}.

Definition set_loadingProgress (x : Q) (s : ViewerState) : ViewerState :=
  {| pdfDoc := pdfDoc s; pageCount := pageCount s; loading := loading s;
     loadingProgress := x; pages := pages s;
     containerWidth := containerWidth s; containerHeight := containerHeight s |}.

Definition set_container (w h : Q) (s : ViewerState) : ViewerState :=
  {| pdfDoc := pdfDoc s; pageCount := pageCount s; loading := loading s;
     loadingProgress := loadingProgress s; pages := pages s;
     containerWidth := w; containerHeight := h |}.

(** [state.pages[i] = f(state.pages[i])], for the in-place updates of a
    page state; the source only ever writes to indices it has read. *)
Definition update_page (i : nat) (f : PageState -> PageState) (w : World) : World :=
  with_state (fun s => set_pages (alter f i (pages s)) s) w.

(** *** loadingTask.onProgress *)

Definition onProgress (loaded total : Q) (s : ViewerState) : ViewerState :=
  if Qlt_le_dec 0 total
  then set_loadingProgress (Math.round ((loaded / total) * 100)) s
  else s.

(** *** renderPage *)

(** The guard of [renderPage]:
    [!state.pdfDoc || pageState.rendered || !pageState.canvas]. *)
Definition renderGuard (s : ViewerState) (pageState : PageState) : bool :=
  negb (bool_decide (is_Some (pdfDoc s)))
  || rendered pageState
  || negb (bool_decide (is_Some (canvas pageState))).

(** [renderPage(state.pages[i])] up to its first [await]. *)
Definition renderPage (i : nat) (w : World) : World :=
  match pages (state w) !! i with
  | None => w
  | Some pageState =>
      if renderGuard (state w) pageState then w
      else park (RenderAwaitPage i) (callGetPage (pageNum pageState) w)
  end.

(** The [catch] of [renderPage]. *)
Definition renderPage_catch (pageState : PageState) (w : World) : World :=
  log (Dom.ErrorRenderingPage (pageNum pageState)) w.

(** [renderPage] from the settlement of [getPage] to
    [await page.render(...).promise].  A canvas that went away while the
    call was parked makes [pageState.canvas.width = ...] throw. *)
Definition renderPage_gotPage (i : nat) (r : Pdfjs.Outcome) (w : World) : World :=
  match pages (state w) !! i with
  | None => w
  | Some pageState =>
      match r, pdfDoc (state w) ≫= (fun doc => Pdfjs.getPage doc (pageNum pageState)) with
      | Pdfjs.Fulfilled, Some page =>
          let renderScale := (scale pageState * QUALITY_SCALE)%Q in
          let viewport := Pdfjs.getViewport page renderScale in
          match canvas pageState with
          | None => renderPage_catch pageState w
          | Some c =>
              let c' := {| Dom.width := Dom.setWidth (Pdfjs.width viewport);
                           Dom.height := Dom.setHeight (Pdfjs.height viewport);
                           Dom.style_width := Some (width pageState);
                           Dom.style_height := Some (height pageState);
                           Dom.context2d := Dom.context2d c |} in
              let w1 := update_page i (set_canvas (Some c')) w in
              if Dom.context2d c
              then park (RenderAwaitRaster i)
                     (callRender (pageNum pageState) viewport w1)
              else renderPage_catch pageState w1
          end
      | _, _ => renderPage_catch pageState w
      end
  end.

(** [renderPage] after [page.render(...).promise] settled. *)
Definition renderPage_rasterized (i : nat) (r : Pdfjs.Outcome) (w : World) : World :=
  match pages (state w) !! i with
  | None => w
  | Some pageState =>
      match r with
      | Pdfjs.Fulfilled => update_page i (set_rendered true) w
      | Pdfjs.Rejected => renderPage_catch pageState w
      end
  end.

(** *** calculatePageDimensions *)

(** The assignments of one loop iteration, lines 101 to 117, for the page
    the engine returned and the container width of the moment. *)
Definition layoutPage (containerWidth : Q) (page : Pdfjs.PDFPageProxy)
    (p : PageState) : PageState :=
  let viewport := Pdfjs.getViewport page 1 in
  let targetWidth := (containerWidth * WIDTH_RATIO)%Q in
  let scale := (targetWidth / Pdfjs.width viewport)%Q in
  let scaledWidth := (Pdfjs.width viewport * scale)%Q in
  let scaledHeight := (Pdfjs.height viewport * scale)%Q in
  {| pageNum := pageNum p; canvas := canvas p; rendered := rendered p;
     height := scaledHeight; width := scaledWidth; scale := scale;
     actualHeight := Pdfjs.height viewport;
     actualWidth := Pdfjs.width viewport |}.

(** The call returns: when loadPDF awaits it, loadPDF is resumed in a
    later turn. *)
Definition calculate_return (awaited : bool) (w : World) : World :=
  if awaited then park LoadAwaitLayout w else w.

(** The catch of [loadPDF]. *)
Definition loadPDF_catch (w : World) : World :=
  with_state (set_loading false) (log Dom.ErrorLoadingPDF w).

(** The call throws: loadPDF catches what it awaits, a call started by
    [handleResize] has nobody to catch it. *)
Definition calculate_throw (awaited : bool) (w : World) : World :=
  if awaited then loadPDF_catch w else rejectUnhandled w.

(** The loop test [i < state.pageCount] and the [await getPage(i + 1)]
    that opens iteration [i]. *)
Definition calculate_loop (i : nat) (awaited : bool) (w : World) : World :=
  if (i <? pageCount (state w))%nat
  then park (LayoutAwaitPage i awaited) (callGetPage (i + 1) w)
  else calculate_return awaited w.

(** [calculatePageDimensions()] up to its first [await]. *)
Definition calculatePageDimensions (awaited : bool) (w : World) : World :=
  if negb (bool_decide (is_Some (pdfDoc (state w))))
     || Qeq_bool (containerWidth (state w)) 0
  then calculate_return awaited w
  else calculate_loop 0 awaited w.

(** Iteration [i] after [getPage(i + 1)] settled, up to the next
    [await]. *)
Definition calculate_gotPage (i : nat) (awaited : bool) (r : Pdfjs.Outcome)
    (w : World) : World :=
  match r, pdfDoc (state w) ≫= (fun doc => Pdfjs.getPage doc (i + 1)),
        pages (state w) !! i with
  | Pdfjs.Fulfilled, Some page, Some p =>
      let w1 := update_page i (layoutPage (containerWidth (state w)) page) w in
      let w2 :=
        if rendered p && bool_decide (is_Some (canvas p))
        then renderPage i (update_page i (set_rendered false) w1)
        else w1 in
      calculate_loop (S i) awaited w2
  | _, _, _ => calculate_throw awaited w
  end.

(** *** handleResize *)

Definition handleResize (entries : list Dom.ResizeObserverEntry) (w : World)
    : World :=
  match entries with
  | [] => w
  | entry :: _ =>
      calculatePageDimensions false
        (with_state (set_container (Dom.contentRect_width entry)
                                   (Dom.contentRect_height entry)) w)
  end.

(** *** setupIntersectionObservers and the observer callback *)

Definition setupIntersectionObservers (w : World) : World :=
  with_observers
    (setupObservers (containerRef w) (length (pages (state w)))
       (observers w) (created w)) w.

(** The callback of the observer that closes over [state.pages[i]]. *)
Definition intersectionCallback (i : nat) (entries : list bool) (w : World)
    : World :=
  foldl (fun w isIntersecting =>
           match pages (state w) !! i with
           | Some pageState =>
               if isIntersecting && negb (rendered pageState)
               then renderPage i w else w
           | None => w
           end) w entries.

(** *** loadPDF *)

(** [Array.from({ length: state.pageCount }, (_, i) => ({ ... }))]. *)
Definition newPages (pageCount : nat) : list PageState :=
  map (fun i => {| pageNum := i + 1; canvas := None; rendered := false;
                   height := 0; width := 0; scale := 1;
                   actualHeight := 0; actualWidth := 0 |})
      (seq 0 pageCount).

(** [loadPDF()] up to [await loadingTask.promise]. *)
Definition loadPDF (w : World) : World := park LoadAwaitDocument w.

(** [loadPDF] from the settlement of the loading task to
    [await calculatePageDimensions()]. *)
Definition loadPDF_gotDocument (r : Pdfjs.Outcome) (w : World) : World :=
  match r with
  | Pdfjs.Fulfilled =>
      let doc := portfolio w in
      calculatePageDimensions true
        (with_state (fun s =>
           {| pdfDoc := Some doc; pageCount := Pdfjs.numPages doc;
              loading := false; loadingProgress := loadingProgress s;
              pages := newPages (Pdfjs.numPages doc);
              containerWidth := containerWidth s;
              containerHeight := containerHeight s |}) w)
  | Pdfjs.Rejected => loadPDF_catch w
  end.

(** *** The template, onMount and onDestroy *)

(** [<canvas bind:this={page.canvas}>]. *)
Definition bindCanvas (context2d : bool) (p : PageState) : PageState :=
  match canvas p with
  | Some _ => p
  | None => set_canvas (Some (Dom.newCanvas context2d)) p
  end.

(** The template: the container and one element and canvas per page
    exist exactly when [state.loading] is false. *)
Definition flush (context2d : bool) (w : World) : World :=
  if loading (state w) then with_containerRef None w
  else with_containerRef (Some (map pageNum (pages (state w))))
         (with_state (fun s => set_pages (map (bindCanvas context2d) (pages s)) s) w).

(** [onMount], line 192: [loadPDF()], up to its first [await].  Lines
    193 to 196 create the ResizeObserver; whether it observes the
    container is part of [Wired.Component], below. *)
Definition onMount (w : World) : World := loadPDF w.

Definition onDestroy (w : World) : World :=
  with_observers (teardownObservers (observers w) (created w)) w.

(** Svelte removes the DOM of a destroyed component and resets what was
    bound with [bind:this]. *)
Definition unbind (w : World) : World :=
  with_phase Dom.Destroyed
    (with_containerRef None
       (with_state (fun s => set_pages (map (set_canvas None) (pages s)) s) w)).

(** *** The transition function *)

Definition resume (t : Task) (r : Pdfjs.Outcome) (w : World) : World :=
  match t with
  | LoadAwaitDocument => loadPDF_gotDocument r w
  | LoadAwaitLayout => setupIntersectionObservers w
  | LayoutAwaitPage i awaited => calculate_gotPage i awaited r w
  | RenderAwaitPage i => renderPage_gotPage i r w
  | RenderAwaitRaster i => renderPage_rasterized i r w
  end.

Definition mounted (w : World) : bool :=
  match phase w with Dom.Mounted => true | _ => false end.

Definition step (e : Event) (w : World) : World :=
  match e with
  | Mount =>
      match phase w with
      | Dom.Unmounted => onMount (with_phase Dom.Mounted w)
      | _ => w
      end
  | Progress loaded total =>
      match phase w with
      | Dom.Unmounted => w
      | _ => with_state (onProgress loaded total) w
      end
  | Flush context2d => if mounted w then flush context2d w else w
  | Resize entries => if mounted w then handleResize entries w else w
  | Intersect o entries =>
      match created w !! o with
      | Some observer =>
          if Dom.observing observer
          then intersectionCallback (Dom.closure observer) entries w
          else w
      | None => w
      end
  | Settle k r =>
      match pending w !! k with
      | Some t => resume t r (with_pending (delete k (pending w)) w)
      | None => w
      end
  | Destroy => if mounted w then unbind (onDestroy w) else w
  end.

Definition run : list Event -> World -> World := Loop.run step.

End HighQuality.

(** ** The simple viewer, [src/routes/+page.svelte]

    Pages are scaled to fit [MAX_WIDTH], never by more than 1.5; nothing
    listens to the size of the container. *)

Module Simple.
Import Loop.

Record PageState := {
  pageNum : nat;
  canvas : option Dom.Canvas;
  rendered : bool;
  height : Q;
  width : Q
}.

Record ViewerState := {
  pdfDoc : option Pdfjs.PDFDocumentProxy;
  pageCount : nat;
  loading : bool;
  loadingProgress : Q;
  pages : list PageState
}.

Definition MAX_WIDTH : Q := 1000.

Definition World := Loop.World ViewerState.

(** [let state: ViewerState = { ... }]. *)
Definition initialState : ViewerState :=
  {| pdfDoc := None; pageCount := 0; loading := true; loadingProgress := 0;
     pages := [] |}.

Definition init (doc : Pdfjs.PDFDocumentProxy) : World :=
  mkWorld initialState doc Dom.Unmounted None [] [] [] [] [] [] 0.

(** *** Field updates *)

Definition set_canvas (c : option Dom.Canvas) (p : PageState) : PageState :=
  {| pageNum := pageNum p; canvas := c; rendered := rendered p;
     height := height p; width := width p |}.

Definition set_rendered (b : bool) (p : PageState) : PageState :=
  {| pageNum := pageNum p; canvas := canvas p; rendered := b;
     height := height p; width := width p |}.

Definition set_pages (l : list PageState) (s : ViewerState) : ViewerState :=
  {| pdfDoc := pdfDoc s; pageCount := pageCount s; loading := loading s;
     loadingProgress := loadingProgress s; pages := l |}.

Definition set_loading (b : bool) (s : ViewerState) : ViewerState :=
  {| pdfDoc := pdfDoc s; pageCount := pageCount s; loading := b;
     loadingProgress := loadingProgress s; pages := pages s |}.

Definition set_loadingProgress (x : Q) (s : ViewerState) : ViewerState :=
  {| pdfDoc := pdfDoc s; pageCount := pageCount s; loading := loading s;
     loadingProgress := x; pages := pages s |}.

Definition update_page (i : nat) (f : PageState -> PageState) (w : World) : World :=
  with_state (fun s => set_pages (alter f i (pages s)) s) w.

(** *** loadingTask.onProgress *)

Definition onProgress (loaded total : Q) (s : ViewerState) : ViewerState :=
  if Qlt_le_dec 0 total
  then set_loadingProgress (Math.round ((loaded / total) * 100)) s
  else s.

(** *** The scale, lines 81 and 97 *)

(** [Math.min(MAX_WIDTH / viewport.width, 1.5)]. *)
Definition fitScale (viewport : Pdfjs.PageViewport) : Q :=
  Math.min (MAX_WIDTH / Pdfjs.width viewport) (3 # 2).

(** *** renderPage *)

Definition renderGuard (s : ViewerState) (pageState : PageState) : bool :=
  negb (bool_decide (is_Some (pdfDoc s)))
  || rendered pageState
  || negb (bool_decide (is_Some (canvas pageState))).

(** [renderPage(state.pages[i])] up to its first [await]. *)
Definition renderPage (i : nat) (w : World) : World :=
  match pages (state w) !! i with
  | None => w
  | Some pageState =>
      if renderGuard (state w) pageState then w
      else park (RenderAwaitPage i) (callGetPage (pageNum pageState) w)
  end.

(** The [catch] of [renderPage]. *)
Definition renderPage_catch (pageState : PageState) (w : World) : World :=
  log (Dom.ErrorRenderingPage (pageNum pageState)) w.

(** [renderPage] from the settlement of [getPage] to
    [await page.render(...).promise]. *)
Definition renderPage_gotPage (i : nat) (r : Pdfjs.Outcome) (w : World) : World :=
  match pages (state w) !! i with
  | None => w
  | Some pageState =>
      match r, pdfDoc (state w) ≫= (fun doc => Pdfjs.getPage doc (pageNum pageState)) with
      | Pdfjs.Fulfilled, Some page =>
          let viewport := Pdfjs.getViewport page 1 in
          let scale := fitScale viewport in
          let scaledViewport := Pdfjs.getViewport page scale in
          match canvas pageState with
          | None => renderPage_catch pageState w
          | Some c =>
              let c' := {| Dom.width := Dom.setWidth (Pdfjs.width scaledViewport);
                           Dom.height := Dom.setHeight (Pdfjs.height scaledViewport);
                           Dom.style_width := Dom.style_width c;
                           Dom.style_height := Dom.style_height c;
                           Dom.context2d := Dom.context2d c |} in
              let w1 := update_page i (set_canvas (Some c')) w in
              if Dom.context2d c
              then park (RenderAwaitRaster i)
                     (callRender (pageNum pageState) scaledViewport w1)
              else renderPage_catch pageState w1
          end
      | _, _ => renderPage_catch pageState w
      end
  end.

(** [renderPage] after [page.render(...).promise] settled. *)
Definition renderPage_rasterized (i : nat) (r : Pdfjs.Outcome) (w : World) : World :=
  match pages (state w) !! i with
  | None => w
  | Some pageState =>
      match r with
      | Pdfjs.Fulfilled => update_page i (set_rendered true) w
      | Pdfjs.Rejected => renderPage_catch pageState w
      end
  end.

(** *** calculatePageDimensions *)

(** The assignments of one loop iteration, lines 78 to 85. *)
Definition layoutPage (page : Pdfjs.PDFPageProxy) (p : PageState) : PageState :=
  let viewport := Pdfjs.getViewport page 1 in
  let scale := fitScale viewport in
  let scaledViewport := Pdfjs.getViewport page scale in
  {| pageNum := pageNum p; canvas := canvas p; rendered := rendered p;
     height := Pdfjs.height scaledViewport;
     width := Pdfjs.width scaledViewport |}.

(** The catch of [loadPDF], the only caller of
    [calculatePageDimensions]. *)
Definition loadPDF_catch (w : World) : World :=
  with_state (set_loading false) (log Dom.ErrorLoadingPDF w).

(** The loop test [i < state.pageCount] and the [await getPage(i + 1)]
    that opens iteration [i]; when the loop ends the call returns and
    loadPDF is resumed in a later turn. *)
Definition calculate_loop (i : nat) (w : World) : World :=
  if (i <? pageCount (state w))%nat
  then park (LayoutAwaitPage i true) (callGetPage (i + 1) w)
  else park LoadAwaitLayout w.

(** [calculatePageDimensions()] up to its first [await]. *)
Definition calculatePageDimensions (w : World) : World :=
  if negb (bool_decide (is_Some (pdfDoc (state w))))
  then park LoadAwaitLayout w
  else calculate_loop 0 w.

(** Iteration [i] after [getPage(i + 1)] settled, up to the next
    [await]. *)
Definition calculate_gotPage (i : nat) (r : Pdfjs.Outcome) (w : World) : World :=
  match r, pdfDoc (state w) ≫= (fun doc => Pdfjs.getPage doc (i + 1)),
        pages (state w) !! i with
  | Pdfjs.Fulfilled, Some page, Some _ =>
      calculate_loop (S i) (update_page i (layoutPage page) w)
  | _, _, _ => loadPDF_catch w
  end.

(** *** setupIntersectionObservers and the observer callback *)

Definition setupIntersectionObservers (w : World) : World :=
  with_observers
    (setupObservers (containerRef w) (length (pages (state w)))
       (observers w) (created w)) w.

(** The callback of the observer that closes over [state.pages[i]]. *)
Definition intersectionCallback (i : nat) (entries : list bool) (w : World)
    : World :=
  foldl (fun w isIntersecting =>
           match pages (state w) !! i with
           | Some pageState =>
               if isIntersecting && negb (rendered pageState)
               then renderPage i w else w
           | None => w
           end) w entries.

(** *** loadPDF *)

(** [Array.from({ length: state.pageCount }, (_, i) => ({ ... }))]. *)
Definition newPages (pageCount : nat) : list PageState :=
  map (fun i => {| pageNum := i + 1; canvas := None; rendered := false;
                   height := 0; width := 0 |})
      (seq 0 pageCount).

(** [loadPDF()] up to [await loadingTask.promise]. *)
Definition loadPDF (w : World) : World := park LoadAwaitDocument w.

(** [loadPDF] from the settlement of the loading task to
    [await calculatePageDimensions()]. *)
Definition loadPDF_gotDocument (r : Pdfjs.Outcome) (w : World) : World :=
  match r with
  | Pdfjs.Fulfilled =>
      let doc := portfolio w in
      calculatePageDimensions
        (with_state (fun s =>
           {| pdfDoc := Some doc; pageCount := Pdfjs.numPages doc;
              loading := false; loadingProgress := loadingProgress s;
              pages := newPages (Pdfjs.numPages doc) |}) w)
  | Pdfjs.Rejected => loadPDF_catch w
  end.

(** *** The template, onMount and onDestroy *)

(** [<canvas bind:this={page.canvas}>]. *)
Definition bindCanvas (context2d : bool) (p : PageState) : PageState :=
  match canvas p with
  | Some _ => p
  | None => set_canvas (Some (Dom.newCanvas context2d)) p
  end.

(** The template: the container and one element and canvas per page
    exist exactly when [state.loading] is false. *)
Definition flush (context2d : bool) (w : World) : World :=
  if loading (state w) then with_containerRef None w
  else with_containerRef (Some (map pageNum (pages (state w))))
         (with_state (fun s => set_pages (map (bindCanvas context2d) (pages s)) s) w).

Definition onMount (w : World) : World := loadPDF w.

Definition onDestroy (w : World) : World :=
  with_observers (teardownObservers (observers w) (created w)) w.

(** Svelte removes the DOM of a destroyed component and resets what was
    bound with [bind:this]. *)
Definition unbind (w : World) : World :=
  with_phase Dom.Destroyed
    (with_containerRef None
       (with_state (fun s => set_pages (map (set_canvas None) (pages s)) s) w)).

(** *** The transition function *)

Definition resume (t : Task) (r : Pdfjs.Outcome) (w : World) : World :=
  match t with
  | LoadAwaitDocument => loadPDF_gotDocument r w
  | LoadAwaitLayout => setupIntersectionObservers w
  | LayoutAwaitPage i _ => calculate_gotPage i r w
  | RenderAwaitPage i => renderPage_gotPage i r w
  | RenderAwaitRaster i => renderPage_rasterized i r w
  end.

Definition mounted (w : World) : bool :=
  match phase w with Dom.Mounted => true | _ => false end.

(** A [Resize] finds no listener: the component creates no
    ResizeObserver and never reads the size of [containerRef]. *)
Definition step (e : Event) (w : World) : World :=
  match e with
  | Mount =>
      match phase w with
      | Dom.Unmounted => onMount (with_phase Dom.Mounted w)
      | _ => w
      end
  | Progress loaded total =>
      match phase w with
      | Dom.Unmounted => w
      | _ => with_state (onProgress loaded total) w
      end
  | Flush context2d => if mounted w then flush context2d w else w
  | Resize _ => w
  | Intersect o entries =>
      match created w !! o with
      | Some observer =>
          if Dom.observing observer
          then intersectionCallback (Dom.closure observer) entries w
          else w
      | None => w
      end
  | Settle k r =>
      match pending w !! k with
      | Some t => resume t r (with_pending (delete k (pending w)) w)
      | None => w
      end
  | Destroy => if mounted w then unbind (onDestroy w) else w
  end.

Definition run : list Event -> World -> World := Loop.run step.

End Simple.

(** ** What the statements below speak of *)

(** The visibility tracker: who still observes, and which page. *)

Module Tracker.
Import Loop.

(** Every observer that still observes something is listed in the
    [observers] array. *)
Definition tracked (observers : list nat)
    (created : list Dom.IntersectionObserver) : Prop :=
  forall o ob, created !! o = Some ob -> Dom.observing ob = true -> o ∈ observers.

(** No observer observes anything: no visibility callback can fire. *)
Definition silent (created : list Dom.IntersectionObserver) : Prop :=
  forall o ob, created !! o = Some ob -> Dom.observing ob = false.

(** At most one observing observer calls back for a given page. *)
Definition one_per_page (created : list Dom.IntersectionObserver) : Prop :=
  forall o1 o2 ob1 ob2,
    created !! o1 = Some ob1 -> created !! o2 = Some ob2 ->
    Dom.observing ob1 = true -> Dom.observing ob2 = true ->
    Dom.closure ob1 = Dom.closure ob2 -> o1 = o2.

(** An observing observer observes the element of the page it calls
    back for, and nothing else. *)
Definition own_page (created : list Dom.IntersectionObserver) : Prop :=
  forall o ob, created !! o = Some ob -> Dom.observing ob = true ->
    Dom.targets ob = [Dom.closure ob + 1].

(** The part of a world the tracker lives in. *)
Definition tracker {State} (w : World State) :=
  (phase w, containerRef w, observers w, created w).

(** What every reachable world satisfies. *)
Record invariant {State} (w : World State) : Prop := {
  inv_tracked : tracked (observers w) (created w);
  inv_one : one_per_page (created w);
  inv_own : own_page (created w);
  inv_destroyed :
    phase w = Dom.Destroyed -> containerRef w = None /\ silent (created w)
}.

(** What holds of the accumulator of [setupObservers] before the page of
    index [a] is visited, [old] being the observers left by the
    [disconnect] pass. *)
Record visiting (old : list Dom.IntersectionObserver) (a : nat)
    (acc : list nat * list Dom.IntersectionObserver) : Prop := {
  v_tracked : tracked (fst acc) (snd acc);
  v_one : one_per_page (snd acc);
  v_own : own_page (snd acc);
  v_below : forall o ob, snd acc !! o = Some ob -> Dom.observing ob = true ->
              (Dom.closure ob < a)%nat;
  v_old : forall o, (o < length old)%nat -> snd acc !! o = old !! o;
  v_length : (length old <= length (snd acc))%nat
}.

End Tracker.

(** The render scheduler: what is in flight, and what a finished render
    left on the canvas. *)

Module Scheduler.
Import Loop.

#[global] Instance task_eq_dec : EqDecision Task.
Proof. solve_decision. Defined.

(** The number of rasterizations of [state.pages[i]] in flight: the
    calls of [renderPage] parked at [await page.render(...).promise]. *)
Definition inFlight {State} (i : nat) (w : World State) : nat :=
  length (filter (fun t => t = RenderAwaitRaster i) (pending w)).



(** Is this event a resize notification? *)
Definition isResize (e : Event) : bool :=
  match e with Resize _ => true | _ => false end.

(** A run with the resize notifications taken out. *)
Definition withoutResize (events : list Event) : list Event :=
  filter (fun e => isResize e = false) events.

End Scheduler.

(** Concrete documents and runs. *)

Module Scenario.
Import Loop.

Definition page (w h : Q) : Pdfjs.PDFPageProxy :=
  {| Pdfjs.natural := {| Pdfjs.width := w; Pdfjs.height := h |} |}.

(** Three pages of natural size 600 x 800. *)
Definition threePages : Pdfjs.PDFDocumentProxy :=
  {| Pdfjs.pageList := [page 600 800; page 600 800; page 600 800] |}.

Definition resized (w h : Q) : Event :=
  Resize [{| Dom.contentRect_width := w; Dom.contentRect_height := h |}].

Definition settled : Event := Settle 0 Pdfjs.Fulfilled.

(** The high-quality viewer opens a document before its container is
    measured: mount, the document arrives, Svelte shows the pages,
    loadPDF resumes and sets the observers up. *)
Definition opened : list Event := [Mount; settled; Flush true; settled].

(** Then the container is measured, and the three pages are fetched and
    laid out one after the other. *)
Definition laidOut (containerWidth : Q) : list Event :=
  opened ++ [resized containerWidth 700; settled; settled; settled].

(** Page 1 scrolls into view and its rasterization starts; the
    container shrinks to 500 and all pages are laid out again while the
    rasterization is still running; then it completes. *)
Definition resizedMidRender : list Event :=
  laidOut 1000
    ++ [Intersect 0 [true]; settled;
        resized 500 700;
        Settle 1 Pdfjs.Fulfilled; Settle 1 Pdfjs.Fulfilled; Settle 1 Pdfjs.Fulfilled;
        settled].

(** Page 1 scrolls into view, is fetched and rasterized. *)
Definition firstPageRendered : list Event :=
  laidOut 1000 ++ [Intersect 0 [true]; settled; settled].

(** The high-quality viewer, with its container never measured: the
    observer of page 1 fires twice before the first fetch settles. *)
Definition visibleTwiceUnmeasured : list Event :=
  opened ++ [Intersect 0 [true]; Intersect 0 [true]; settled; settled].

(** The high-quality viewer, with its container never measured: page 1
    scrolls into view, is fetched and rasterized. *)
Definition firstPageRenderedUnmeasured : list Event :=
  opened ++ [Intersect 0 [true]; settled; settled].

(** What a ResizeObserver reports of a container of the given size. *)
Definition measured (w h : Q) : Dom.ResizeObserverEntry :=
  {| Dom.contentRect_width := w; Dom.contentRect_height := h |}.

(** A page state as [loadPDF] creates it, for page 1. *)
Definition firstPage : HighQuality.PageState :=
  {| HighQuality.pageNum := 1; HighQuality.canvas := None;
     HighQuality.rendered := false;
     HighQuality.height := 0; HighQuality.width := 0; HighQuality.scale := 1;
     HighQuality.actualHeight := 0; HighQuality.actualWidth := 0 |}.

(** The simple viewer opens a document: mount, the document arrives,
    Svelte shows the pages, the three pages are laid out, loadPDF
    resumes and sets the observers up. *)
Definition openedSimple : list Event :=
  [Mount; settled; Flush true; settled; settled; settled; settled].

(** Page 1 scrolls into view, is fetched and rasterized. *)
Definition firstPageRenderedSimple : list Event :=
  openedSimple ++ [Intersect 0 [true]; settled; settled].

(** The observer of page 1 fires twice before the first fetch settles. *)
Definition visibleTwice : list Event :=
  openedSimple ++ [Intersect 0 [true]; Intersect 0 [true]; settled; settled].

End Scenario.

(** The shape of the page array. *)

Module SimpleShape.
Import Loop.
Import Simple.

Definition skeleton (w : World) :=
  (pdfDoc (state w), pageCount (state w), map pageNum (pages (state w)), portfolio w).

Definition numbered (w : World) : Prop :=
  map pageNum (pages (state w)) = seq 1 (pageCount (state w))
  /\ match pdfDoc (state w) with
     | None => pageCount (state w) = 0%nat
     | Some doc => doc = portfolio w /\ pageCount (state w) = Pdfjs.numPages doc
     end.
End SimpleShape.

Module HighQualityShape.
Import Loop.
Import HighQuality.

Definition skeleton (w : World) :=
  (pdfDoc (state w), pageCount (state w), map pageNum (pages (state w)), portfolio w).

Definition numbered (w : World) : Prop :=
  map pageNum (pages (state w)) = seq 1 (pageCount (state w))
  /\ match pdfDoc (state w) with
     | None => pageCount (state w) = 0%nat
     | Some doc => doc = portfolio w /\ pageCount (state w) = Pdfjs.numPages doc
     end.
End HighQualityShape.

(** The life of [loadPDF]: what is parked for it, and what cannot have
    happened before it ends. *)

Module Loading.
Import Loop.

(** The parked calls that belong to [loadPDF]: the function itself, and
    the layout pass it awaits. *)
Definition isLoadTask (t : Task) : bool :=
  match t with
  | LoadAwaitDocument | LoadAwaitLayout | LayoutAwaitPage _ true => true
  | _ => false
  end.

(** The parked calls of [renderPage]. *)
Definition isRenderTask (t : Task) : bool :=
  match t with
  | RenderAwaitPage _ | RenderAwaitRaster _ => true
  | _ => false
  end.

Definition loadTasks (l : list Task) : list Task :=
  filter (fun t => isLoadTask t = true) l.

#[global] Instance logEntry_eq_dec : EqDecision Dom.LogEntry.
Proof. solve_decision. Defined.

(** [loadPDF] has logged 'Error loading PDF'. *)
Definition failed {State} (w : World State) : Prop :=
  Dom.ErrorLoadingPDF ∈ console w.

(** [loadPDF] is still running, has failed, or has not opened a document. *)
Definition unloaded {State} (pdfDoc : State -> option Pdfjs.PDFDocumentProxy)
    (w : World State) : Prop :=
  loadTasks (pending w) <> [] \/ failed w \/ pdfDoc (state w) = None.

(** Nothing has been observed or rendered, and no render is parked. *)
Definition quiet {State} (rendered : State -> list bool) (w : World State) : Prop :=
  created w = [] /\ renderCalls w = []
  /\ Forall (fun t => isRenderTask t = false) (pending w)
  /\ Forall (fun b => b = false) (rendered (state w)).

Record loading_invariant {State}
    (pdfDoc : State -> option Pdfjs.PDFDocumentProxy)
    (rendered : State -> list bool) (pageCount : State -> nat)
    (w : World State) : Prop := {
  l_single : (length (loadTasks (pending w)) <= 1)%nat;
  l_failed : failed w -> loadTasks (pending w) = [];
  l_unmounted :
    phase w = Dom.Unmounted ->
    pending w = [] /\ console w = [] /\ pdfDoc (state w) = None;
  l_closed :
    pdfDoc (state w) = None ->
    Forall (fun t => t = LoadAwaitDocument) (pending w)
    /\ getPageCalls w = [] /\ pageCount (state w) = 0%nat;
  l_quiet : unloaded pdfDoc w -> quiet rendered w
}.

End Loading.

Module SimpleLoading.
Import Loop.
Import Simple Loading.

(** The [rendered] flags of the pages. *)
Definition flags (s : ViewerState) : list bool := map rendered (pages s).

(** No layout pass of the simple viewer runs detached from [loadPDF]. *)
Definition attached (w : World) : Prop :=
  Forall (fun t => match t with LayoutAwaitPage _ false => False | _ => True end)
    (pending w).

Definition loading (w : World) : Prop :=
  loading_invariant pdfDoc flags pageCount w /\ attached w.

End SimpleLoading.

Module HighQualityLoading.
Import Loop.
Import HighQuality Loading.

(** The [rendered] flags of the pages. *)
Definition flags (s : ViewerState) : list bool := map rendered (pages s).

Definition loading (w : World) : Prop :=
  loading_invariant pdfDoc flags pageCount w.

End HighQualityLoading.

(** The display size of the pages of the simple viewer, and what is on
    their canvases. *)

Module SimpleLayout.
Import Loop.
Import Simple Loading.

(** The display size of a page is the one [calculatePageDimensions]
    computes for page [i + 1] of the document. *)
Definition fitted (doc : Pdfjs.PDFDocumentProxy) (i : nat) (p : PageState) : Prop :=
  exists page,
    Pdfjs.getPage doc (i + 1) = Some page
    /\ width p = width (layoutPage page p)
    /\ height p = height (layoutPage page p).

(** The pages of index below [j] have their display size. *)
Definition laidOutUpTo (j : nat) (w : World) : Prop :=
  forall i p, (i < j)%nat -> pages (state w) !! i = Some p -> fitted (portfolio w) i p.

(** The display size of the pages, in order. *)
Definition sizes (w : World) : list (Q * Q) :=
  map (fun p => (width p, height p)) (pages (state w)).

Record layout_invariant (w : World) : Prop := {
  f_pass : forall k j a,
    pending w !! k = Some (LayoutAwaitPage j a) -> laidOutUpTo j w;
  f_done : forall k,
    pending w !! k = Some LoadAwaitLayout -> laidOutUpTo (pageCount (state w)) w;
  f_loaded : ~ unloaded pdfDoc w -> laidOutUpTo (pageCount (state w)) w
}.

End SimpleLayout.

Module SimpleCanvas.
Import Loop.
Import Simple.

(** Something has been, or is being, drawn on the canvas of page [i]: the
    page is flagged [rendered], or a rasterization of it is in flight. *)
Definition drawn (i : nat) (p : PageState) (w : World) : Prop :=
  rendered p = true \/ RenderAwaitRaster i ∈ pending w.

Record canvas_invariant (w : World) : Prop := {
  c_match : forall i p c,
    pages (state w) !! i = Some p -> canvas p = Some c -> drawn i p w ->
    Dom.width c = Dom.setWidth (width p) /\ Dom.height c = Dom.setHeight (height p);
  c_bound : phase w = Dom.Mounted ->
    forall i p, pages (state w) !! i = Some p -> drawn i p w -> is_Some (canvas p)
}.

End SimpleCanvas.

(** What [setupIntersectionObservers] observes, and what a visibility
    callback is told. *)

Module Coverage.
Import Loop.

(** The entries of a visibility callback that report an intersection. *)
Definition intersecting (entries : list bool) : nat :=
  length (filter (fun isIntersecting => isIntersecting = true) entries).

(** The observer that [observePage] creates for the page of index [i]
    when its element exists. *)
Definition pageObserver (i : nat) : Dom.IntersectionObserver :=
  {| Dom.closure := i; Dom.targets := [i + 1] |}.

(** Page [i] is observed: the [observers] array lists an observer that
    calls back for it and observes its element. *)
Definition observed (observers : list nat) (created : list Dom.IntersectionObserver)
    (i : nat) : Prop :=
  exists o, o ∈ observers /\ created !! o = Some (pageObserver i).

(** What holds of the accumulator of [setupObservers] before the page of
    index [a] is visited: the pages below [a] whose element exists are
    observed, and the array lists nothing else. *)
Record covering (containerRef : option (list nat))
    (old : list Dom.IntersectionObserver) (a : nat)
    (acc : list nat * list Dom.IntersectionObserver) : Prop := {
  c_length : length (snd acc) = (length old + a)%nat;
  c_observed : forall i, (i < a)%nat -> querySelector containerRef (i + 1) = true ->
                 observed (fst acc) (snd acc) i;
  c_only : forall o, o ∈ fst acc ->
             exists i, (i < a)%nat /\ querySelector containerRef (i + 1) = true
                       /\ snd acc !! o = Some (pageObserver i)
}.

End Coverage.

(** What the viewers ask of the document engine, and which calls nobody
    awaits. *)

Module Requests.
Import Loop.

(** Every page asked of the document engine so far is a page of the
    document at [pdfUrl]. *)
Definition inRange {State} (w : World State) : Prop :=
  Forall (fun n => (1 <= n <= Pdfjs.numPages (portfolio w))%nat) (getPageCalls w).

End Requests.

Module Detached.
Import Loop.

(** A layout pass that nobody awaits: one started by [handleResize]. *)
Definition detached (t : Task) : bool :=
  match t with
  | LayoutAwaitPage _ false => true
  | _ => false
  end.

(** No detached layout pass is parked. *)
Definition awaited {State} (w : World State) : Prop :=
  Forall (fun t => detached t = false) (pending w).

End Detached.

(** The layout of the pages of the high-quality viewer. *)

Module HighQualityLayout.
Import Loop HighQuality.

(** The layout of a page state as [loadPDF] creates it. *)
Definition fresh (p : PageState) : Prop :=
  width p = 0%Q /\ height p = 0%Q /\ scale p = 1%Q
  /\ actualWidth p = 0%Q /\ actualHeight p = 0%Q.

(** The layout of a page state that a layout pass has written: the
    natural size of page [i + 1], and that size times [scale]. *)
Definition scaled (doc : Pdfjs.PDFDocumentProxy) (i : nat) (p : PageState) : Prop :=
  exists page,
    Pdfjs.getPage doc (i + 1) = Some page
    /\ actualWidth p = Pdfjs.width (Pdfjs.getViewport page 1)
    /\ actualHeight p = Pdfjs.height (Pdfjs.getViewport page 1)
    /\ width p = (actualWidth p * scale p)%Q
    /\ height p = (actualHeight p * scale p)%Q.

Definition coherent (w : World) : Prop :=
  forall i p, pages (state w) !! i = Some p -> fresh p \/ scaled (portfolio w) i p.

(** The five fields of a page state that the layout pass writes. *)
Definition layout (p : PageState) : Q * Q * Q * Q * Q :=
  (width p, height p, scale p, actualWidth p, actualHeight p).

End HighQualityLayout.

Module Unmeasured.
Import Loop HighQuality HighQualityLayout.

(** A parked iteration of the layout loop. *)
Definition isLayoutTask (t : Task) : bool :=
  match t with
  | LayoutAwaitPage _ _ => true
  | _ => false
  end.

(** A rasterization at twice the natural size of the page. *)
Definition atNaturalScale (doc : Pdfjs.PDFDocumentProxy) (call : RenderCall) : Prop :=
  exists page,
    Pdfjs.getPage doc (rc_page call) = Some page
    /\ rc_viewport call = Pdfjs.getViewport page (1 * QUALITY_SCALE).

(** The container has never been measured: no layout loop runs, every
    page has the layout [loadPDF] gave it, and whatever was rasterized was
    rasterized at [scale] 1. *)
Record unmeasured (w : World) : Prop := {
  u_width : containerWidth (state w) = 0%Q;
  u_fresh : forall i p, pages (state w) !! i = Some p -> fresh p;
  u_pending : Forall (fun t => isLayoutTask t = false) (pending w);
  u_calls : Forall (atNaturalScale (portfolio w)) (renderCalls w)
}.

End Unmeasured.

(** ** The high-quality viewer with its ResizeObserver

    [HighQuality.step] takes a [Resize] event as a call of [handleResize].
    The component receives such calls only through the ResizeObserver
    that [onMount] creates.  Here a [Resize] event is a change of size of
    the container, and the browser calls [handleResize] back only if that
    observer observes the container. *)

Module Wired.
Import Loop.

Record Component := {
  world : HighQuality.World;
  resizeObserver : option bool    (* [let resizeObserver]: undefined until [onMount]
                                     assigns it; then, whether it observes the container *)
}.

Definition init (doc : Pdfjs.PDFDocumentProxy) : Component :=
  {| world := HighQuality.init doc; resizeObserver := None |}.

(** [onMount], lines 191 to 197: [loadPDF()] runs up to its first
    [await]; then the observer is created, and
    [resizeObserver.observe(containerRef)] is called only if
    [containerRef] is bound at that moment. *)
Definition onMount (c : Component) : Component :=
  let w := HighQuality.loadPDF (world c) in
  {| world := w;
     resizeObserver := Some (bool_decide (is_Some (containerRef w))) |}.

(** [onDestroy], lines 199 to 204, then the removal of the DOM:
    [if (resizeObserver) resizeObserver.disconnect()]. *)
Definition onDestroy (c : Component) : Component :=
  {| world := HighQuality.unbind (HighQuality.onDestroy (world c));
     resizeObserver := match resizeObserver c with
                       | Some _ => Some false
                       | None => None
                       end |}.

Definition step (e : Event) (c : Component) : Component :=
  match e with
  | Mount =>
      match phase (world c) with
      | Dom.Unmounted =>
          onMount {| world := with_phase Dom.Mounted (world c);
                     resizeObserver := resizeObserver c |}
      | _ => c
      end
  | Resize entries =>
      match resizeObserver c with
      | Some true =>
          {| world := HighQuality.handleResize entries (world c);
             resizeObserver := resizeObserver c |}
      | _ => c
      end
  | Destroy => if HighQuality.mounted (world c) then onDestroy c else c
  | _ =>
      {| world := HighQuality.step e (world c);
         resizeObserver := resizeObserver c |}
  end.

Definition run (events : list Event) (c : Component) : Component :=
  foldl (fun c e => step e c) c events.

(** A component that has not been mounted is as it was created. *)
Definition pristine (w : HighQuality.World) : Prop :=
  phase w = Dom.Unmounted ->
  containerRef w = None /\ created w = [] /\ pending w = []
  /\ HighQuality.loading (state w) = true.

(** The observer of the component observes nothing. *)
Definition unattached (c : Component) : Prop :=
  pristine (world c) /\ resizeObserver c <> Some true.

End Wired.

(** * Properties *)

(** ** [Math.round] *)

Module MathFacts.

(** [Math.round x] is within one half of [x]. *)
Lemma round_nearest (x : Q) :
  (Math.round x - (1 # 2) <= x /\ x < Math.round x + (1 # 2))%Q.
Proof.
  unfold Math.round.
  pose proof (Qfloor_le (x + (1 # 2))) as Hlo.
  pose proof (Qlt_floor (x + (1 # 2))) as Hhi.
  rewrite inject_Z_plus in Hhi. change (inject_Z 1) with 1%Q in Hhi.
  split; lra.
Qed.

End MathFacts.

(** ** The visibility tracker *)

Module TrackerFacts.
Import Loop Tracker.

Lemma disconnect_silent ob : Dom.observing (Dom.disconnect ob) = false.
Proof. reflexivity. Qed.

Lemma disconnectAll_lookup observers created o :
  disconnectAll observers created !! o
  = (if bool_decide (o ∈ observers) then Dom.disconnect else id) <$> created !! o.
Proof.
  unfold disconnectAll. revert created.
  induction observers as [|x observers IH]; intros created; cbn.
  - destruct (created !! o); reflexivity.
  - rewrite IH. destruct (decide (o = x)) as [->|Hne].
    + rewrite list_lookup_alter_eq.
      rewrite (bool_decide_eq_true_2 (x ∈ x :: observers)) by apply list_elem_of_here.
      destruct (created !! x); cbn; [|reflexivity].
      destruct (bool_decide _); reflexivity.
    + rewrite list_lookup_alter_ne by congruence.
      destruct (created !! o); cbn; [|reflexivity].
      assert (bool_decide (o ∈ x :: observers) = bool_decide (o ∈ observers)) as ->;
        [|reflexivity].
      apply bool_decide_ext. rewrite elem_of_cons. tauto.
Qed.

Lemma disconnectAll_length observers created :
  length (disconnectAll observers created) = length created.
Proof.
  unfold disconnectAll. revert created.
  induction observers as [|x observers IH]; intros created; cbn; [reflexivity|].
  rewrite IH. apply length_alter.
Qed.

Lemma disconnectAll_silent observers created :
  tracked observers created -> silent (disconnectAll observers created).
Proof.
  intros Ht o ob'. rewrite disconnectAll_lookup.
  destruct (created !! o) as [ob|] eqn:Ho; cbn; [|discriminate].
  intros [= <-]. case_bool_decide as Hin; [reflexivity|].
  cbn. destruct (Dom.observing ob) eqn:Hob; [|reflexivity].
  exfalso. apply Hin. eapply Ht; eassumption.
Qed.

Lemma silent_tracked observers created : silent created -> tracked observers created.
Proof. intros Hs o ob Ho Hob. rewrite (Hs o ob Ho) in Hob. discriminate. Qed.

Lemma silent_one_per_page created : silent created -> one_per_page created.
Proof. intros Hs o1 o2 ob1 ob2 H1 _ Hob. rewrite (Hs o1 ob1 H1) in Hob. discriminate. Qed.

Lemma silent_own_page created : silent created -> own_page created.
Proof. intros Hs o ob Ho Hob. rewrite (Hs o ob Ho) in Hob. discriminate. Qed.

Lemma visiting_start old : silent old -> visiting old 0 ([], old).
Proof.
  intros Hs. split; cbn.
  - by apply silent_tracked.
  - by apply silent_one_per_page.
  - by apply silent_own_page.
  - intros o ob Ho Hob. rewrite (Hs o ob Ho) in Hob. discriminate.
  - reflexivity.
  - reflexivity.
Qed.

Lemma visiting_step containerRef old a acc :
  visiting old a acc -> visiting old (S a) (observePage containerRef acc a).
Proof.
  intros [Ht H1 Hown Hb Hold Hlen]. destruct acc as [obs heap]. cbn in *.
  unfold observePage. cbn.
  assert (forall o ob (x : Dom.IntersectionObserver),
            (heap ++ [x]) !! o = Some ob ->
            heap !! o = Some ob \/ (o = length heap /\ ob = x)) as Hsplit.
  { intros o ob x Ho. apply lookup_app_Some in Ho as [Ho | [Hge Ho]]; [by left|right].
    apply list_lookup_singleton_Some in Ho as [Hz ->]. split; [lia|reflexivity]. }
  destruct (querySelector containerRef (a + 1)); split; cbn.
  - intros o ob Ho Hob. apply Hsplit in Ho as [Ho | [-> ->]].
    + apply elem_of_app. left. eapply Ht; eassumption.
    + apply elem_of_app. right. apply list_elem_of_here.
  - intros o1 o2 ob1 ob2 Ho1 Ho2 Hob1 Hob2 Hc.
    apply Hsplit in Ho1 as [Ho1 | [-> ->]]; apply Hsplit in Ho2 as [Ho2 | [-> ->]].
    + eapply H1; eassumption.
    + cbn in Hc. pose proof (Hb _ _ Ho1 Hob1). lia.
    + cbn in Hc. pose proof (Hb _ _ Ho2 Hob2). lia.
    + reflexivity.
  - intros o ob Ho Hob. apply Hsplit in Ho as [Ho | [-> ->]]; [by eapply Hown|reflexivity].
  - intros o ob Ho Hob. apply Hsplit in Ho as [Ho | [-> ->]].
    + pose proof (Hb _ _ Ho Hob). lia.
    + cbn. lia.
  - intros o Ho. rewrite lookup_app_l by lia. by apply Hold.
  - rewrite length_app. cbn. lia.
  - intros o ob Ho Hob. apply Hsplit in Ho as [Ho | [-> ->]]; [|discriminate].
    eapply Ht; eassumption.
  - intros o1 o2 ob1 ob2 Ho1 Ho2 Hob1 Hob2 Hc.
    apply Hsplit in Ho1 as [Ho1 | [-> ->]]; [|discriminate].
    apply Hsplit in Ho2 as [Ho2 | [-> ->]]; [|discriminate].
    eapply H1; eassumption.
  - intros o ob Ho Hob. apply Hsplit in Ho as [Ho | [-> ->]]; [by eapply Hown|discriminate].
  - intros o ob Ho Hob. apply Hsplit in Ho as [Ho | [-> ->]]; [|discriminate].
    pose proof (Hb _ _ Ho Hob). lia.
  - intros o Ho. rewrite lookup_app_l by lia. by apply Hold.
  - rewrite length_app. cbn. lia.
Qed.

Lemma visiting_all containerRef old n a acc :
  visiting old a acc ->
  visiting old (a + n) (foldl (observePage containerRef) acc (seq a n)).
Proof.
  revert a acc. induction n as [|n IH]; intros a acc Hv; cbn.
  - by rewrite Nat.add_0_r.
  - replace (a + S n)%nat with (S a + n)%nat by lia.
    apply IH. by apply visiting_step.
Qed.

Lemma setupObservers_visited containerRef pages observers created :
  tracked observers created ->
  visiting (disconnectAll observers created) pages
    (setupObservers containerRef pages observers created).
Proof.
  intros Ht. unfold setupObservers.
  apply (visiting_all containerRef _ pages 0), visiting_start.
  by apply disconnectAll_silent.
Qed.

(** Without a container no element is found and nothing is observed. *)
Lemma observePage_unbound acc a :
  silent (snd acc) -> silent (snd (observePage None acc a)).
Proof.
  intros Hs o ob. unfold observePage. cbn. intros Ho.
  apply lookup_app_Some in Ho as [Ho | [_ Ho]]; [by eapply Hs|].
  apply list_lookup_singleton_Some in Ho as [_ <-]. reflexivity.
Qed.

Lemma setupObservers_unbound pages observers created :
  tracked observers created ->
  silent (snd (setupObservers None pages observers created)).
Proof.
  intros Ht. unfold setupObservers.
  assert (silent (snd (([] : list nat), disconnectAll observers created))) as Hs
    by (by apply disconnectAll_silent).
  revert Hs. generalize (([] : list nat), disconnectAll observers created).
  generalize 0%nat.
  induction pages as [|n IH]; intros a acc Hs; cbn; [done|].
  apply IH. by apply observePage_unbound.
Qed.

Lemma invariant_frame {State} (w w' : World State) :
  tracker w' = tracker w -> invariant w -> invariant w'.
Proof.
  unfold tracker. intros [= Hp Hc Ho Hcr] [Ht H1 Hown Hd].
  split; rewrite ?Hp, ?Hc, ?Ho, ?Hcr; assumption.
Qed.

Lemma invariant_setup {State} (w : World State) pages :
  invariant w ->
  invariant (with_observers
               (setupObservers (containerRef w) pages (observers w) (created w)) w).
Proof.
  intros [Ht H1 Hown Hd].
  destruct (setupObservers_visited (containerRef w) pages _ _ Ht)
    as [Ht' H1' Hown' _ _ _].
  split; cbn; try assumption.
  intros Hp. destruct (Hd Hp) as [Hc Hs]. split; [assumption|].
  rewrite Hc. by apply setupObservers_unbound.
Qed.

Lemma invariant_teardown {State} (w : World State) (f : World State -> World State) :
  invariant w ->
  tracker (f (with_observers (teardownObservers (observers w) (created w)) w))
  = (Dom.Destroyed, None, observers w, disconnectAll (observers w) (created w)) ->
  invariant (f (with_observers (teardownObservers (observers w) (created w)) w)).
Proof.
  intros [Ht H1 Hown Hd]. unfold tracker. intros [= Hp Hc Ho Hcr].
  pose proof (disconnectAll_silent _ _ Ht) as Hs.
  split; rewrite ?Hp, ?Hc, ?Ho, ?Hcr.
  - by apply silent_tracked.
  - by apply silent_one_per_page.
  - by apply silent_own_page.
  - done.
Qed.

Lemma setup_disconnects {State} (w : World State) pages o :
  invariant w -> (o < length (created w))%nat ->
  exists ob,
    snd (setupObservers (containerRef w) pages (observers w) (created w)) !! o
      = Some ob
    /\ Dom.observing ob = false.
Proof.
  intros [Ht _ _ _] Ho.
  destruct (setupObservers_visited (containerRef w) pages _ _ Ht)
    as [_ _ _ _ Hold _].
  rewrite <- (disconnectAll_length (observers w)) in Ho.
  destruct (lookup_lt_is_Some_2 _ _ Ho) as [ob Hob].
  exists ob. split.
  - rewrite Hold by assumption. exact Hob.
  - exact (disconnectAll_silent _ _ Ht o ob Hob).
Qed.
End TrackerFacts.

(** ** The render scheduler *)

Module SchedulerFacts.
Import Loop Scheduler.

Lemma filter_delete_other {A} (P : A -> Prop) `{!forall x, Decision (P x)}
    (l : list A) k x :
  l !! k = Some x -> ~ P x -> filter P (delete k l) = filter P l.
Proof.
  revert k. induction l as [|y l IH]; intros [|k] Hk Hx; try discriminate.
  - injection Hk as ->. rewrite filter_cons_False by assumption. reflexivity.
  - change (delete (S k) (y :: l)) with (y :: delete k l).
    rewrite !filter_cons, (IH k Hk Hx). reflexivity.
Qed.

Lemma inFlight_raster_parked {State} i k (w w' : World State) :
  pending w !! k = Some (RenderAwaitPage i) ->
  pending w' = delete k (pending w) ++ [RenderAwaitRaster i] ->
  inFlight i w' = S (inFlight i w).
Proof.
  intros Hk Hw'. unfold inFlight. rewrite Hw', list.filter_app, length_app.
  rewrite (filter_delete_other _ _ _ _ Hk) by discriminate.
  rewrite filter_cons_True by reflexivity. cbn. lia.
Qed.
End SchedulerFacts.

(** ** The simple viewer *)

Module SimpleFacts.
Import Loop Simple Tracker TrackerFacts Scheduler SchedulerFacts.

(** *** Frame properties: what the scheduler and the layout leave alone *)

Ltac frame :=
  unfold loadPDF_gotDocument, calculate_gotPage, calculatePageDimensions,
    calculate_loop, loadPDF_catch, renderPage_gotPage, renderPage_rasterized,
    renderPage, renderPage_catch, update_page;
  repeat case_match; reflexivity.

Lemma simple_renderPage_tracker i (w : World) : tracker (renderPage i w) = tracker w.
Proof. frame. Qed.

Lemma simple_intersectionCallback_tracker i entries (w : World) :
  tracker (intersectionCallback i entries w) = tracker w.
Proof.
  unfold intersectionCallback. revert w.
  induction entries as [|e entries IH]; intros w; cbn; [reflexivity|].
  rewrite IH. repeat case_match; try reflexivity. apply simple_renderPage_tracker.
Qed.

Lemma simple_resume_tracker t r (w : World) :
  t <> LoadAwaitLayout -> tracker (resume t r w) = tracker w.
Proof. destruct t; cbn; intros Ht; try congruence; frame. Qed.

Lemma simple_renderPage_state i (w : World) : state (renderPage i w) = state w.
Proof. frame. Qed.

Lemma simple_calculate_loop_state i (w : World) : state (calculate_loop i w) = state w.
Proof. frame. Qed.

(** *** The tracker invariant holds in every reachable world *)

Lemma simple_step_invariant e (w : World) : invariant w -> invariant (step e w).
Proof.
  intros Hinv. destruct e; cbn.
  - destruct (phase w) eqn:Hp; try assumption.
    destruct Hinv as [Ht H1 Hown Hd]. split; cbn; try assumption. discriminate.
  - destruct (phase w) eqn:Hp; try assumption.
    all: eapply invariant_frame; [|exact Hinv]; reflexivity.
  - unfold mounted. destruct (phase w) eqn:Hp; try assumption.
    destruct Hinv as [Ht H1 Hown Hd]. unfold flush.
    destruct (loading _); split; cbn; try assumption; rewrite Hp; discriminate.
  - assumption.
  - repeat case_match; try assumption.
    eapply invariant_frame; [apply simple_intersectionCallback_tracker|assumption].
  - destruct (pending w !! k) as [t|] eqn:Hk; [|assumption].
    assert (invariant (with_pending (delete k (pending w)) w)) as Hinv'
      by (eapply invariant_frame; [|exact Hinv]; reflexivity).
    destruct t;
      try (eapply invariant_frame; [apply simple_resume_tracker; discriminate|exact Hinv']).
    by apply invariant_setup.
  - unfold mounted. destruct (phase w) eqn:Hp; try assumption.
    unfold onDestroy. by apply invariant_teardown.
Qed.

Lemma simple_init_invariant doc : invariant (init doc).
Proof. split; cbn; discriminate. Qed.

Lemma simple_run_invariant events (w : World) : invariant w -> invariant (run events w).
Proof.
  unfold run, Loop.run. revert w.
  induction events as [|e events IH]; intros w Hinv; cbn; [assumption|].
  apply IH. by apply simple_step_invariant.
Qed.

(** When nothing observes, an [Intersect] event runs no callback. *)
Lemma simple_silent_inert (w : World) o entries :
  silent (created w) -> step (Intersect o entries) w = w.
Proof.
  intros Hs. cbn. destruct (created w !! o) as [ob|] eqn:Ho; [|reflexivity].
  by rewrite (Hs o ob Ho).
Qed.

(** *** renderPage *)

Lemma simple_renderPage_guarded i (w : World) p :
  pages (state w) !! i = Some p ->
  pdfDoc (state w) = None \/ rendered p = true \/ canvas p = None ->
  renderPage i w = w.
Proof.
  intros Hp Hg. unfold renderPage. rewrite Hp.
  unfold renderGuard. destruct Hg as [-> | [-> | ->]]; cbn.
  - reflexivity.
  - rewrite orb_true_r. reflexivity.
  - rewrite orb_true_r. reflexivity.
Qed.

Lemma simple_renderPage_open i (w : World) p :
  pages (state w) !! i = Some p ->
  is_Some (pdfDoc (state w)) -> rendered p = false -> is_Some (canvas p) ->
  renderPage i w = park (RenderAwaitPage i) (callGetPage (pageNum p) w).
Proof.
  intros Hp Hdoc Hr Hc. unfold renderPage. rewrite Hp. unfold renderGuard.
  rewrite Hr, !bool_decide_eq_true_2 by assumption. reflexivity.
Qed.

Lemma simple_render_rejected (w : World) k t i p :
  pending w !! k = Some t ->
  t = RenderAwaitPage i \/ t = RenderAwaitRaster i ->
  pages (state w) !! i = Some p ->
  step (Settle k Pdfjs.Rejected) w
  = log (Dom.ErrorRenderingPage (pageNum p)) (with_pending (delete k (pending w)) w).
Proof.
  intros Hk Ht Hp. cbn. rewrite Hk.
  destruct Ht as [-> | ->]; cbn.
  - unfold renderPage_gotPage. cbn. rewrite Hp. reflexivity.
  - unfold renderPage_rasterized. cbn. rewrite Hp. reflexivity.
Qed.

Lemma simple_raster_started (w : World) k i p c doc page :
  pending w !! k = Some (RenderAwaitPage i) ->
  pages (state w) !! i = Some p ->
  pdfDoc (state w) = Some doc ->
  Pdfjs.getPage doc (pageNum p) = Some page ->
  canvas p = Some c -> Dom.context2d c = true ->
  pending (step (Settle k Pdfjs.Fulfilled) w)
  = delete k (pending w) ++ [RenderAwaitRaster i].
Proof.
  intros Hk Hp Hdoc Hpage Hc Hctx. cbn. rewrite Hk. cbn.
  unfold renderPage_gotPage. cbn. rewrite Hp, Hdoc. cbn. rewrite Hpage, Hc, Hctx.
  reflexivity.
Qed.

(** *** calculatePageDimensions *)

Lemma simple_layout_step (w : World) k i awaited doc page p :
  pending w !! k = Some (LayoutAwaitPage i awaited) ->
  pdfDoc (state w) = Some doc ->
  Pdfjs.getPage doc (i + 1) = Some page ->
  pages (state w) !! i = Some p ->
  pages (state (step (Settle k Pdfjs.Fulfilled) w)) !! i
  = Some (layoutPage page p).
Proof.
  intros Hk Hdoc Hpage Hp. cbn. rewrite Hk. cbn.
  unfold calculate_gotPage. cbn. rewrite Hdoc. cbn. rewrite Hpage, Hp.
  rewrite simple_calculate_loop_state. cbn.
  rewrite list_lookup_alter_eq, Hp. reflexivity.
Qed.

Lemma fitScale_natural (page : Pdfjs.PDFPageProxy) :
  (fitScale (Pdfjs.getViewport page 1)
   == Qmin (MAX_WIDTH / Pdfjs.width (Pdfjs.natural page)) (3 # 2))%Q.
Proof.
  unfold fitScale, Math.min, Pdfjs.getViewport. cbn.
  apply Q.min_compat; [|reflexivity].
  rewrite Qmult_1_r. reflexivity.
Qed.

Lemma fitScale_capped (viewport : Pdfjs.PageViewport) :
  (fitScale viewport <= 3 # 2)%Q.
Proof. apply Q.le_min_r. Qed.

(** *** Resize notifications *)

Lemma run_cons e events (w : World) : run (e :: events) w = run events (step e w).
Proof. reflexivity. Qed.

Lemma run_withoutResize events (w : World) :
  run (withoutResize events) w = run events w.
Proof.
  unfold withoutResize. revert w.
  induction events as [|e events IH]; intros w; [reflexivity|].
  destruct (isResize e) eqn:He.
  - rewrite filter_cons_False by (rewrite He; discriminate).
    destruct e; try discriminate. rewrite IH. reflexivity.
  - rewrite filter_cons_True by assumption. rewrite !run_cons. apply IH.
Qed.

End SimpleFacts.

(** ** The high-quality viewer *)

Module HighQualityFacts.
Import Loop HighQuality Tracker TrackerFacts Scheduler SchedulerFacts.

(** *** Frame properties: what the scheduler and the layout leave alone *)

Ltac frame :=
  unfold handleResize, loadPDF_gotDocument, calculate_gotPage,
    calculatePageDimensions, calculate_loop, calculate_return, calculate_throw,
    loadPDF_catch, renderPage_gotPage, renderPage_rasterized,
    renderPage, renderPage_catch, update_page;
  repeat case_match; reflexivity.

Lemma hq_renderPage_tracker i (w : World) : tracker (renderPage i w) = tracker w.
Proof. frame. Qed.

Lemma hq_intersectionCallback_tracker i entries (w : World) :
  tracker (intersectionCallback i entries w) = tracker w.
Proof.
  unfold intersectionCallback. revert w.
  induction entries as [|e entries IH]; intros w; cbn; [reflexivity|].
  rewrite IH. repeat case_match; try reflexivity. apply hq_renderPage_tracker.
Qed.

Lemma handleResize_tracker entries (w : World) :
  tracker (handleResize entries w) = tracker w.
Proof. frame. Qed.

Lemma hq_resume_tracker t r (w : World) :
  t <> LoadAwaitLayout -> tracker (resume t r w) = tracker w.
Proof. destruct t; cbn; intros Ht; try congruence; frame. Qed.

(** *** The tracker invariant holds in every reachable world *)

Lemma hq_step_invariant e (w : World) : invariant w -> invariant (step e w).
Proof.
  intros Hinv. destruct e; cbn.
  - destruct (phase w) eqn:Hp; try assumption.
    destruct Hinv as [Ht H1 Hown Hd]. split; cbn; try assumption. discriminate.
  - destruct (phase w) eqn:Hp; try assumption.
    all: eapply invariant_frame; [|exact Hinv]; reflexivity.
  - unfold mounted. destruct (phase w) eqn:Hp; try assumption.
    destruct Hinv as [Ht H1 Hown Hd]. unfold flush.
    destruct (loading _); split; cbn; try assumption; rewrite Hp; discriminate.
  - destruct (mounted w); [|assumption].
    eapply invariant_frame; [apply handleResize_tracker|assumption].
  - repeat case_match; try assumption.
    eapply invariant_frame; [apply hq_intersectionCallback_tracker|assumption].
  - destruct (pending w !! k) as [t|] eqn:Hk; [|assumption].
    assert (invariant (with_pending (delete k (pending w)) w)) as Hinv'
      by (eapply invariant_frame; [|exact Hinv]; reflexivity).
    destruct t;
      try (eapply invariant_frame; [apply hq_resume_tracker; discriminate|exact Hinv']).
    by apply invariant_setup.
  - unfold mounted. destruct (phase w) eqn:Hp; try assumption.
    unfold onDestroy. by apply invariant_teardown.
Qed.

Lemma hq_init_invariant doc : invariant (init doc).
Proof. split; cbn; discriminate. Qed.

Lemma hq_run_invariant events (w : World) : invariant w -> invariant (run events w).
Proof.
  unfold run, Loop.run. revert w.
  induction events as [|e events IH]; intros w Hinv; cbn; [assumption|].
  apply IH. by apply hq_step_invariant.
Qed.

(** When nothing observes, an [Intersect] event runs no callback. *)
Lemma hq_silent_inert (w : World) o entries :
  silent (created w) -> step (Intersect o entries) w = w.
Proof.
  intros Hs. cbn. destruct (created w !! o) as [ob|] eqn:Ho; [|reflexivity].
  by rewrite (Hs o ob Ho).
Qed.

(** *** renderPage and calculatePageDimensions *)


Lemma hq_renderPage_state i (w : World) : state (renderPage i w) = state w.
Proof.
  unfold renderPage. destruct (pages (state w) !! i); [|reflexivity].
  destruct (renderGuard _ _); reflexivity.
Qed.

Lemma hq_calculate_loop_state i awaited (w : World) :
  state (calculate_loop i awaited w) = state w.
Proof.
  unfold calculate_loop, calculate_return.
  destruct (_ <? _)%nat; [reflexivity|]. destruct awaited; reflexivity.
Qed.

Lemma hq_renderPage_guarded i (w : World) p :
  pages (state w) !! i = Some p ->
  pdfDoc (state w) = None \/ rendered p = true \/ canvas p = None ->
  renderPage i w = w.
Proof.
  intros Hp Hg. unfold renderPage. rewrite Hp.
  unfold renderGuard. destruct Hg as [-> | [-> | ->]]; cbn.
  - reflexivity.
  - rewrite orb_true_r. reflexivity.
  - rewrite orb_true_r. reflexivity.
Qed.

Lemma hq_renderPage_open i (w : World) p :
  pages (state w) !! i = Some p ->
  is_Some (pdfDoc (state w)) -> rendered p = false -> is_Some (canvas p) ->
  renderPage i w = park (RenderAwaitPage i) (callGetPage (pageNum p) w).
Proof.
  intros Hp Hdoc Hr Hc. unfold renderPage. rewrite Hp. unfold renderGuard.
  rewrite Hr, !bool_decide_eq_true_2 by assumption. reflexivity.
Qed.

Lemma calculate_noop (w : World) :
  (containerWidth (state w) == 0)%Q ->
  calculatePageDimensions false w = w
  /\ calculatePageDimensions true w = park LoadAwaitLayout w.
Proof.
  intros H. apply Qeq_bool_iff in H. unfold calculatePageDimensions.
  rewrite H, orb_true_r. split; reflexivity.
Qed.

Lemma hq_layout_step (w : World) k i awaited doc page p :
  pending w !! k = Some (LayoutAwaitPage i awaited) ->
  pdfDoc (state w) = Some doc ->
  Pdfjs.getPage doc (i + 1) = Some page ->
  pages (state w) !! i = Some p ->
  pages (state (step (Settle k Pdfjs.Fulfilled) w)) !! i
    = Some (set_rendered (rendered p && negb (bool_decide (is_Some (canvas p))))
              (layoutPage (containerWidth (state w)) page p)).
Proof.
  intros Hk Hdoc Hpage Hp. cbn. rewrite Hk. cbn.
  unfold calculate_gotPage. cbn. rewrite Hdoc. cbn. rewrite Hpage, Hp.
  rewrite hq_calculate_loop_state.
  destruct (rendered p) eqn:Hr; destruct (bool_decide (is_Some (canvas p))) eqn:Hc; cbn.
  - rewrite hq_renderPage_state. cbn.
    rewrite !list_lookup_alter_eq, Hp. reflexivity.
  - rewrite list_lookup_alter_eq, Hp. cbn. unfold set_rendered, layoutPage; cbn.
    rewrite Hr. reflexivity.
  - rewrite list_lookup_alter_eq, Hp. cbn. unfold set_rendered, layoutPage; cbn.
    rewrite Hr. reflexivity.
  - rewrite list_lookup_alter_eq, Hp. cbn. unfold set_rendered, layoutPage; cbn.
    rewrite Hr. reflexivity.
Qed.

Lemma hq_render_rejected (w : World) k t i p :
  pending w !! k = Some t ->
  t = RenderAwaitPage i \/ t = RenderAwaitRaster i ->
  pages (state w) !! i = Some p ->
  step (Settle k Pdfjs.Rejected) w
  = log (Dom.ErrorRenderingPage (pageNum p)) (with_pending (delete k (pending w)) w).
Proof.
  intros Hk Ht Hp. cbn. rewrite Hk.
  destruct Ht as [-> | ->]; cbn.
  - unfold renderPage_gotPage. cbn. rewrite Hp. reflexivity.
  - unfold renderPage_rasterized. cbn. rewrite Hp. reflexivity.
Qed.

Lemma hq_raster_started (w : World) k i p c doc page :
  pending w !! k = Some (RenderAwaitPage i) ->
  pages (state w) !! i = Some p ->
  pdfDoc (state w) = Some doc ->
  Pdfjs.getPage doc (pageNum p) = Some page ->
  canvas p = Some c -> Dom.context2d c = true ->
  let w' := step (Settle k Pdfjs.Fulfilled) w in
  pending w' = delete k (pending w) ++ [RenderAwaitRaster i]
  /\ renderCalls w'
     = renderCalls w
       ++ [{| rc_page := pageNum p;
              rc_viewport := Pdfjs.getViewport page (scale p * QUALITY_SCALE) |}].
Proof.
  intros Hk Hp Hdoc Hpage Hc Hctx. cbn. rewrite Hk. cbn.
  unfold renderPage_gotPage. cbn. rewrite Hp, Hdoc. cbn. rewrite Hpage, Hc, Hctx.
  split; reflexivity.
Qed.
End HighQualityFacts.

(** ** Who writes the [rendered] flag *)

Module FlagFacts.
Import Loop.

Lemma simple_callback_pages i entries (w : Simple.World) :
  state (Simple.intersectionCallback i entries w) = state w.
Proof.
  unfold Simple.intersectionCallback. revert w.
  induction entries as [|e entries IH]; intros w; cbn [foldl]; [reflexivity|].
  rewrite IH. repeat case_match; try reflexivity. apply SimpleFacts.simple_renderPage_state.
Qed.

Lemma hq_callback_pages i entries (w : HighQuality.World) :
  state (HighQuality.intersectionCallback i entries w) = state w.
Proof.
  unfold HighQuality.intersectionCallback. revert w.
  induction entries as [|e entries IH]; intros w; cbn [foldl]; [reflexivity|].
  rewrite IH. repeat case_match; try reflexivity.
  apply HighQualityFacts.hq_renderPage_state.
Qed.

Section Writers.
Context {PageState : Type} (rendered : PageState -> bool).

(** A page whose flag is false does not get it set by an update that
    keeps the flag of every page. *)
Lemma flag_kept_alter (f : PageState -> PageState) (l : list PageState) i j p p' :
  (forall q, rendered (f q) = rendered q) ->
  l !! i = Some p -> rendered p = false ->
  alter f j l !! i = Some p' -> rendered p' = false.
Proof.
  intros Hf Hp Hr Hp'. destruct (decide (i = j)) as [->|Hne].
  - rewrite list_lookup_alter_eq, Hp in Hp'. cbn in Hp'. injection Hp' as <-.
    by rewrite Hf.
  - rewrite list_lookup_alter_ne in Hp' by congruence. congruence.
Qed.

Lemma flag_kept_map (f : PageState -> PageState) (l : list PageState) i p p' :
  (forall q, rendered (f q) = rendered q) ->
  l !! i = Some p -> rendered p = false ->
  map f l !! i = Some p' -> rendered p' = false.
Proof.
  intros Hf Hp Hr Hp'. change (map f l) with (f <$> l) in Hp'.
  rewrite list_lookup_fmap, Hp in Hp'. cbn in Hp'. injection Hp' as <-. by rewrite Hf.
Qed.

End Writers.

Lemma simple_newPages_flag n i p :
  Simple.newPages n !! i = Some p -> Simple.rendered p = false.
Proof.
  unfold Simple.newPages. change (map ?f ?l) with (f <$> l). rewrite list_lookup_fmap.
  destruct (seq 0 n !! i); [|discriminate]. cbn. by intros [= <-].
Qed.

Lemma hq_newPages_flag n i p :
  HighQuality.newPages n !! i = Some p -> HighQuality.rendered p = false.
Proof.
  unfold HighQuality.newPages. change (map ?f ?l) with (f <$> l).
  rewrite list_lookup_fmap.
  destruct (seq 0 n !! i); [|discriminate]. cbn. by intros [= <-].
Qed.

#[local] Arguments Nat.ltb : simpl never.

(** In the simple viewer the flag of a page goes from false to true only
    in the turn in which a rasterization of that page completes. *)
Lemma simple_flag_writer e (w : Simple.World) i p p' :
  Simple.pages (state w) !! i = Some p -> Simple.rendered p = false ->
  Simple.pages (state (Simple.step e w)) !! i = Some p' -> Simple.rendered p' = true ->
  exists k, e = Settle k Pdfjs.Fulfilled /\ pending w !! k = Some (RenderAwaitRaster i).
Proof.
  intros Hp Hr Hp' Hr'.
  assert (Simple.pages (state w) !! i = Some p' -> False) as Hsame
    by (intros H; congruence).
  assert (forall j f, (forall q, Simple.rendered (f q) = Simple.rendered q) ->
            alter f j (Simple.pages (state w)) !! i = Some p' -> False) as Halter.
  { intros j f Hf H.
    pose proof (flag_kept_alter Simple.rendered f _ i j p p' Hf Hp Hr H). congruence. }
  assert (forall f, (forall q, Simple.rendered (f q) = Simple.rendered q) ->
            map f (Simple.pages (state w)) !! i = Some p' -> False) as Hmap.
  { intros f Hf H.
    pose proof (flag_kept_map Simple.rendered f _ i p p' Hf Hp Hr H). congruence. }
  destruct e; cbn in Hp'.
  - destruct (phase w); destruct (Hsame Hp').
  - destruct (phase w); [destruct (Hsame Hp')| |];
      unfold Simple.onProgress in Hp'; destruct (Qlt_le_dec _ _);
      destruct (Hsame Hp').
  - destruct (Simple.mounted w); [|destruct (Hsame Hp')].
    unfold Simple.flush in Hp'. destruct (Simple.loading (state w));
      [destruct (Hsame Hp')|].
    cbn in Hp'. exfalso. apply (Hmap (Simple.bindCanvas context2d)); [|exact Hp'].
    intros q. unfold Simple.bindCanvas. destruct (Simple.canvas q); reflexivity.
  - destruct (Hsame Hp').
  - destruct (created w !! observer) as [ob|]; [|destruct (Hsame Hp')].
    destruct (Dom.observing ob); [|destruct (Hsame Hp')].
    rewrite simple_callback_pages in Hp'. destruct (Hsame Hp').
  - destruct (pending w !! k) as [t|] eqn:Hk; [|destruct (Hsame Hp')].
    destruct t as [| |j a|j|j]; cbn in Hp'.
    + exfalso. destruct r; [|exact (Hsame Hp')].
      unfold Simple.loadPDF_gotDocument, Simple.calculatePageDimensions in Hp'.
      cbn in Hp'. rewrite SimpleFacts.simple_calculate_loop_state in Hp'. cbn in Hp'.
      apply simple_newPages_flag in Hp'. congruence.
    + destruct (Hsame Hp').
    + exfalso. unfold Simple.calculate_gotPage in Hp'. cbn in Hp'.
      repeat case_match; try exact (Hsame Hp').
      rewrite SimpleFacts.simple_calculate_loop_state in Hp'. cbn in Hp'.
      (eapply Halter; [|exact Hp']; intros ?; reflexivity).
    + exfalso. unfold Simple.renderPage_gotPage, Simple.renderPage_catch in Hp'.
      cbn in Hp'. repeat case_match; try exact (Hsame Hp'); cbn in Hp';
        (eapply Halter; [|exact Hp']; intros ?; reflexivity).
    + unfold Simple.renderPage_rasterized, Simple.renderPage_catch in Hp'. cbn in Hp'.
      destruct (Simple.pages (state w) !! j) as [q|] eqn:Hq; [|destruct (Hsame Hp')].
      destruct r; [|destruct (Hsame Hp')]. cbn in Hp'.
      destruct (decide (i = j)) as [->|Hne]; [by exists k|].
      rewrite list_lookup_alter_ne in Hp' by congruence. destruct (Hsame Hp').
  - destruct (Simple.mounted w); [|destruct (Hsame Hp')]. cbn in Hp'.
    exfalso. apply (Hmap (Simple.set_canvas None)); [reflexivity|exact Hp'].
Qed.

(** The same in the high-quality viewer: the layout pass clears the flag
    and never sets it. *)
Lemma hq_flag_writer e (w : HighQuality.World) i p p' :
  HighQuality.pages (state w) !! i = Some p -> HighQuality.rendered p = false ->
  HighQuality.pages (state (HighQuality.step e w)) !! i = Some p' ->
  HighQuality.rendered p' = true ->
  exists k, e = Settle k Pdfjs.Fulfilled /\ pending w !! k = Some (RenderAwaitRaster i).
Proof.
  intros Hp Hr Hp' Hr'.
  assert (HighQuality.pages (state w) !! i = Some p' -> False) as Hsame
    by (intros H; congruence).
  assert (forall j f, (forall q, HighQuality.rendered (f q) = HighQuality.rendered q) ->
            alter f j (HighQuality.pages (state w)) !! i = Some p' -> False) as Halter.
  { intros j f Hf H.
    pose proof (flag_kept_alter HighQuality.rendered f _ i j p p' Hf Hp Hr H).
    congruence. }
  assert (forall f, (forall q, HighQuality.rendered (f q) = HighQuality.rendered q) ->
            map f (HighQuality.pages (state w)) !! i = Some p' -> False) as Hmap.
  { intros f Hf H.
    pose proof (flag_kept_map HighQuality.rendered f _ i p p' Hf Hp Hr H). congruence. }
  destruct e; cbn in Hp'.
  - destruct (phase w); destruct (Hsame Hp').
  - destruct (phase w); [destruct (Hsame Hp')| |];
      unfold HighQuality.onProgress in Hp'; destruct (Qlt_le_dec _ _);
      destruct (Hsame Hp').
  - destruct (HighQuality.mounted w); [|destruct (Hsame Hp')].
    unfold HighQuality.flush in Hp'. destruct (HighQuality.loading (state w));
      [destruct (Hsame Hp')|].
    cbn in Hp'. exfalso. apply (Hmap (HighQuality.bindCanvas context2d)); [|exact Hp'].
    intros q. unfold HighQuality.bindCanvas. destruct (HighQuality.canvas q); reflexivity.
  - destruct (HighQuality.mounted w); [|destruct (Hsame Hp')].
    unfold HighQuality.handleResize in Hp'.
    destruct entries as [|entry entries]; [destruct (Hsame Hp')|].
    unfold HighQuality.calculatePageDimensions, HighQuality.calculate_return in Hp'.
    case_match; [destruct (Hsame Hp')|].
    rewrite HighQualityFacts.hq_calculate_loop_state in Hp'. destruct (Hsame Hp').
  - destruct (created w !! observer) as [ob|]; [|destruct (Hsame Hp')].
    destruct (Dom.observing ob); [|destruct (Hsame Hp')].
    rewrite hq_callback_pages in Hp'. destruct (Hsame Hp').
  - destruct (pending w !! k) as [t|] eqn:Hk; [|destruct (Hsame Hp')].
    destruct t as [| |j a|j|j]; cbn in Hp'.
    + exfalso. destruct r; [|exact (Hsame Hp')].
      unfold HighQuality.loadPDF_gotDocument, HighQuality.calculatePageDimensions,
        HighQuality.calculate_return in Hp'.
      case_match; [|rewrite HighQualityFacts.hq_calculate_loop_state in Hp'];
        cbn in Hp'; apply hq_newPages_flag in Hp'; congruence.
    + destruct (Hsame Hp').
    + exfalso. unfold HighQuality.calculate_gotPage, HighQuality.calculate_throw in Hp'.
      cbn in Hp'.
      destruct r; [|destruct a; exact (Hsame Hp')].
      destruct (_ ≫= _) as [page|]; [|destruct a; exact (Hsame Hp')].
      destruct (HighQuality.pages (state w) !! j) as [q|] eqn:Hq;
        [|destruct a; exact (Hsame Hp')].
      rewrite HighQualityFacts.hq_calculate_loop_state in Hp'.
      destruct (HighQuality.rendered q && _).
      * rewrite HighQualityFacts.hq_renderPage_state in Hp'. cbn in Hp'.
        destruct (decide (i = j)) as [->|Hne].
        -- rewrite !list_lookup_alter_eq, Hq in Hp'. cbn in Hp'.
           injection Hp' as <-. discriminate.
        -- rewrite !list_lookup_alter_ne in Hp' by congruence. exact (Hsame Hp').
      * cbn in Hp'. (eapply Halter; [|exact Hp']; intros ?; reflexivity).
    + exfalso. unfold HighQuality.renderPage_gotPage, HighQuality.renderPage_catch in Hp'.
      cbn in Hp'. repeat case_match; try exact (Hsame Hp'); cbn in Hp';
        (eapply Halter; [|exact Hp']; intros ?; reflexivity).
    + unfold HighQuality.renderPage_rasterized, HighQuality.renderPage_catch in Hp'.
      cbn in Hp'.
      destruct (HighQuality.pages (state w) !! j) as [q|] eqn:Hq; [|destruct (Hsame Hp')].
      destruct r; [|destruct (Hsame Hp')]. cbn in Hp'.
      destruct (decide (i = j)) as [->|Hne]; [by exists k|].
      rewrite list_lookup_alter_ne in Hp' by congruence. destruct (Hsame Hp').
  - destruct (HighQuality.mounted w); [|destruct (Hsame Hp')]. cbn in Hp'.
    exfalso. apply (Hmap (HighQuality.set_canvas None)); [reflexivity|exact Hp'].
Qed.

(** A rasterization that completes sets the flag. *)
Lemma simple_flag_set (w : Simple.World) k i p :
  pending w !! k = Some (RenderAwaitRaster i) ->
  Simple.pages (state w) !! i = Some p ->
  Simple.pages (state (Simple.step (Settle k Pdfjs.Fulfilled) w)) !! i
  = Some (Simple.set_rendered true p).
Proof.
  intros Hk Hp. cbn. rewrite Hk. cbn. unfold Simple.renderPage_rasterized. cbn.
  rewrite Hp. cbn. by rewrite list_lookup_alter_eq, Hp.
Qed.

Lemma hq_flag_set (w : HighQuality.World) k i p :
  pending w !! k = Some (RenderAwaitRaster i) ->
  HighQuality.pages (state w) !! i = Some p ->
  HighQuality.pages (state (HighQuality.step (Settle k Pdfjs.Fulfilled) w)) !! i
  = Some (HighQuality.set_rendered true p).
Proof.
  intros Hk Hp. cbn. rewrite Hk. cbn. unfold HighQuality.renderPage_rasterized. cbn.
  rewrite Hp. cbn. by rewrite list_lookup_alter_eq, Hp.
Qed.

End FlagFacts.

(** * The claims *)

Import Loop Tracker Scheduler Scenario.

(** C6.  The load-progress callback, the same in both viewers.  With a
    positive total it writes [state.loadingProgress] and nothing else, a
    whole number that is the same in both viewers; with a total that is
    zero or negative it leaves the state as it is.  The number, in
    binary64, the arithmetic of the code: when [total > 0] holds it is
    [Math.round((loaded / total) * 100)], the rounding of the product as
    it comes out; when it does not hold (a total that is zero, negative
    or NaN) the previous value is kept and nothing is divided.  With 50
    of 200 bytes loaded the progress is 25, in the transition systems and
    in binary64 alike; with 23 of 40, where the product comes out just
    short of 57.5 in binary64, the code reports 57. *)
Theorem progress_percentage (loaded total : Q)
    (s : HighQuality.ViewerState) (s' : Simple.ViewerState)
    (x y previous : Binary64.number) :
  ((0 < total)%Q ->
     exists n : Z,
       HighQuality.onProgress loaded total s
       = HighQuality.set_loadingProgress (inject_Z n) s
       /\ Simple.onProgress loaded total s'
          = Simple.set_loadingProgress (inject_Z n) s')
  /\ ((total <= 0)%Q ->
       HighQuality.onProgress loaded total s = s
       /\ Simple.onProgress loaded total s' = s')
  /\ (Binary64.lt Binary64.zero y = true ->
       Binary64.onProgress x y previous
       = Binary64.round (Binary64.mul (Binary64.div x y) (Binary64.ofZ 100)))
  /\ (Binary64.lt Binary64.zero y = false ->
       Binary64.onProgress x y previous = previous)
  /\ HighQuality.loadingProgress (HighQuality.onProgress 50 200 s) = 25%Q
  /\ Simple.loadingProgress (Simple.onProgress 50 200 s') = 25%Q
  /\ Binary64.onProgress (Binary64.ofZ 50) (Binary64.ofZ 200) previous
     = Binary64.ofZ 25
  /\ Binary64.onProgress (Binary64.ofZ 23) (Binary64.ofZ 40) previous
     = Binary64.ofZ 57.
Proof.
  unfold HighQuality.onProgress, Simple.onProgress, Binary64.onProgress.
  split; [|split; [|split; [|split]]].
  - intros Hpos. destruct (Qlt_le_dec 0 total) as [_|Hle]; [|lra].
    eexists. split; reflexivity.
  - intros Hle. destruct (Qlt_le_dec 0 total) as [Hlt|_]; [lra|]. split; reflexivity.
  - intros ->. reflexivity.
  - intros ->. reflexivity.
  - repeat split; vm_compute; reflexivity.
Qed.

Lemma progress_percentage_witness :
  (exists n : Z,
     HighQuality.onProgress 1 3 HighQuality.initialState
     = HighQuality.set_loadingProgress (inject_Z n) HighQuality.initialState
     /\ Simple.onProgress 1 3 Simple.initialState
        = Simple.set_loadingProgress (inject_Z n) Simple.initialState)
  /\ (HighQuality.onProgress 1 0 HighQuality.initialState = HighQuality.initialState
      /\ Simple.onProgress 1 0 Simple.initialState = Simple.initialState)
  /\ Binary64.onProgress (Binary64.ofZ 1) (Binary64.ofZ 3) Binary64.zero
     = Binary64.round
         (Binary64.mul (Binary64.div (Binary64.ofZ 1) (Binary64.ofZ 3)) (Binary64.ofZ 100))
  /\ Binary64.onProgress (Binary64.ofZ 1) SpecFloat.S754_nan (Binary64.ofZ 7)
     = Binary64.ofZ 7.
Proof.
  destruct (progress_percentage 1 3 HighQuality.initialState Simple.initialState
              (Binary64.ofZ 1) (Binary64.ofZ 3) Binary64.zero)
    as (Hpos & _ & Hgt & _).
  destruct (progress_percentage 1 0 HighQuality.initialState Simple.initialState
              (Binary64.ofZ 1) SpecFloat.S754_nan (Binary64.ofZ 7))
    as (_ & Hzero & _ & Hnan & _).
  split; [apply Hpos; reflexivity|].
  split; [apply Hzero; discriminate|].
  split; [apply Hgt; reflexivity|apply Hnan; reflexivity].
Defined.

(** C8.  A layout calculation that starts while the container width is
    zero is a no-op: started by a resize notification it leaves the whole
    world as it is; awaited by loadPDF, before the container was ever
    measured, it leaves the pages as they were created and only resumes
    loadPDF.  In both cases no page is fetched and nothing is divided.  A
    notification of a zero width therefore leaves every page's [width],
    [height] and [scale] at their previous values, and so does a
    notification without entries. *)
Theorem zero_width_layout_is_noop (w : HighQuality.World)
    (entry : Dom.ResizeObserverEntry) (entries : list Dom.ResizeObserverEntry) :
  ((HighQuality.containerWidth (state w) == 0)%Q ->
     HighQuality.calculatePageDimensions false w = w
     /\ HighQuality.calculatePageDimensions true w = park LoadAwaitLayout w
     /\ HighQuality.pages (state (HighQuality.loadPDF_gotDocument Pdfjs.Fulfilled w))
        = HighQuality.newPages (Pdfjs.numPages (portfolio w))
     /\ getPageCalls (HighQuality.loadPDF_gotDocument Pdfjs.Fulfilled w)
        = getPageCalls w)
  /\ ((Dom.contentRect_width entry == 0)%Q ->
       let w' := HighQuality.handleResize (entry :: entries) w in
       HighQuality.pages (state w') = HighQuality.pages (state w)
       /\ pending w' = pending w
       /\ getPageCalls w' = getPageCalls w)
  /\ HighQuality.handleResize [] w = w.
Proof.
  split; [|split; [|reflexivity]].
  - intros Hz. destruct (HighQualityFacts.calculate_noop w Hz) as [Hf Ht].
    split; [exact Hf|]. split; [exact Ht|].
    unfold HighQuality.loadPDF_gotDocument.
    match goal with
    | |- context [HighQuality.calculatePageDimensions true ?w0] =>
        destruct (HighQualityFacts.calculate_noop w0 Hz) as [_ ->]
    end.
    split; reflexivity.
  - intros Hz. cbn.
    match goal with
    | |- context [HighQuality.calculatePageDimensions false ?w0] =>
        destruct (HighQualityFacts.calculate_noop w0 Hz) as [-> _]
    end.
    repeat split; reflexivity.
Qed.

Lemma zero_width_layout_is_noop_witness :
  HighQuality.calculatePageDimensions false (HighQuality.init threePages)
  = HighQuality.init threePages
  /\ HighQuality.calculatePageDimensions true (HighQuality.init threePages)
     = park LoadAwaitLayout (HighQuality.init threePages)
  /\ HighQuality.pages
       (state (HighQuality.loadPDF_gotDocument Pdfjs.Fulfilled
                 (HighQuality.init threePages)))
     = HighQuality.newPages (Pdfjs.numPages (portfolio (HighQuality.init threePages)))
  /\ getPageCalls
       (HighQuality.loadPDF_gotDocument Pdfjs.Fulfilled (HighQuality.init threePages))
     = getPageCalls (HighQuality.init threePages).
Proof.
  exact (proj1 (zero_width_layout_is_noop (HighQuality.init threePages)
                  {| Dom.contentRect_width := 0; Dom.contentRect_height := 0 |} [])
               eq_refl).
Defined.

(** C2.  In both viewers [renderPage] returns at once, leaving the world as
    it is (nothing fetched, nothing rasterized, nothing logged, no call
    parked), when no document is open, when the page is already rendered,
    or when it has no canvas.  In particular two calls in a row for a
    rendered page leave the world, and so the list of rasterize calls,
    unchanged. *)
Theorem renderPage_guards (w : HighQuality.World) (v : Simple.World)
    (i : nat) (p : HighQuality.PageState) (q : Simple.PageState) :
  (HighQuality.pages (state w) !! i = Some p ->
   HighQuality.pdfDoc (state w) = None \/ HighQuality.rendered p = true
     \/ HighQuality.canvas p = None ->
   HighQuality.renderPage i w = w)
  /\ (Simple.pages (state v) !! i = Some q ->
      Simple.pdfDoc (state v) = None \/ Simple.rendered q = true
        \/ Simple.canvas q = None ->
      Simple.renderPage i v = v)
  /\ (HighQuality.pages (state w) !! i = Some p -> HighQuality.rendered p = true ->
      HighQuality.renderPage i (HighQuality.renderPage i w) = w
      /\ renderCalls (HighQuality.renderPage i (HighQuality.renderPage i w))
         = renderCalls w)
  /\ (Simple.pages (state v) !! i = Some q -> Simple.rendered q = true ->
      Simple.renderPage i (Simple.renderPage i v) = v
      /\ renderCalls (Simple.renderPage i (Simple.renderPage i v)) = renderCalls v).
Proof.
  split; [|split; [|split]].
  - apply HighQualityFacts.hq_renderPage_guarded.
  - apply SimpleFacts.simple_renderPage_guarded.
  - intros Hp Hr.
    assert (HighQuality.renderPage i w = w) as ->
      by (eapply HighQualityFacts.hq_renderPage_guarded; eauto).
    assert (HighQuality.renderPage i w = w) as ->
      by (eapply HighQualityFacts.hq_renderPage_guarded; eauto).
    split; reflexivity.
  - intros Hq Hr.
    assert (Simple.renderPage i v = v) as ->
      by (eapply SimpleFacts.simple_renderPage_guarded; eauto).
    assert (Simple.renderPage i v = v) as ->
      by (eapply SimpleFacts.simple_renderPage_guarded; eauto).
    split; reflexivity.
Qed.

Lemma renderPage_guards_witness :
  let w := HighQuality.run firstPageRendered (HighQuality.init threePages) in
  let v := Simple.run firstPageRenderedSimple (Simple.init threePages) in
  HighQuality.renderPage 0 w = w
  /\ Simple.renderPage 0 v = v
  /\ renderCalls (HighQuality.renderPage 0 (HighQuality.renderPage 0 w))
     = renderCalls w
  /\ renderCalls (Simple.renderPage 0 (Simple.renderPage 0 v)) = renderCalls v.
Proof.
  intros w v.
  epose proof (renderPage_guards w v 0 _ _) as (H1 & H2 & H3 & H4).
  split; [|split; [|split]].
  - apply H1; [lazy; reflexivity|right; left; reflexivity].
  - apply H2; [lazy; reflexivity|right; left; reflexivity].
  - apply H3; reflexivity.
  - apply H4; reflexivity.
Defined.

(** C10.  The simple viewer never reacts to the container: a resize
    notification leaves its world as it is, a run ends in the same world
    with or without its resize notifications, and two runs that differ
    only in them end in the same world, with the same page sizes.  The
    layout of a page is a function of the page alone: its natural size
    scaled by [min (MAX_WIDTH / natural width) 1.5], with
    [MAX_WIDTH = 1000]. *)
Theorem simple_layout_ignores_container (doc : Pdfjs.PDFDocumentProxy)
    (events events' : list Event) (entries : list Dom.ResizeObserverEntry)
    (w : Simple.World) (page : Pdfjs.PDFPageProxy) (p : Simple.PageState) :
  Simple.step (Resize entries) w = w
  /\ Simple.run (withoutResize events) (Simple.init doc)
     = Simple.run events (Simple.init doc)
  /\ (withoutResize events = withoutResize events' ->
      Simple.run events (Simple.init doc) = Simple.run events' (Simple.init doc))
  /\ Simple.MAX_WIDTH = 1000%Q
  /\ (let scale := Qmin (Simple.MAX_WIDTH / Pdfjs.width (Pdfjs.natural page)) (3 # 2) in
      Simple.width (Simple.layoutPage page p)
        == Pdfjs.width (Pdfjs.natural page) * scale
      /\ Simple.height (Simple.layoutPage page p)
        == Pdfjs.height (Pdfjs.natural page) * scale)%Q.
Proof.
  split; [reflexivity|]. split; [apply SimpleFacts.run_withoutResize|].
  split; [|split; [reflexivity|]].
  - intros He.
    rewrite <- (SimpleFacts.run_withoutResize events),
            <- (SimpleFacts.run_withoutResize events'), He.
    reflexivity.
  - cbn. rewrite (SimpleFacts.fitScale_natural page). split; reflexivity.
Qed.

Lemma simple_layout_ignores_container_witness :
  Simple.run (openedSimple ++ [resized 1000 700]) (Simple.init threePages)
  = Simple.run (resized 300 200 :: openedSimple) (Simple.init threePages).
Proof.
  exact (proj1 (proj2 (proj2
    (simple_layout_ignores_container threePages
       (openedSimple ++ [resized 1000 700]) (resized 300 200 :: openedSimple)
       [] (Simple.init threePages) (page 600 800)
       {| Simple.pageNum := 1; Simple.canvas := None; Simple.rendered := false;
          Simple.height := 0; Simple.width := 0 |}))) eq_refl).
Defined.

(** C5.  In the simple viewer the scale of a page is
    [min (MAX_WIDTH / natural width) 1.5], which never exceeds 1.5; when
    the fetch of page [i + 1] settles during the layout pass, the page
    gets its natural size times that scale.  With [MAX_WIDTH = 1000] a
    page 2000 wide has scale 0.5. *)
Theorem fit_with_cap (w : Simple.World) (k i : nat) (awaited : bool)
    (doc : Pdfjs.PDFDocumentProxy) (page : Pdfjs.PDFPageProxy)
    (p : Simple.PageState) (h : Q) :
  (pending w !! k = Some (LayoutAwaitPage i awaited) ->
   Simple.pdfDoc (state w) = Some doc ->
   Pdfjs.getPage doc (i + 1) = Some page ->
   Simple.pages (state w) !! i = Some p ->
   (0 < Pdfjs.width (Pdfjs.natural page))%Q ->
   let scale := Simple.fitScale (Pdfjs.getViewport page 1) in
   (scale == Qmin (Simple.MAX_WIDTH / Pdfjs.width (Pdfjs.natural page)) (3 # 2))%Q
   /\ (scale <= 3 # 2)%Q
   /\ exists p',
        Simple.pages (state (Simple.step (Settle k Pdfjs.Fulfilled) w)) !! i = Some p'
        /\ Simple.width p' = (Pdfjs.width (Pdfjs.natural page) * scale)%Q
        /\ Simple.height p' = (Pdfjs.height (Pdfjs.natural page) * scale)%Q
        /\ Simple.rendered p' = Simple.rendered p
        /\ Simple.canvas p' = Simple.canvas p)
  /\ (Simple.fitScale (Pdfjs.getViewport (Scenario.page 2000 h) 1) == 1 # 2)%Q.
Proof.
  split.
  - intros Hk Hdoc Hpage Hp Hpos scale.
    split; [apply SimpleFacts.fitScale_natural|].
    split; [apply SimpleFacts.fitScale_capped|].
    exists (Simple.layoutPage page p).
    split; [eapply SimpleFacts.simple_layout_step; eassumption|].
    repeat split; reflexivity.
  - reflexivity.
Qed.

Lemma fit_with_cap_witness :
  let w := Simple.run [Mount; settled] (Simple.init threePages) in
  let scale := Simple.fitScale (Pdfjs.getViewport (page 600 800) 1) in
  (scale == Qmin (Simple.MAX_WIDTH / 600) (3 # 2))%Q
  /\ (scale <= 3 # 2)%Q
  /\ exists p',
       Simple.pages (state (Simple.step (Settle 0 Pdfjs.Fulfilled) w)) !! 0%nat = Some p'
       /\ Simple.width p' = (600 * scale)%Q
       /\ Simple.height p' = (800 * scale)%Q
       /\ Simple.rendered p' = false
       /\ Simple.canvas p' = None.
Proof.
  exact (proj1 (fit_with_cap (Simple.run [Mount; settled] (Simple.init threePages))
                  0 0 true threePages (page 600 800)
                  {| Simple.pageNum := 1; Simple.canvas := None;
                     Simple.rendered := false;
                     Simple.height := 0; Simple.width := 0 |} 0)
               eq_refl eq_refl eq_refl eq_refl eq_refl).
Defined.

(** C4, as stated, fails on the scenario it gives, and on rounding.  For
    a page of 600 x 800 and a container 1000 wide the layout has scale
    1.5 and display size 900 x 1200, not scale 0.9 and 540 x 720: so it
    is in exact arithmetic, and so it is in binary64, where the three
    numbers come out exactly.  And the sizes are not rounded: for a
    container 1001 wide the display width is not a whole number, in exact
    arithmetic and in binary64 alike. *)
Lemma fit_to_width_counterexample :
  let laid := HighQuality.layoutPage 1000 (page 600 800) firstPage in
  let laid' := HighQuality.layoutPage 1001 (page 600 800) firstPage in
  (~ (HighQuality.scale laid == 9 # 10)%Q
   /\ ~ (HighQuality.width laid == 540)%Q
   /\ ~ (HighQuality.height laid == 720)%Q)
  /\ Binary64.layout (Binary64.ofZ 1000) (Binary64.ofZ 600) (Binary64.ofZ 800)
     = (Binary64.div (Binary64.ofZ 3) (Binary64.ofZ 2),
        Binary64.ofZ 900, Binary64.ofZ 1200)
  /\ ~ (HighQuality.width laid' == Math.round (HighQuality.width laid'))%Q
  /\ (let '(_, scaledWidth, _) :=
        Binary64.layout (Binary64.ofZ 1001) (Binary64.ofZ 600) (Binary64.ofZ 800) in
      Binary64.round scaledWidth <> scaledWidth).
Proof.
  vm_compute. repeat split; try reflexivity; intros H; discriminate H.
Qed.

(** C4, amended.  In the high-quality viewer the layout of a page depends
    on the container width and on the natural size of the page alone.
    For a positive container width and a positive natural width the scale
    is [containerWidth * WIDTH_RATIO / natural width], and the display
    size is the natural width times that scale by the natural height
    times that scale, the products as they come out: nothing is rounded
    to whole pixels.  When the fetch of page [i + 1] settles during a
    layout pass, this layout is what the page state gets, and its number
    and its canvas are kept.  A page of 600 x 800 in a container 1000
    wide, with [WIDTH_RATIO = 0.9], gets scale 1.5 and display size
    900 x 1200, in exact arithmetic and in binary64. *)
Theorem fit_to_width (containerWidth : Q) (page : Pdfjs.PDFPageProxy)
    (p : HighQuality.PageState) (w : HighQuality.World) (k i : nat)
    (awaited : bool) (doc : Pdfjs.PDFDocumentProxy) :
  ((0 < containerWidth)%Q -> (0 < Pdfjs.width (Pdfjs.natural page))%Q ->
     let laid := HighQuality.layoutPage containerWidth page p in
     (HighQuality.scale laid
      == containerWidth * HighQuality.WIDTH_RATIO / Pdfjs.width (Pdfjs.natural page))%Q
     /\ (HighQuality.width laid
         == Pdfjs.width (Pdfjs.natural page) * HighQuality.scale laid)%Q
     /\ (HighQuality.height laid
         == Pdfjs.height (Pdfjs.natural page) * HighQuality.scale laid)%Q)
  /\ (pending w !! k = Some (LayoutAwaitPage i awaited) ->
      HighQuality.pdfDoc (state w) = Some doc ->
      Pdfjs.getPage doc (i + 1) = Some page ->
      HighQuality.pages (state w) !! i = Some p ->
      let laid := HighQuality.layoutPage (HighQuality.containerWidth (state w)) page p in
      exists p',
        HighQuality.pages (state (HighQuality.step (Settle k Pdfjs.Fulfilled) w)) !! i
        = Some p'
        /\ HighQuality.scale p' = HighQuality.scale laid
        /\ HighQuality.width p' = HighQuality.width laid
        /\ HighQuality.height p' = HighQuality.height laid
        /\ HighQuality.pageNum p' = HighQuality.pageNum p
        /\ HighQuality.canvas p' = HighQuality.canvas p)
  /\ HighQuality.WIDTH_RATIO = (9 # 10)%Q
  /\ (let laid := HighQuality.layoutPage 1000 (Scenario.page 600 800) p in
      (HighQuality.scale laid == 3 # 2)%Q
      /\ (HighQuality.width laid == 900)%Q /\ (HighQuality.height laid == 1200)%Q)
  /\ Binary64.layout (Binary64.ofZ 1000) (Binary64.ofZ 600) (Binary64.ofZ 800)
     = (Binary64.div (Binary64.ofZ 3) (Binary64.ofZ 2),
        Binary64.ofZ 900, Binary64.ofZ 1200).
Proof.
  split; [|split; [|split; [reflexivity|split]]].
  - intros Hcw Hnw. cbn.
    set (nw := Pdfjs.width (Pdfjs.natural page)) in *.
    set (nh := Pdfjs.height (Pdfjs.natural page)).
    assert (~ nw == 0)%Q as Hnz by lra.
    assert (~ nw * 1 == 0)%Q as Hnz1 by lra.
    repeat split; try (field; assumption); reflexivity.
  - intros Hk Hdoc Hpage Hp. eexists.
    split; [eapply HighQualityFacts.hq_layout_step; eassumption|].
    repeat split; reflexivity.
  - vm_compute. repeat split; reflexivity.
  - vm_compute. reflexivity.
Qed.

Lemma fit_to_width_witness :
  let w := HighQuality.handleResize [measured 1001 700]
             (HighQuality.run opened (HighQuality.init threePages)) in
  (let laid := HighQuality.layoutPage 1001 (page 600 800) firstPage in
   (HighQuality.scale laid == 1001 * HighQuality.WIDTH_RATIO / 600)%Q
   /\ (HighQuality.width laid == 600 * HighQuality.scale laid)%Q
   /\ (HighQuality.height laid == 800 * HighQuality.scale laid)%Q)
  /\ exists p',
       HighQuality.pages (state (HighQuality.step (Settle 0 Pdfjs.Fulfilled) w)) !! 0%nat
       = Some p'
       /\ HighQuality.scale p'
          = HighQuality.scale
              (HighQuality.layoutPage (HighQuality.containerWidth (state w))
                 (page 600 800) firstPage).
Proof.
  intros w.
  destruct (fit_to_width 1001 (page 600 800) firstPage w 0 0 false threePages)
    as (Hlaid & _).
  destruct (fit_to_width 1001 (page 600 800)
              (HighQuality.set_canvas (Some (Dom.newCanvas true)) firstPage)
              w 0 0 false threePages)
    as (_ & Hstep & _).
  split; [apply Hlaid; reflexivity|].
  destruct Hstep as (p' & Hp' & Hs & _); try reflexivity.
  exists p'. split; [exact Hp'|exact Hs].
Defined.

(** C7.  In both viewers, when the fetch of a page or its rasterization
    fails, [renderPage] ends there: the failure goes to [console.error]
    with the page number; the state is untouched, so the page's
    [rendered] flag stays as it was (false, if no other render set it) and
    no other page is affected; the call is gone from the parked calls and
    no other call is added or removed, so nothing is retried; no page is
    fetched or rasterized anew; and no rejection is left unhandled. *)
Theorem render_failure_is_contained (w : HighQuality.World) (v : Simple.World)
    (k i : nat) (t : Task) (p : HighQuality.PageState) (q : Simple.PageState) :
  (pending w !! k = Some t ->
   t = RenderAwaitPage i \/ t = RenderAwaitRaster i ->
   HighQuality.pages (state w) !! i = Some p ->
   let w' := HighQuality.step (Settle k Pdfjs.Rejected) w in
   console w' = console w ++ [Dom.ErrorRenderingPage (HighQuality.pageNum p)]
   /\ state w' = state w
   /\ (HighQuality.rendered p = false ->
       exists p', HighQuality.pages (state w') !! i = Some p'
                  /\ HighQuality.rendered p' = false)
   /\ pending w' = delete k (pending w)
   /\ getPageCalls w' = getPageCalls w
   /\ renderCalls w' = renderCalls w
   /\ unhandledRejections w' = unhandledRejections w
   /\ tracker w' = tracker w)
  /\ (pending v !! k = Some t ->
      t = RenderAwaitPage i \/ t = RenderAwaitRaster i ->
      Simple.pages (state v) !! i = Some q ->
      let v' := Simple.step (Settle k Pdfjs.Rejected) v in
      console v' = console v ++ [Dom.ErrorRenderingPage (Simple.pageNum q)]
      /\ state v' = state v
      /\ (Simple.rendered q = false ->
          exists q', Simple.pages (state v') !! i = Some q'
                     /\ Simple.rendered q' = false)
      /\ pending v' = delete k (pending v)
      /\ getPageCalls v' = getPageCalls v
      /\ renderCalls v' = renderCalls v
      /\ unhandledRejections v' = unhandledRejections v
      /\ tracker v' = tracker v).
Proof.
  split.
  - intros Hk Ht Hp w'. subst w'.
    rewrite (HighQualityFacts.hq_render_rejected w k t i p Hk Ht Hp). cbn.
    split; [reflexivity|]. split; [reflexivity|].
    split; [intros Hr; exists p; split; assumption|].
    repeat split; reflexivity.
  - intros Hk Ht Hq v'. subst v'.
    rewrite (SimpleFacts.simple_render_rejected v k t i q Hk Ht Hq). cbn.
    split; [reflexivity|]. split; [reflexivity|].
    split; [intros Hr; exists q; split; assumption|].
    repeat split; reflexivity.
Qed.

Lemma render_failure_is_contained_witness :
  let w := HighQuality.run (opened ++ [Intersect 0 [true; true]; settled])
             (HighQuality.init threePages) in
  let v := Simple.run (openedSimple ++ [Intersect 0 [true]])
             (Simple.init threePages) in
  (console (HighQuality.step (Settle 1 Pdfjs.Rejected) w) = [Dom.ErrorRenderingPage 1]
   /\ pending (HighQuality.step (Settle 1 Pdfjs.Rejected) w) = [RenderAwaitPage 0])
  /\ (console (Simple.step (Settle 0 Pdfjs.Rejected) v) = [Dom.ErrorRenderingPage 1]
      /\ pending (Simple.step (Settle 0 Pdfjs.Rejected) v) = []).
Proof.
  intros w v.
  epose proof (render_failure_is_contained w v 1 0 (RenderAwaitRaster 0) _
                 {| Simple.pageNum := 1; Simple.canvas := None;
                    Simple.rendered := false;
                    Simple.height := 0; Simple.width := 0 |})
    as [Hw _].
  epose proof (render_failure_is_contained w v 0 0 (RenderAwaitPage 0)
                 {| HighQuality.pageNum := 1; HighQuality.canvas := None;
                    HighQuality.rendered := false;
                    HighQuality.height := 0; HighQuality.width := 0;
                    HighQuality.scale := 1;
                    HighQuality.actualHeight := 0; HighQuality.actualWidth := 0 |} _)
    as [_ Hv].
  split.
  - destruct Hw as (Hc & _ & _ & Hp & _);
      [lazy; reflexivity|right; reflexivity|lazy; reflexivity|].
    split; [exact Hc|exact Hp].
  - destruct Hv as (Hc & _ & _ & Hp & _);
      [lazy; reflexivity|left; reflexivity|lazy; reflexivity|].
    split; [exact Hc|exact Hp].
Defined.

(** C3, as stated, fails in both viewers: when the observer of page 1
    fires twice before the first fetch has settled, both calls of
    [renderPage] pass the guard, both fetch the page and both start a
    rasterization, and two rasterizations of page 1 are in flight. *)
Lemma single_flight_counterexample :
  ~ (forall doc events i,
       (inFlight i (HighQuality.run events (HighQuality.init doc)) <= 1)%nat)
  /\ ~ (forall doc events i,
          (inFlight i (Simple.run events (Simple.init doc)) <= 1)%nat)
  /\ inFlight 0 (HighQuality.run visibleTwiceUnmeasured (HighQuality.init threePages))
     = 2%nat
  /\ inFlight 0 (Simple.run visibleTwice (Simple.init threePages)) = 2%nat.
Proof.
  assert (inFlight 0 (HighQuality.run visibleTwiceUnmeasured
                        (HighQuality.init threePages)) = 2%nat)
    as Hhq by (vm_compute; reflexivity).
  assert (inFlight 0 (Simple.run visibleTwice (Simple.init threePages)) = 2%nat)
    as Hs by (vm_compute; reflexivity).
  split; [|split; [|split; assumption]].
  - intros H. specialize (H threePages visibleTwiceUnmeasured 0%nat). lia.
  - intros H. specialize (H threePages visibleTwice 0%nat). lia.
Qed.

(** C3, amended.  In both viewers the [rendered] flag is the only gate of
    a render, and only a completed rasterization sets it.

    - A call of [renderPage] does something only when a document is open,
      the page has a canvas and its flag is false; a trigger for a page
      whose flag is true starts nothing.
    - A trigger for a page with a document open, a canvas and the flag
      false parks a new call of [renderPage] behind whatever is already
      parked for that page; and when the fetch of such a call settles,
      with a canvas that has a 2d context, its rasterization starts
      whatever else is in flight: the number of rasterizations in flight
      for the page grows by one.
    - In whatever turn the flag of a page goes from false to true, a
      rasterization of that page has completed in that turn; and a
      rasterization that completes sets the flag.  Nothing else sets it,
      so triggers that arrive before that are not held back. *)
Theorem rendered_flag_is_the_only_gate (w : HighQuality.World) (v : Simple.World)
    (k i : nat) (p p' : HighQuality.PageState) (q q' : Simple.PageState)
    (c : Dom.Canvas) (doc : Pdfjs.PDFDocumentProxy) (page : Pdfjs.PDFPageProxy)
    (e : Event) :
  (HighQuality.pages (state w) !! i = Some p ->
   (HighQuality.rendered p = true -> HighQuality.renderPage i w = w)
   /\ (HighQuality.renderPage i w <> w ->
       is_Some (HighQuality.pdfDoc (state w)) /\ HighQuality.rendered p = false
       /\ is_Some (HighQuality.canvas p))
   /\ (HighQuality.rendered p = false ->
       HighQuality.pdfDoc (state w) = Some doc -> HighQuality.canvas p = Some c ->
       pending (HighQuality.renderPage i w) = pending w ++ [RenderAwaitPage i]
       /\ inFlight i (HighQuality.renderPage i w) = inFlight i w)
   /\ (pending w !! k = Some (RenderAwaitPage i) ->
       HighQuality.pdfDoc (state w) = Some doc ->
       Pdfjs.getPage doc (HighQuality.pageNum p) = Some page ->
       HighQuality.canvas p = Some c -> Dom.context2d c = true ->
       let w' := HighQuality.step (Settle k Pdfjs.Fulfilled) w in
       inFlight i w' = S (inFlight i w)
       /\ length (renderCalls w') = S (length (renderCalls w)))
   /\ (HighQuality.rendered p = false ->
       HighQuality.pages (state (HighQuality.step e w)) !! i = Some p' ->
       HighQuality.rendered p' = true ->
       exists k', e = Settle k' Pdfjs.Fulfilled
                  /\ pending w !! k' = Some (RenderAwaitRaster i))
   /\ (pending w !! k = Some (RenderAwaitRaster i) ->
       HighQuality.pages (state (HighQuality.step (Settle k Pdfjs.Fulfilled) w)) !! i
       = Some (HighQuality.set_rendered true p)))
  /\ (Simple.pages (state v) !! i = Some q ->
      (Simple.rendered q = true -> Simple.renderPage i v = v)
      /\ (Simple.renderPage i v <> v ->
          is_Some (Simple.pdfDoc (state v)) /\ Simple.rendered q = false
          /\ is_Some (Simple.canvas q))
      /\ (Simple.rendered q = false ->
          Simple.pdfDoc (state v) = Some doc -> Simple.canvas q = Some c ->
          pending (Simple.renderPage i v) = pending v ++ [RenderAwaitPage i]
          /\ inFlight i (Simple.renderPage i v) = inFlight i v)
      /\ (pending v !! k = Some (RenderAwaitPage i) ->
          Simple.pdfDoc (state v) = Some doc ->
          Pdfjs.getPage doc (Simple.pageNum q) = Some page ->
          Simple.canvas q = Some c -> Dom.context2d c = true ->
          inFlight i (Simple.step (Settle k Pdfjs.Fulfilled) v) = S (inFlight i v))
      /\ (Simple.rendered q = false ->
          Simple.pages (state (Simple.step e v)) !! i = Some q' ->
          Simple.rendered q' = true ->
          exists k', e = Settle k' Pdfjs.Fulfilled
                     /\ pending v !! k' = Some (RenderAwaitRaster i))
      /\ (pending v !! k = Some (RenderAwaitRaster i) ->
          Simple.pages (state (Simple.step (Settle k Pdfjs.Fulfilled) v)) !! i
          = Some (Simple.set_rendered true q))).
Proof.
  split.
  - intros Hp. split; [|split; [|split; [|split; [|split]]]].
    + intros Hr. eapply HighQualityFacts.hq_renderPage_guarded; eauto.
    + intros Hne.
      destruct (HighQuality.pdfDoc (state w)) as [d|] eqn:Hdoc.
      2:{ destruct Hne. eapply HighQualityFacts.hq_renderPage_guarded; eauto. }
      destruct (HighQuality.rendered p) eqn:Hr.
      { destruct Hne. eapply HighQualityFacts.hq_renderPage_guarded; eauto. }
      destruct (HighQuality.canvas p) as [c0|] eqn:Hc.
      2:{ destruct Hne. eapply HighQualityFacts.hq_renderPage_guarded; eauto. }
      repeat split; eauto.
    + intros Hr Hdoc Hc.
      rewrite (HighQualityFacts.hq_renderPage_open i w p Hp) by (rewrite ?Hdoc, ?Hc; eauto).
      split; [reflexivity|].
      unfold inFlight. cbn. rewrite list.filter_app, length_app.
      rewrite filter_cons_False by discriminate. cbn. lia.
    + intros Hk Hdoc Hpage Hc Hctx w'.
      destruct (HighQualityFacts.hq_raster_started w k i p c doc page
                  Hk Hp Hdoc Hpage Hc Hctx) as [Hpend Hcalls].
      split.
      * eapply SchedulerFacts.inFlight_raster_parked; eassumption.
      * subst w'. rewrite Hcalls, length_app. cbn. lia.
    + intros Hr Hp' Hr'. eapply FlagFacts.hq_flag_writer; eassumption.
    + intros Hk. by apply FlagFacts.hq_flag_set.
  - intros Hq. split; [|split; [|split; [|split; [|split]]]].
    + intros Hr. eapply SimpleFacts.simple_renderPage_guarded; eauto.
    + intros Hne.
      destruct (Simple.pdfDoc (state v)) as [d|] eqn:Hdoc.
      2:{ destruct Hne. eapply SimpleFacts.simple_renderPage_guarded; eauto. }
      destruct (Simple.rendered q) eqn:Hr.
      { destruct Hne. eapply SimpleFacts.simple_renderPage_guarded; eauto. }
      destruct (Simple.canvas q) as [c0|] eqn:Hc.
      2:{ destruct Hne. eapply SimpleFacts.simple_renderPage_guarded; eauto. }
      repeat split; eauto.
    + intros Hr Hdoc Hc.
      rewrite (SimpleFacts.simple_renderPage_open i v q Hq) by (rewrite ?Hdoc, ?Hc; eauto).
      split; [reflexivity|].
      unfold inFlight. cbn. rewrite list.filter_app, length_app.
      rewrite filter_cons_False by discriminate. cbn. lia.
    + intros Hk Hdoc Hpage Hc Hctx.
      eapply SchedulerFacts.inFlight_raster_parked; [eassumption|].
      eapply SimpleFacts.simple_raster_started; eassumption.
    + intros Hr Hq' Hr'. eapply FlagFacts.simple_flag_writer; eassumption.
    + intros Hk. by apply FlagFacts.simple_flag_set.
Qed.

Lemma rendered_flag_is_the_only_gate_witness :
  let w := HighQuality.run (opened ++ [Intersect 0 [true]])
             (HighQuality.init threePages) in
  let v := Simple.run (openedSimple ++ [Intersect 0 [true]])
             (Simple.init threePages) in
  let w1 := HighQuality.run (opened ++ [Intersect 0 [true]; settled])
              (HighQuality.init threePages) in
  let v1 := Simple.run (openedSimple ++ [Intersect 0 [true]; settled])
              (Simple.init threePages) in
  let w2 := HighQuality.run firstPageRenderedUnmeasured (HighQuality.init threePages) in
  let v2 := Simple.run firstPageRenderedSimple (Simple.init threePages) in
  (HighQuality.renderPage 0 w2 = w2
   /\ pending (HighQuality.renderPage 0 w) = pending w ++ [RenderAwaitPage 0]
   /\ inFlight 0 (HighQuality.step (Settle 0 Pdfjs.Fulfilled) w) = S (inFlight 0 w)
   /\ is_Some (HighQuality.pdfDoc (state w))
   /\ exists p1 p2, HighQuality.pages (state w1) !! 0%nat = Some p1
                    /\ HighQuality.pages (state w2) !! 0%nat = Some p2
                    /\ p2 = HighQuality.set_rendered true p1
                    /\ HighQuality.rendered p2 = true
                    /\ pending w1 !! 0%nat = Some (RenderAwaitRaster 0))
  /\ (Simple.renderPage 0 v2 = v2
      /\ pending (Simple.renderPage 0 v) = pending v ++ [RenderAwaitPage 0]
      /\ inFlight 0 (Simple.step (Settle 0 Pdfjs.Fulfilled) v) = S (inFlight 0 v)
      /\ is_Some (Simple.pdfDoc (state v))
      /\ exists q1 q2, Simple.pages (state v1) !! 0%nat = Some q1
                       /\ Simple.pages (state v2) !! 0%nat = Some q2
                       /\ q2 = Simple.set_rendered true q1
                       /\ Simple.rendered q2 = true
                       /\ pending v1 !! 0%nat = Some (RenderAwaitRaster 0)).
Proof.
  intros w v w1 v1 w2 v2.
  assert (exists p q, HighQuality.pages (state w) !! 0%nat = Some p
                      /\ Simple.pages (state v) !! 0%nat = Some q
                      /\ HighQuality.rendered p = false /\ Simple.rendered q = false
                      /\ HighQuality.canvas p = Some (Dom.newCanvas true)
                      /\ Simple.canvas q = Some (Dom.newCanvas true)
                      /\ HighQuality.pageNum p = 1%nat /\ Simple.pageNum q = 1%nat)
    as (p & q & Hp & Hq & Hpr & Hqr & Hpc & Hqc & Hpn & Hqn).
  { vm_compute. do 2 eexists. repeat split; reflexivity. }
  assert (HighQuality.pdfDoc (state w) = Some threePages
          /\ Simple.pdfDoc (state v) = Some threePages
          /\ pending w !! 0%nat = Some (RenderAwaitPage 0)
          /\ pending v !! 0%nat = Some (RenderAwaitPage 0))
    as (Hwdoc & Hvdoc & Hwk & Hvk).
  { vm_compute. repeat split; reflexivity. }
  assert (exists p1 q1, HighQuality.pages (state w1) !! 0%nat = Some p1
                        /\ Simple.pages (state v1) !! 0%nat = Some q1
                        /\ HighQuality.rendered p1 = false
                        /\ Simple.rendered q1 = false)
    as (p1 & q1 & Hp1 & Hq1 & Hp1r & Hq1r).
  { vm_compute. do 2 eexists. repeat split; reflexivity. }
  assert (exists p2 q2, HighQuality.pages (state w2) !! 0%nat = Some p2
                        /\ Simple.pages (state v2) !! 0%nat = Some q2
                        /\ HighQuality.rendered p2 = true /\ Simple.rendered q2 = true)
    as (p2 & q2 & Hp2 & Hq2 & Hp2r & Hq2r).
  { vm_compute. do 2 eexists. repeat split; reflexivity. }
  assert (HighQuality.step (Settle 0 Pdfjs.Fulfilled) w1 = w2) as Hw12
    by (vm_compute; reflexivity).
  assert (Simple.step (Settle 0 Pdfjs.Fulfilled) v1 = v2) as Hv12
    by (vm_compute; reflexivity).
  assert (Pdfjs.getPage threePages 1 = Some (page 600 800)) as Hpage by reflexivity.
  clearbody w v w1 v1 w2 v2.
  (* a trigger, and the fetch it started *)
  destruct (rendered_flag_is_the_only_gate w v 0 0 p p2 q q2 (Dom.newCanvas true)
              threePages (page 600 800) (Settle 0 Pdfjs.Fulfilled)) as [Hw Hv].
  (* the turn in which the flag is set *)
  destruct (rendered_flag_is_the_only_gate w1 v1 0 0 p1 p2 q1 q2 (Dom.newCanvas true)
              threePages (page 600 800) (Settle 0 Pdfjs.Fulfilled)) as [Hw1 Hv1].
  (* a trigger for a rendered page *)
  destruct (rendered_flag_is_the_only_gate w2 v2 0 0 p2 p2 q2 q2 (Dom.newCanvas true)
              threePages (page 600 800) (Settle 0 Pdfjs.Fulfilled)) as [Hw2 Hv2].
  split.
  - destruct (Hw Hp) as (_ & Hguard & Hopen & Hsettle & _).
    destruct (Hw1 Hp1) as (_ & _ & _ & _ & Hwriter & Hset).
    destruct (Hw2 Hp2) as (Hdone & _).
    destruct (Hopen Hpr Hwdoc Hpc) as [Hparked Hsame].
    rewrite Hpn in Hsettle.
    split; [apply Hdone, Hp2r|].
    split; [exact Hparked|].
    split; [exact (proj1 (Hsettle Hwk Hwdoc Hpage Hpc eq_refl))|].
    split.
    { apply Hguard. intros Heq. apply (f_equal (fun x => length (pending x))) in Heq.
      rewrite Hparked, length_app in Heq. cbn [length] in Heq. lia. }
    rewrite Hw12 in Hwriter, Hset.
    destruct (Hwriter Hp1r Hp2 Hp2r) as (k' & Hk' & Hpend).
    injection Hk' as <-.
    exists p1, p2. split; [exact Hp1|]. split; [exact Hp2|].
    split; [|split; [exact Hp2r|exact Hpend]].
    specialize (Hset Hpend). rewrite Hp2 in Hset. by injection Hset.
  - destruct (Hv Hq) as (_ & Hguard & Hopen & Hsettle & _).
    destruct (Hv1 Hq1) as (_ & _ & _ & _ & Hwriter & Hset).
    destruct (Hv2 Hq2) as (Hdone & _).
    destruct (Hopen Hqr Hvdoc Hqc) as [Hparked Hsame].
    rewrite Hqn in Hsettle.
    split; [apply Hdone, Hq2r|].
    split; [exact Hparked|].
    split; [exact (Hsettle Hvk Hvdoc Hpage Hqc eq_refl)|].
    split.
    { apply Hguard. intros Heq. apply (f_equal (fun x => length (pending x))) in Heq.
      rewrite Hparked, length_app in Heq. cbn [length] in Heq. lia. }
    rewrite Hv12 in Hwriter, Hset.
    destruct (Hwriter Hq1r Hq2 Hq2r) as (k' & Hk' & Hpend).
    injection Hk' as <-.
    exists q1, q2. split; [exact Hq1|]. split; [exact Hq2|].
    split; [|split; [exact Hq2r|exact Hpend]].
    specialize (Hset Hpend). rewrite Hq2 in Hset. by injection Hset.
Defined.

(** C9.  In every reachable world of either viewer:
    [setupIntersectionObservers] leaves every observer created before it
    with nothing to observe, and afterwards, as at any other time, at most
    one observing observer calls back for a given page, and it observes
    that page's element only; [onDestroy] leaves no observer observing;
    and once the component is destroyed no observer observes anything, so
    an [Intersect] event finds no callback to run and changes nothing. *)
Theorem visibility_tracker_generations (doc : Pdfjs.PDFDocumentProxy)
    (events : list Event) (o : nat) (entries : list bool) :
  (let w := Simple.run events (Simple.init doc) in
   let w' := Simple.setupIntersectionObservers w in
   ((o < length (created w))%nat ->
    exists ob, created w' !! o = Some ob /\ Dom.observing ob = false)
   /\ one_per_page (created w) /\ own_page (created w)
   /\ one_per_page (created w') /\ own_page (created w')
   /\ silent (created (Simple.onDestroy w))
   /\ (phase w = Dom.Destroyed ->
       silent (created w) /\ Simple.step (Intersect o entries) w = w))
  /\ (let w := HighQuality.run events (HighQuality.init doc) in
      let w' := HighQuality.setupIntersectionObservers w in
      ((o < length (created w))%nat ->
       exists ob, created w' !! o = Some ob /\ Dom.observing ob = false)
      /\ one_per_page (created w) /\ own_page (created w)
      /\ one_per_page (created w') /\ own_page (created w')
      /\ silent (created (HighQuality.onDestroy w))
      /\ (phase w = Dom.Destroyed ->
          silent (created w) /\ HighQuality.step (Intersect o entries) w = w)).
Proof.
  split.
  - intros w w'.
    assert (invariant w) as Hinv
      by apply SimpleFacts.simple_run_invariant, SimpleFacts.simple_init_invariant.
    assert (invariant w') as Hinv' by apply TrackerFacts.invariant_setup, Hinv.
    split; [intros Ho; by apply TrackerFacts.setup_disconnects|].
    split; [apply Hinv|]. split; [apply Hinv|].
    split; [apply Hinv'|]. split; [apply Hinv'|].
    split; [apply TrackerFacts.disconnectAll_silent, Hinv|].
    intros Hp. destruct (inv_destroyed w Hinv Hp) as [_ Hs].
    split; [exact Hs|by apply SimpleFacts.simple_silent_inert].
  - intros w w'.
    assert (invariant w) as Hinv
      by apply HighQualityFacts.hq_run_invariant, HighQualityFacts.hq_init_invariant.
    assert (invariant w') as Hinv' by apply TrackerFacts.invariant_setup, Hinv.
    split; [intros Ho; by apply TrackerFacts.setup_disconnects|].
    split; [apply Hinv|]. split; [apply Hinv|].
    split; [apply Hinv'|]. split; [apply Hinv'|].
    split; [apply TrackerFacts.disconnectAll_silent, Hinv|].
    intros Hp. destruct (inv_destroyed w Hinv Hp) as [_ Hs].
    split; [exact Hs|by apply HighQualityFacts.hq_silent_inert].
Qed.

Lemma visibility_tracker_generations_witness :
  let w := Simple.run openedSimple (Simple.init threePages) in
  let w' := Simple.run (openedSimple ++ [Destroy; settled]) (Simple.init threePages) in
  (exists ob, created (Simple.setupIntersectionObservers w) !! 2%nat = Some ob
              /\ Dom.observing ob = false)
  /\ (silent (created w') /\ Simple.step (Intersect 0 [true]) w' = w')
  /\ (exists ob,
        created (HighQuality.setupIntersectionObservers
                   (HighQuality.run (opened ++ [Destroy]) (HighQuality.init threePages)))
          !! 1%nat = Some ob
        /\ Dom.observing ob = false)
  /\ silent (created (HighQuality.run (opened ++ [Destroy])
                        (HighQuality.init threePages)))
  /\ HighQuality.step (Intersect 1 [true])
       (HighQuality.run (opened ++ [Destroy]) (HighQuality.init threePages))
     = HighQuality.run (opened ++ [Destroy]) (HighQuality.init threePages).
Proof.
  intros w w'.
  pose proof (visibility_tracker_generations threePages openedSimple 2 [true])
    as [(Hsetup & _) _].
  pose proof (visibility_tracker_generations threePages
                (openedSimple ++ [Destroy; settled]) 0 [true])
    as [(_ & _ & _ & _ & _ & _ & Hdestroyed) _].
  pose proof (visibility_tracker_generations threePages
                (opened ++ [Destroy]) 1 [true])
    as [_ (Hsetup' & _ & _ & _ & _ & _ & Hdestroyed')].
  split; [apply Hsetup; vm_compute; lia|].
  split; [apply Hdestroyed; reflexivity|].
  split; [apply Hsetup'; vm_compute; lia|].
  apply Hdestroyed'. reflexivity.
Defined.

(** * Further properties *)

(** ** The page array *)

Module SimpleShapeFacts.
Import Simple SimpleShape.

Lemma map_pageNum_alter (f : PageState -> PageState) i (l : list PageState) :
  (forall p, pageNum (f p) = pageNum p) ->
  map pageNum (alter f i l) = map pageNum l.
Proof.
  intros Hf. revert i. induction l as [|p l IH]; intros [|i]; cbn; try reflexivity.
  - by rewrite Hf.
  - by rewrite IH.
Qed.

Lemma map_pageNum_map (f : PageState -> PageState) (l : list PageState) :
  (forall p, pageNum (f p) = pageNum p) ->
  map pageNum (map f l) = map pageNum l.
Proof.
  intros Hf. induction l as [|p l IH]; cbn; [reflexivity|]. by rewrite Hf, IH.
Qed.

Lemma map_pageNum_newPages n : map pageNum (newPages n) = seq 1 n.
Proof.
  unfold newPages. rewrite map_map. cbn.
  rewrite <- seq_shift. apply map_ext. intros i. lia.
Qed.

Ltac skel :=
  unfold skeleton, loadPDF_gotDocument, calculate_gotPage, calculatePageDimensions,
    calculate_loop, loadPDF_catch, renderPage_gotPage, renderPage_rasterized,
    renderPage, renderPage_catch, update_page, flush, unbind, onDestroy, onProgress;
  repeat case_match; cbn;
  rewrite ?map_pageNum_alter, ?map_pageNum_map
    by (intros ?; unfold bindCanvas; repeat case_match; reflexivity);
  reflexivity.

Lemma renderPage_skeleton i w : skeleton (renderPage i w) = skeleton w.
Proof. skel. Qed.

Lemma calculatePageDimensions_skeleton w :
  skeleton (calculatePageDimensions w) = skeleton w.
Proof. skel. Qed.

Lemma intersectionCallback_skeleton i entries w :
  skeleton (intersectionCallback i entries w) = skeleton w.
Proof.
  unfold intersectionCallback. revert w.
  induction entries as [|e entries IH]; intros w; cbn; [reflexivity|].
  rewrite IH. repeat case_match; try reflexivity. apply renderPage_skeleton.
Qed.

Lemma numbered_frame w w' : skeleton w' = skeleton w -> numbered w -> numbered w'.
Proof.
  unfold skeleton, numbered. intros [= Hd Hc Hp Hpf]. rewrite Hd, Hc, Hp, Hpf. tauto.
Qed.

Ltac keep Hn := first [exact Hn | eapply numbered_frame; [|exact Hn]; skel].

Lemma step_numbered e w : numbered w -> numbered (step e w).
Proof.
  intros Hn. destruct e; cbn.
  - destruct (phase w); keep Hn.
  - destruct (phase w); keep Hn.
  - destruct (mounted w); keep Hn.
  - exact Hn.
  - repeat case_match;
      first [exact Hn
            |eapply numbered_frame; [apply intersectionCallback_skeleton|exact Hn]].
  - destruct (pending w !! k) as [t|] eqn:Hk; [|exact Hn].
    destruct t as [| |i a|i|i]; cbn; try keep Hn.
    destruct r; [|keep Hn].
    unfold loadPDF_gotDocument.
    eapply numbered_frame; [apply calculatePageDimensions_skeleton|].
    split; cbn; [apply map_pageNum_newPages|split; reflexivity].
  - destruct (mounted w); keep Hn.
Qed.

Lemma run_numbered events w : numbered w -> numbered (run events w).
Proof.
  unfold run, Loop.run. revert w.
  induction events as [|e events IH]; intros w Hn; cbn; [exact Hn|].
  apply IH, step_numbered, Hn.
Qed.

Lemma simple_step_portfolio e (w : World) : portfolio (step e w) = portfolio w.
Proof.
  assert (forall w' : World, skeleton w' = skeleton w -> portfolio w' = portfolio w)
    as Hsk by (unfold skeleton; intros w' [= _ _ _ H]; exact H).
  destruct e; cbn.
  - destruct (phase w); reflexivity.
  - destruct (phase w); reflexivity.
  - unfold flush. repeat case_match; reflexivity.
  - reflexivity.
  - repeat case_match; try reflexivity. apply Hsk, intersectionCallback_skeleton.
  - destruct (pending w !! k) as [t|]; [|reflexivity].
    destruct t as [| |i a|i|i]; cbn;
      unfold loadPDF_gotDocument, calculate_gotPage, calculatePageDimensions,
        calculate_loop, loadPDF_catch, renderPage_gotPage, renderPage_rasterized,
        renderPage_catch;
      repeat case_match; reflexivity.
  - destruct (mounted w); reflexivity.
Qed.

Lemma simple_run_portfolio events (w : World) : portfolio (run events w) = portfolio w.
Proof.
  unfold run, Loop.run. revert w.
  induction events as [|e events IH]; intros w; cbn; [reflexivity|].
  by rewrite IH, simple_step_portfolio.
Qed.

(** The open document is the one at [pdfUrl]. *)
Lemma simple_run_numbered doc events :
  let w := run events (init doc) in
  map pageNum (pages (state w)) = seq 1 (pageCount (state w))
  /\ (pdfDoc (state w) = None /\ pageCount (state w) = 0%nat
      \/ pdfDoc (state w) = Some doc /\ pageCount (state w) = Pdfjs.numPages doc).
Proof.
  intros w.
  assert (numbered w) as [Hnum Hdoc] by (apply run_numbered; split; reflexivity).
  assert (portfolio w = doc) as Hpf by apply simple_run_portfolio.
  split; [exact Hnum|].
  destruct (pdfDoc (state w)) as [d|].
  - right. destruct Hdoc as [-> Hc]. rewrite Hpf in *. split; [reflexivity|exact Hc].
  - left. split; [reflexivity|exact Hdoc].
Qed.
End SimpleShapeFacts.

Module HighQualityShapeFacts.
Import HighQuality HighQualityShape.

Lemma hq_map_pageNum_alter (f : PageState -> PageState) i (l : list PageState) :
  (forall p, pageNum (f p) = pageNum p) ->
  map pageNum (alter f i l) = map pageNum l.
Proof.
  intros Hf. revert i. induction l as [|p l IH]; intros [|i]; cbn; try reflexivity.
  - by rewrite Hf.
  - by rewrite IH.
Qed.

Lemma hq_map_pageNum_map (f : PageState -> PageState) (l : list PageState) :
  (forall p, pageNum (f p) = pageNum p) ->
  map pageNum (map f l) = map pageNum l.
Proof.
  intros Hf. induction l as [|p l IH]; cbn; [reflexivity|]. by rewrite Hf, IH.
Qed.

Lemma hq_map_pageNum_newPages n : map pageNum (newPages n) = seq 1 n.
Proof.
  unfold newPages. rewrite map_map. cbn.
  rewrite <- seq_shift. apply map_ext. intros i. lia.
Qed.

Ltac hq_skel :=
  unfold skeleton, loadPDF_gotDocument, calculate_gotPage, calculatePageDimensions,
    calculate_loop, calculate_return, calculate_throw, loadPDF_catch,
    renderPage_gotPage, renderPage_rasterized, renderPage, renderPage_catch,
    handleResize, update_page, flush, unbind, onDestroy, onProgress;
  repeat case_match; cbn;
  rewrite ?hq_map_pageNum_alter, ?hq_map_pageNum_map
    by (intros ?; unfold bindCanvas; repeat case_match; reflexivity);
  reflexivity.

Lemma hq_renderPage_skeleton i w : skeleton (renderPage i w) = skeleton w.
Proof. hq_skel. Qed.

Lemma hq_calculatePageDimensions_skeleton a w :
  skeleton (calculatePageDimensions a w) = skeleton w.
Proof. hq_skel. Qed.

Lemma hq_calculate_gotPage_skeleton i a r w :
  skeleton (calculate_gotPage i a r w) = skeleton w.
Proof. hq_skel. Qed.

Lemma hq_handleResize_skeleton entries w :
  skeleton (handleResize entries w) = skeleton w.
Proof.
  destruct entries as [|entry entries]; [reflexivity|]. unfold handleResize.
  by rewrite hq_calculatePageDimensions_skeleton.
Qed.

Lemma hq_intersectionCallback_skeleton i entries w :
  skeleton (intersectionCallback i entries w) = skeleton w.
Proof.
  unfold intersectionCallback. revert w.
  induction entries as [|e entries IH]; intros w; cbn; [reflexivity|].
  rewrite IH. repeat case_match; try reflexivity. apply hq_renderPage_skeleton.
Qed.

Lemma hq_numbered_frame w w' : skeleton w' = skeleton w -> numbered w -> numbered w'.
Proof.
  unfold skeleton, numbered. intros [= Hd Hc Hp Hpf]. rewrite Hd, Hc, Hp, Hpf. tauto.
Qed.

Ltac hq_keep Hn := first [exact Hn | eapply hq_numbered_frame; [|exact Hn]; hq_skel].

Lemma hq_step_numbered e w : numbered w -> numbered (step e w).
Proof.
  intros Hn. destruct e; cbn.
  - destruct (phase w); hq_keep Hn.
  - destruct (phase w); hq_keep Hn.
  - destruct (mounted w); hq_keep Hn.
  - destruct (mounted w); [|exact Hn].
    eapply hq_numbered_frame; [apply hq_handleResize_skeleton|exact Hn].
  - repeat case_match;
      first [exact Hn
            |eapply hq_numbered_frame; [apply hq_intersectionCallback_skeleton|exact Hn]].
  - destruct (pending w !! k) as [t|] eqn:Hk; [|exact Hn].
    destruct t as [| |i a|i|i]; cbn; try hq_keep Hn.
    destruct r; [|hq_keep Hn].
    unfold loadPDF_gotDocument.
    eapply hq_numbered_frame; [apply hq_calculatePageDimensions_skeleton|].
    split; cbn; [apply hq_map_pageNum_newPages|split; reflexivity].
  - destruct (mounted w); hq_keep Hn.
Qed.

Lemma hq_run_numbered events w : numbered w -> numbered (run events w).
Proof.
  unfold run, Loop.run. revert w.
  induction events as [|e events IH]; intros w Hn; cbn; [exact Hn|].
  apply IH, hq_step_numbered, Hn.
Qed.

Lemma hq_step_portfolio e (w : World) : portfolio (step e w) = portfolio w.
Proof.
  assert (forall w' : World, skeleton w' = skeleton w -> portfolio w' = portfolio w)
    as Hsk by (unfold skeleton; intros w' [= _ _ _ H]; exact H).
  destruct e; cbn.
  - destruct (phase w); reflexivity.
  - destruct (phase w); reflexivity.
  - unfold flush. repeat case_match; reflexivity.
  - destruct (mounted w); [|reflexivity]. apply Hsk, hq_handleResize_skeleton.
  - repeat case_match; try reflexivity. apply Hsk, hq_intersectionCallback_skeleton.
  - destruct (pending w !! k) as [t|]; [|reflexivity].
    destruct t as [| |i a|i|i]; cbn.
    + destruct r; [|reflexivity]. unfold loadPDF_gotDocument.
      match goal with |- portfolio (calculatePageDimensions ?a ?x) = _ =>
        pose proof (hq_calculatePageDimensions_skeleton a x) as [= _ _ _ H] end.
      exact H.
    + reflexivity.
    + match goal with |- portfolio (calculate_gotPage ?i ?a ?r ?x) = _ =>
        pose proof (hq_calculate_gotPage_skeleton i a r x) as [= _ _ _ H] end.
      exact H.
    + unfold renderPage_gotPage, renderPage_catch. repeat case_match; reflexivity.
    + unfold renderPage_rasterized, renderPage_catch. repeat case_match; reflexivity.
  - destruct (mounted w); reflexivity.
Qed.

Lemma hq_run_portfolio events (w : World) : portfolio (run events w) = portfolio w.
Proof.
  unfold run, Loop.run. revert w.
  induction events as [|e events IH]; intros w; cbn; [reflexivity|].
  by rewrite IH, hq_step_portfolio.
Qed.

(** The open document is the one at [pdfUrl]. *)
Lemma hq_run_numbered_from doc events :
  let w := run events (init doc) in
  map pageNum (pages (state w)) = seq 1 (pageCount (state w))
  /\ (pdfDoc (state w) = None /\ pageCount (state w) = 0%nat
      \/ pdfDoc (state w) = Some doc /\ pageCount (state w) = Pdfjs.numPages doc).
Proof.
  intros w.
  assert (numbered w) as [Hnum Hdoc] by (apply hq_run_numbered; split; reflexivity).
  assert (portfolio w = doc) as Hpf by apply hq_run_portfolio.
  split; [exact Hnum|].
  destruct (pdfDoc (state w)) as [d|].
  - right. destruct Hdoc as [-> Hc]. rewrite Hpf in *. split; [reflexivity|exact Hc].
  - left. split; [reflexivity|exact Hdoc].
Qed.
End HighQualityShapeFacts.

(** ** The progress callback *)

Module ProgressFacts.

Lemma percentage_range (loaded total : Q) :
  (0 < total -> 0 <= loaded -> loaded <= total ->
   0 <= loaded / total * 100 /\ loaded / total * 100 <= 100)%Q.
Proof.
  intros Ht Hl Hlt.
  assert (0 <= loaded / total)%Q as H0 by (apply Qle_shift_div_l; lra).
  assert (loaded / total <= 1)%Q as H1 by (apply Qle_shift_div_r; lra).
  split; nra.
Qed.

Lemma percentage_monotone (loaded loaded' total : Q) :
  (0 < total -> loaded <= loaded' ->
   loaded / total * 100 <= loaded' / total * 100)%Q.
Proof.
  intros Ht Hl. unfold Qdiv.
  assert (0 <= / total)%Q as Hi by (apply Qlt_le_weak, Qinv_lt_0_compat, Ht).
  nra.
Qed.

Lemma round_monotone (x y : Q) : (x <= y)%Q -> (Math.round x <= Math.round y)%Q.
Proof.
  intros Hxy. unfold Math.round. rewrite <- Zle_Qle.
  apply Qfloor_resp_le. lra.
Qed.

Lemma round_range (x : Q) :
  (0 <= x -> x <= 100 ->
   exists z : Z, (0 <= z <= 100)%Z /\ Math.round x = inject_Z z)%Q.
Proof.
  intros H0 H100. exists (Qfloor (x + (1 # 2))). split; [|reflexivity].
  split.
  - change 0%Z with (Qfloor (0 + (1 # 2))). apply Qfloor_resp_le. lra.
  - change 100%Z with (Qfloor (100 + (1 # 2))). apply Qfloor_resp_le. lra.
Qed.

End ProgressFacts.

(** ** The observers and their callbacks *)

Module CoverageFacts.
Import Coverage.

Lemma covering_start containerRef old : covering containerRef old 0 ([], old).
Proof.
  split; cbn.
  - lia.
  - intros i Hi. lia.
  - intros o Ho. by apply elem_of_nil in Ho.
Qed.

Lemma covering_step containerRef old a acc :
  covering containerRef old a acc ->
  covering containerRef old (S a) (observePage containerRef acc a).
Proof.
  intros [Hlen Hobs Honly]. destruct acc as [obs heap]. cbn in *.
  unfold observePage. cbn.
  destruct (querySelector containerRef (a + 1)) eqn:Hq; split; cbn.
  - rewrite length_app. cbn. lia.
  - intros i Hi Hqi. destruct (decide (i = a)) as [->|Hne].
    + exists (length heap). split; [apply elem_of_app; right; apply list_elem_of_here|].
      rewrite lookup_app_r by lia. rewrite Nat.sub_diag. reflexivity.
    + destruct (Hobs i ltac:(lia) Hqi) as (o & Ho & Hlook).
      exists o. split; [apply elem_of_app; by left|].
      rewrite lookup_app_l by (eapply lookup_lt_Some; eassumption). exact Hlook.
  - intros o Ho. apply elem_of_app in Ho as [Ho|Ho].
    + destruct (Honly o Ho) as (i & Hi & Hqi & Hlook).
      exists i. split; [lia|]. split; [exact Hqi|].
      rewrite lookup_app_l by (eapply lookup_lt_Some; eassumption). exact Hlook.
    + apply list_elem_of_singleton in Ho as ->.
      exists a. split; [lia|]. split; [exact Hq|].
      rewrite lookup_app_r by lia. rewrite Nat.sub_diag. reflexivity.
  - rewrite length_app. cbn. lia.
  - intros i Hi Hqi. destruct (decide (i = a)) as [->|Hne]; [congruence|].
    destruct (Hobs i ltac:(lia) Hqi) as (o & Ho & Hlook).
    exists o. split; [exact Ho|].
    rewrite lookup_app_l by (eapply lookup_lt_Some; eassumption). exact Hlook.
  - intros o Ho. destruct (Honly o Ho) as (i & Hi & Hqi & Hlook).
    exists i. split; [lia|]. split; [exact Hqi|].
    rewrite lookup_app_l by (eapply lookup_lt_Some; eassumption). exact Hlook.
Qed.

Lemma covering_all containerRef old n a acc :
  covering containerRef old a acc ->
  covering containerRef old (a + n) (foldl (observePage containerRef) acc (seq a n)).
Proof.
  revert a acc. induction n as [|n IH]; intros a acc Hc; cbn.
  - by rewrite Nat.add_0_r.
  - replace (a + S n)%nat with (S a + n)%nat by lia.
    apply IH. by apply covering_step.
Qed.

Lemma setupObservers_covering containerRef pages observers created :
  covering containerRef (disconnectAll observers created) pages
    (setupObservers containerRef pages observers created).
Proof. apply (covering_all containerRef _ pages 0), covering_start. Qed.

End CoverageFacts.

Module CallbackFacts.
Import Coverage.

Lemma simple_callback_guarded i entries (w : Simple.World) p :
  Simple.pages (state w) !! i = Some p ->
  Simple.pdfDoc (state w) = None \/ Simple.rendered p = true \/ Simple.canvas p = None ->
  Simple.intersectionCallback i entries w = w.
Proof.
  intros Hp Hg. unfold Simple.intersectionCallback.
  induction entries as [|e entries IH]; cbn; [reflexivity|].
  rewrite Hp, (SimpleFacts.simple_renderPage_guarded i w p Hp Hg).
  destruct (e && negb (Simple.rendered p)); exact IH.
Qed.

Lemma simple_callback_open i entries (w : Simple.World) p :
  Simple.pages (state w) !! i = Some p -> Simple.rendered p = false ->
  is_Some (Simple.pdfDoc (state w)) -> is_Some (Simple.canvas p) ->
  let w' := Simple.intersectionCallback i entries w in
  state w' = state w
  /\ pending w' = pending w ++ replicate (intersecting entries) (RenderAwaitPage i)
  /\ getPageCalls w'
     = getPageCalls w ++ replicate (intersecting entries) (Simple.pageNum p)
  /\ renderCalls w' = renderCalls w /\ console w' = console w
  /\ Tracker.tracker w' = Tracker.tracker w.
Proof.
  intros Hp Hr Hdoc Hc. unfold Simple.intersectionCallback, intersecting. revert w Hp Hdoc.
  induction entries as [|e entries IH]; intros w Hp Hdoc; cbn [foldl].
  - cbn. rewrite !app_nil_r. repeat split; reflexivity.
  - rewrite Hp, Hr, andb_true_r. destruct e.
    + rewrite (SimpleFacts.simple_renderPage_open i w p Hp Hdoc Hr Hc).
      rewrite filter_cons_True by reflexivity. cbn [length replicate].
      match goal with |- context [foldl ?f ?w0 entries] =>
        destruct (IH w0 Hp Hdoc) as (Hs & Hpe & Hg & Hrc & Hco & Htr) end.
      rewrite Hs, Hpe, Hg, Hrc, Hco, Htr. cbn. rewrite <- !app_assoc.
      repeat split; reflexivity.
    + rewrite filter_cons_False by discriminate. apply IH; assumption.
Qed.

Lemma hq_callback_guarded i entries (w : HighQuality.World) p :
  HighQuality.pages (state w) !! i = Some p ->
  HighQuality.pdfDoc (state w) = None \/ HighQuality.rendered p = true
  \/ HighQuality.canvas p = None ->
  HighQuality.intersectionCallback i entries w = w.
Proof.
  intros Hp Hg. unfold HighQuality.intersectionCallback.
  induction entries as [|e entries IH]; cbn; [reflexivity|].
  rewrite Hp, (HighQualityFacts.hq_renderPage_guarded i w p Hp Hg).
  destruct (e && negb (HighQuality.rendered p)); exact IH.
Qed.

Lemma hq_callback_open i entries (w : HighQuality.World) p :
  HighQuality.pages (state w) !! i = Some p -> HighQuality.rendered p = false ->
  is_Some (HighQuality.pdfDoc (state w)) -> is_Some (HighQuality.canvas p) ->
  let w' := HighQuality.intersectionCallback i entries w in
  state w' = state w
  /\ pending w' = pending w ++ replicate (intersecting entries) (RenderAwaitPage i)
  /\ getPageCalls w'
     = getPageCalls w ++ replicate (intersecting entries) (HighQuality.pageNum p)
  /\ renderCalls w' = renderCalls w /\ console w' = console w
  /\ Tracker.tracker w' = Tracker.tracker w.
Proof.
  intros Hp Hr Hdoc Hc. unfold HighQuality.intersectionCallback, intersecting.
  revert w Hp Hdoc.
  induction entries as [|e entries IH]; intros w Hp Hdoc; cbn [foldl].
  - cbn. rewrite !app_nil_r. repeat split; reflexivity.
  - rewrite Hp, Hr, andb_true_r. destruct e.
    + rewrite (HighQualityFacts.hq_renderPage_open i w p Hp Hdoc Hr Hc).
      rewrite filter_cons_True by reflexivity. cbn [length replicate].
      match goal with |- context [foldl ?f ?w0 entries] =>
        destruct (IH w0 Hp Hdoc) as (Hs & Hpe & Hg & Hrc & Hco & Htr) end.
      rewrite Hs, Hpe, Hg, Hrc, Hco, Htr. cbn. rewrite <- !app_assoc.
      repeat split; reflexivity.
    + rewrite filter_cons_False by discriminate. apply IH; assumption.
Qed.
End CallbackFacts.

(** ** The life of [loadPDF] *)

Module LoadingFacts.
Import Loading.

Lemma loadTasks_app l1 l2 : loadTasks (l1 ++ l2) = loadTasks l1 ++ loadTasks l2.
Proof. apply list.filter_app. Qed.

Lemma loadTasks_delete_other (l : list Task) k t :
  l !! k = Some t -> isLoadTask t = false -> loadTasks (delete k l) = loadTasks l.
Proof.
  intros Hk Ht. apply (SchedulerFacts.filter_delete_other _ _ _ _ Hk). congruence.
Qed.

Lemma loadTasks_delete_load (l : list Task) k t :
  l !! k = Some t -> isLoadTask t = true -> (length (loadTasks l) <= 1)%nat ->
  loadTasks (delete k l) = [].
Proof.
  unfold loadTasks. revert k. induction l as [|x l IH]; intros [|k] Hk Ht Hlen;
    try discriminate.
  - injection Hk as ->. rewrite filter_cons_True in Hlen by exact Ht.
    cbn in Hlen. change (delete 0%nat (t :: l)) with l.
    destruct (filter _ l); [reflexivity|cbn in Hlen; lia].
  - change (delete (S k) (x :: l)) with (x :: delete k l).
    rewrite filter_cons in Hlen |- *. destruct (decide (isLoadTask x = true)).
    + cbn in Hlen. exfalso.
      assert (t ∈ filter (fun t => isLoadTask t = true) l) as Hin.
      { apply list_elem_of_filter. split; [exact Ht|].
        eapply list_elem_of_lookup_2. exact Hk. }
      destruct (filter _ l); [by apply elem_of_nil in Hin|cbn in Hlen; lia].
    + apply (IH k Hk Ht Hlen).
Qed.

Lemma failed_log {State} (w : World State) n :
  failed (log (Dom.ErrorRenderingPage n) w) <-> failed w.
Proof.
  unfold failed. cbn. rewrite elem_of_app, list_elem_of_singleton. split.
  - intros [H|H]; [exact H|discriminate].
  - by left.
Qed.

Lemma loadTasks_replicate_render n i :
  loadTasks (replicate n (RenderAwaitPage i)) = [].
Proof.
  induction n as [|n IH]; [reflexivity|]. cbn [replicate]. unfold loadTasks in *.
  rewrite filter_cons_False by discriminate. exact IH.
Qed.

Lemma failed_render {State} (w w' : World State) n :
  console w' = console w ++ [Dom.ErrorRenderingPage n] -> failed w' <-> failed w.
Proof.
  unfold failed. intros ->. rewrite elem_of_app, list_elem_of_singleton. split.
  - intros [H|H]; [exact H|discriminate].
  - by left.
Qed.

End LoadingFacts.

Module LoadingSteps.
Import Loading LoadingFacts.

Section Generic.
Context {State : Type}.
Variable pdfDoc : State -> option Pdfjs.PDFDocumentProxy.
Variable flags : State -> list bool.
Variable pageCount : State -> nat.
Local Abbreviation I := (loading_invariant pdfDoc flags pageCount).
Implicit Types w : World State.

Lemma unloaded_dec w : {unloaded pdfDoc w} + {~ unloaded pdfDoc w}.
Proof.
  unfold unloaded, failed.
  destruct (loadTasks (pending w)) as [|t l] eqn:Hl; [|left; left; discriminate].
  destruct (pdfDoc (state w)) as [doc|] eqn:Hd; [|left; right; right; reflexivity].
  destruct (decide (Dom.ErrorLoadingPDF ∈ console w)) as [Hin|Hnin].
  - left. right. left. exact Hin.
  - right. intros [H|[H|H]]; [by apply H|contradiction|discriminate].
Qed.

Lemma pending_mounted w t k :
  I w -> pending w !! k = Some t -> phase w <> Dom.Unmounted.
Proof.
  intros Hi Hk Hp. destruct (l_unmounted _ _ _ _ Hi Hp) as (Hpend & _).
  rewrite Hpend in Hk. discriminate.
Qed.

Lemma load_pending_unloaded w t k :
  pending w !! k = Some t -> isLoadTask t = true -> unloaded pdfDoc w.
Proof.
  intros Hk Ht. left. intros Hnil.
  assert (t ∈ loadTasks (pending w)) as Hin.
  { apply list_elem_of_filter. split; [exact Ht|].
    eapply list_elem_of_lookup_2. exact Hk. }
  rewrite Hnil in Hin. by apply elem_of_nil in Hin.
Qed.

Lemma render_pending_loaded w t k :
  I w -> pending w !! k = Some t -> isRenderTask t = true -> ~ unloaded pdfDoc w.
Proof.
  intros Hi Hk Ht Hu. destruct (l_quiet _ _ _ _ Hi Hu) as (_ & _ & Hf & _).
  rewrite Forall_lookup in Hf. specialize (Hf k t Hk). congruence.
Qed.

Lemma observer_loaded w o ob :
  I w -> created w !! o = Some ob -> ~ unloaded pdfDoc w.
Proof.
  intros Hi Ho Hu. destruct (l_quiet _ _ _ _ Hi Hu) as (Hc & _).
  rewrite Hc in Ho. discriminate.
Qed.

Lemma loaded_open w : I w -> ~ unloaded pdfDoc w -> pdfDoc (state w) <> None.
Proof. intros _ Hu Hd. apply Hu. right. right. exact Hd. Qed.

(** A step taken once [loadPDF] has finished. *)
Lemma loaded_step w w' :
  I w -> ~ unloaded pdfDoc w ->
  phase w' = phase w ->
  loadTasks (pending w') = loadTasks (pending w) ->
  (failed w' <-> failed w) ->
  pdfDoc (state w') = pdfDoc (state w) ->
  I w'.
Proof.
  intros Hi Hu Hp Hl Hf Hd.
  assert (pdfDoc (state w) <> None) as Hopen by (by apply loaded_open).
  assert (phase w <> Dom.Unmounted) as Hm.
  { intros Hph. destruct (l_unmounted _ _ _ _ Hi Hph) as (_ & _ & Hnone). contradiction. }
  assert (~ unloaded pdfDoc w') as Hu'.
  { unfold unloaded. rewrite Hl, Hf, Hd. exact Hu. }
  split.
  - rewrite Hl. apply Hi.
  - rewrite Hl, Hf. apply Hi.
  - rewrite Hp. contradiction.
  - rewrite Hd. contradiction.
  - contradiction.
Qed.

(** A step that touches neither [loadPDF] nor any render. *)
Lemma neutral_step w w' :
  I w ->
  (phase w' = phase w \/ (phase w' <> Dom.Unmounted /\ phase w <> Dom.Unmounted)) ->
  console w' = console w ->
  (created w = [] -> created w' = []) ->
  renderCalls w' = renderCalls w ->
  pdfDoc (state w') = pdfDoc (state w) ->
  pageCount (state w') = pageCount (state w) ->
  loadTasks (pending w') = loadTasks (pending w) ->
  (pdfDoc (state w) = None \/ phase w = Dom.Unmounted ->
   pending w' = pending w /\ getPageCalls w' = getPageCalls w) ->
  (Forall (fun t => isRenderTask t = false) (pending w) ->
   Forall (fun t => isRenderTask t = false) (pending w')) ->
  (Forall (fun b => b = false) (flags (state w)) ->
   Forall (fun b => b = false) (flags (state w'))) ->
  I w'.
Proof.
  intros Hi Hp Hc Hcr Hrc Hd Hpc Hl Hclosed Hrt Hfl.
  assert (failed w' <-> failed w) as Hf by (unfold failed; by rewrite Hc).
  split.
  - rewrite Hl. apply Hi.
  - rewrite Hl, Hf. apply Hi.
  - intros Hph. destruct Hp as [Hp|[Hp _]]; [|contradiction].
    rewrite Hp in Hph. destruct (l_unmounted _ _ _ _ Hi Hph) as (Hpend & Hcons & Hnone).
    destruct (Hclosed (or_intror Hph)) as [-> _]. rewrite Hc, Hd. auto.
  - rewrite Hd. intros Hnone. destruct (l_closed _ _ _ _ Hi Hnone) as (Hall & Hg & Hn).
    destruct (Hclosed (or_introl Hnone)) as [-> ->]. rewrite Hpc. auto.
  - intros Hu.
    assert (unloaded pdfDoc w) as Hu0 by (unfold unloaded in *; by rewrite <- Hl, <- Hf, <- Hd).
    destruct (l_quiet _ _ _ _ Hi Hu0) as (Hq1 & Hq2 & Hq3 & Hq4).
    split; [by apply Hcr|]. split; [by rewrite Hrc|]. split; auto.
Qed.

(** [loadPDF], or the layout pass it awaits, moves on to its next
    [await]. *)
Lemma load_progress w w' k t t' :
  I w -> pending w !! k = Some t -> isLoadTask t = true -> isLoadTask t' = true ->
  phase w' = phase w -> console w' = console w ->
  created w' = created w -> renderCalls w' = renderCalls w ->
  pending w' = delete k (pending w) ++ [t'] ->
  pdfDoc (state w') <> None ->
  Forall (fun b => b = false) (flags (state w')) ->
  I w'.
Proof.
  intros Hi Hk Ht Ht' Hp Hc Hcr Hrc Hpend Hd Hfl.
  pose proof (load_pending_unloaded w t k Hk Ht) as Hu.
  destruct (l_quiet _ _ _ _ Hi Hu) as (Hq1 & Hq2 & Hq3 & Hq4).
  pose proof (loadTasks_delete_load _ _ _ Hk Ht (l_single _ _ _ _ Hi)) as Hdel.
  assert (loadTasks (pending w') = [t']) as Hl.
  { rewrite Hpend, loadTasks_app, Hdel. unfold loadTasks.
    rewrite filter_cons_True by exact Ht'. reflexivity. }
  assert (~ failed w) as Hnf.
  { intros Hf. pose proof (l_failed _ _ _ _ Hi Hf) as Hnil.
    assert (t ∈ loadTasks (pending w)) as Hin.
    { apply list_elem_of_filter. split; [exact Ht|].
      eapply list_elem_of_lookup_2. exact Hk. }
    rewrite Hnil in Hin. by apply elem_of_nil in Hin. }
  split.
  - rewrite Hl. cbn. lia.
  - unfold failed. rewrite Hc. contradiction.
  - rewrite Hp. intros Hph. exfalso. by eapply pending_mounted.
  - contradiction.
  - intros _. split; [by rewrite Hcr|]. split; [by rewrite Hrc|]. split; [|exact Hfl].
    rewrite Hpend. apply Forall_app. split; [by apply Forall_delete|].
    constructor; [|constructor]. destruct t'; try discriminate; reflexivity.
Qed.

(** [loadPDF] ends in its catch. *)
Lemma load_failure w w' k t :
  I w -> pending w !! k = Some t -> isLoadTask t = true ->
  phase w' = phase w -> console w' = console w ++ [Dom.ErrorLoadingPDF] ->
  created w' = created w -> renderCalls w' = renderCalls w ->
  getPageCalls w' = getPageCalls w ->
  pending w' = delete k (pending w) ->
  pdfDoc (state w') = pdfDoc (state w) ->
  pageCount (state w') = pageCount (state w) ->
  flags (state w') = flags (state w) ->
  I w'.
Proof.
  intros Hi Hk Ht Hp Hc Hcr Hrc Hg Hpend Hd Hpc Hfl.
  pose proof (load_pending_unloaded w t k Hk Ht) as Hu.
  destruct (l_quiet _ _ _ _ Hi Hu) as (Hq1 & Hq2 & Hq3 & Hq4).
  pose proof (loadTasks_delete_load _ _ _ Hk Ht (l_single _ _ _ _ Hi)) as Hdel.
  split.
  - rewrite Hpend, Hdel. cbn. lia.
  - intros _. by rewrite Hpend.
  - rewrite Hp. intros Hph. exfalso. by eapply pending_mounted.
  - rewrite Hd. intros Hnone. destruct (l_closed _ _ _ _ Hi Hnone) as (Hall & Hgp & Hn).
    rewrite Hpend, Hg, Hpc. split; [by apply Forall_delete|auto].
  - intros _. split; [by rewrite Hcr|]. split; [by rewrite Hrc|].
    rewrite Hpend, Hfl. split; [by apply Forall_delete|exact Hq4].
Qed.

(** [loadPDF] resumes after the layout pass and sets the observers up: it
    has finished. *)
Lemma load_finished w w' k :
  I w -> pending w !! k = Some LoadAwaitLayout ->
  phase w' = phase w -> console w' = console w ->
  pending w' = delete k (pending w) ->
  pdfDoc (state w') = pdfDoc (state w) ->
  I w'.
Proof.
  intros Hi Hk Hp Hc Hpend Hd.
  pose proof (load_pending_unloaded w _ k Hk eq_refl) as Hu.
  pose proof (loadTasks_delete_load _ _ _ Hk eq_refl (l_single _ _ _ _ Hi)) as Hdel.
  assert (~ failed w) as Hnf.
  { intros Hf. pose proof (l_failed _ _ _ _ Hi Hf) as Hnil.
    assert (LoadAwaitLayout ∈ loadTasks (pending w)) as Hin.
    { apply list_elem_of_filter. split; [reflexivity|].
      eapply list_elem_of_lookup_2. exact Hk. }
    rewrite Hnil in Hin. by apply elem_of_nil in Hin. }
  assert (pdfDoc (state w) <> None) as Hopen.
  { intros Hnone. destruct (l_closed _ _ _ _ Hi Hnone) as (Hall & _).
    rewrite Forall_lookup in Hall. specialize (Hall k _ Hk). discriminate. }
  assert (~ unloaded pdfDoc w') as Hu'.
  { unfold unloaded, failed. rewrite Hpend, Hdel, Hc, Hd. intros [H|[H|H]]; auto. }
  split.
  - rewrite Hpend, Hdel. cbn. lia.
  - intros _. by rewrite Hpend.
  - rewrite Hp. intros Hph. exfalso. by eapply pending_mounted.
  - rewrite Hd. contradiction.
  - contradiction.
Qed.

(** [onMount] starts [loadPDF]. *)
Lemma load_started w w' :
  I w -> phase w = Dom.Unmounted ->
  phase w' = Dom.Mounted -> console w' = console w ->
  created w' = created w -> renderCalls w' = renderCalls w ->
  getPageCalls w' = getPageCalls w ->
  pending w' = pending w ++ [LoadAwaitDocument] ->
  state w' = state w ->
  I w'.
Proof.
  intros Hi Hph Hp Hc Hcr Hrc Hg Hpend Hs.
  destruct (l_unmounted _ _ _ _ Hi Hph) as (Hnil & Hcons & Hnone).
  destruct (l_closed _ _ _ _ Hi Hnone) as (_ & Hgp & Hn).
  destruct (l_quiet _ _ _ _ Hi (or_intror (or_intror Hnone))) as (Hq1 & Hq2 & Hq3 & Hq4).
  rewrite Hnil in Hpend. cbn in Hpend.
  split.
  - rewrite Hpend. compute. lia.
  - unfold failed. rewrite Hc, Hcons. intros Hin. by apply elem_of_nil in Hin.
  - rewrite Hp. discriminate.
  - rewrite Hs, Hpend, Hg. intros _. split; [|auto]. repeat constructor.
  - intros _. split; [by rewrite Hcr|]. split; [by rewrite Hrc|].
    rewrite Hs, Hpend. split; [repeat constructor|exact Hq4].
Qed.

End Generic.
End LoadingSteps.

Module SimpleLoadingFacts.
Import Simple Loading LoadingFacts LoadingSteps SimpleLoading.

#[local] Arguments Nat.ltb : simpl never.

Lemma flags_alter (f : PageState -> PageState) i (l : list PageState) :
  (forall p, rendered (f p) = rendered p) ->
  map rendered (alter f i l) = map rendered l.
Proof.
  intros Hf. revert i. induction l as [|p l IH]; intros [|i]; cbn; try reflexivity.
  - by rewrite Hf.
  - by rewrite IH.
Qed.

Lemma flags_map (f : PageState -> PageState) (l : list PageState) :
  (forall p, rendered (f p) = rendered p) ->
  map rendered (map f l) = map rendered l.
Proof.
  intros Hf. induction l as [|p l IH]; cbn; [reflexivity|]. by rewrite Hf, IH.
Qed.

Lemma flags_newPages n : Forall (fun b => b = false) (map rendered (newPages n)).
Proof.
  unfold newPages. rewrite map_map. cbn.
  induction (seq 0 n) as [|i l IH]; cbn; constructor; [reflexivity|exact IH].
Qed.

Lemma bindCanvas_rendered c p : rendered (bindCanvas c p) = rendered p.
Proof. unfold bindCanvas. destruct (canvas p); reflexivity. Qed.

(** What a visibility callback changes: it parks calls of [renderPage]
    and asks for their pages, nothing else. *)
Lemma simple_callback_effect i entries (w : World) :
  let w' := intersectionCallback i entries w in
  state w' = state w /\ console w' = console w /\ phase w' = phase w
  /\ exists n, pending w' = pending w ++ replicate n (RenderAwaitPage i).
Proof.
  unfold intersectionCallback. revert w.
  induction entries as [|e entries IH]; intros w; cbn [foldl].
  - repeat split; try reflexivity. exists 0%nat. cbn. by rewrite app_nil_r.
  - match goal with |- context [foldl ?f ?w0 entries] =>
      destruct (IH w0) as (Hs & Hc & Hp & n & Hn);
      assert (state w0 = state w /\ console w0 = console w /\ phase w0 = phase w
              /\ (pending w0 = pending w
                  \/ pending w0 = pending w ++ [RenderAwaitPage i])) as (Hs0 & Hc0 & Hp0 & Hn0)
    end.
    { unfold renderPage. repeat case_match; repeat split; auto. }
    rewrite Hs, Hc, Hp, Hn. repeat split; auto.
    destruct Hn0 as [-> | ->]; [by exists n|].
    exists (S n). rewrite <- app_assoc. reflexivity.
Qed.

Lemma attached_replicate_render n i (l : list Task) :
  Forall (fun t => match t with LayoutAwaitPage _ false => False | _ => True end) l ->
  Forall (fun t => match t with LayoutAwaitPage _ false => False | _ => True end)
    (l ++ replicate n (RenderAwaitPage i)).
Proof.
  intros Hl. apply Forall_app. split; [exact Hl|].
  induction n as [|n IH]; cbn; constructor; [exact I|exact IH].
Qed.

Lemma simple_step_attached e (w : World) : attached w -> attached (step e w).
Proof.
  unfold attached. intros Ha. destruct e; cbn.
  - destruct (phase w); try exact Ha. cbn. apply Forall_app. split; [exact Ha|].
    repeat constructor.
  - destruct (phase w); exact Ha.
  - unfold flush. destruct (mounted w); [|exact Ha]. destruct (Simple.loading _); exact Ha.
  - exact Ha.
  - destruct (created w !! observer) as [ob|]; [|exact Ha].
    destruct (Dom.observing ob); [|exact Ha].
    destruct (simple_callback_effect (Dom.closure ob) entries w) as (_ & _ & _ & n & ->).
    by apply attached_replicate_render.
  - destruct (pending w !! k) as [t|] eqn:Hk; [|exact Ha].
    assert (Forall (fun t => match t with LayoutAwaitPage _ false => False | _ => True end)
              (delete k (pending w))) as Hd by (by apply Forall_delete).
    destruct t as [| |i a|i|i]; cbn.
    + unfold loadPDF_gotDocument, calculatePageDimensions, calculate_loop, loadPDF_catch.
      repeat case_match; cbn; try exact Hd;
        (apply Forall_app; split; [exact Hd|repeat constructor]).
    + exact Hd.
    + unfold calculate_gotPage, calculate_loop, loadPDF_catch.
      repeat case_match; cbn; try exact Hd;
        (apply Forall_app; split; [exact Hd|repeat constructor]).
    + unfold renderPage_gotPage, renderPage_catch.
      repeat case_match; cbn; try exact Hd;
        (apply Forall_app; split; [exact Hd|repeat constructor]).
    + unfold renderPage_rasterized, renderPage_catch.
      repeat case_match; cbn; exact Hd.
  - destruct (mounted w); exact Ha.
Qed.

Local Abbreviation LI := (loading_invariant pdfDoc flags pageCount).

Lemma simple_step_loaded e (w : World) :
  LI w -> attached w -> LI (step e w).
Proof.
  intros Hi Ha. destruct e; cbn.
  - (* Mount *)
    destruct (phase w) eqn:Hph; try exact Hi.
    eapply load_started; try exact Hi; try reflexivity. exact Hph.
  - (* Progress *)
    destruct (phase w) eqn:Hph; try exact Hi.
    all: eapply neutral_step; try exact Hi; auto;
      unfold onProgress; destruct (Qlt_le_dec _ _); cbn; auto.
  - (* Flush *)
    unfold mounted. destruct (phase w) eqn:Hph; try exact Hi.
    unfold flush. destruct (Simple.loading (state w)).
    + eapply neutral_step; try exact Hi; auto.
    + eapply neutral_step; try exact Hi; auto.
      unfold flags. cbn. rewrite flags_map by apply bindCanvas_rendered. auto.
  - exact Hi.
  - (* Intersect *)
    destruct (created w !! observer) as [ob|] eqn:Ho; [|exact Hi].
    destruct (Dom.observing ob); [|exact Hi].
    destruct (simple_callback_effect (Dom.closure ob) entries w) as (Hs & Hc & Hp & n & Hn).
    eapply loaded_step; try exact Hi.
    + eapply observer_loaded; eassumption.
    + exact Hp.
    + rewrite Hn, loadTasks_app, loadTasks_replicate_render. apply app_nil_r.
    + unfold failed. by rewrite Hc.
    + by rewrite Hs.
  - (* Settle *)
    destruct (pending w !! k) as [t|] eqn:Hk; [|exact Hi].
    destruct t as [| |i a|i|i]; cbn.
    + (* the document *)
      destruct r.
      * unfold loadPDF_gotDocument, calculatePageDimensions. cbn.
        unfold calculate_loop. cbn.
        destruct (0 <? Pdfjs.numPages (portfolio w))%nat.
        -- eapply (load_progress _ _ _ _ _ k _ (LayoutAwaitPage 0 true));
             try exact Hi; try exact Hk; try reflexivity; try discriminate.
           apply flags_newPages.
        -- eapply (load_progress _ _ _ _ _ k _ LoadAwaitLayout);
             try exact Hi; try exact Hk; try reflexivity; try discriminate.
           apply flags_newPages.
      * eapply load_failure; try exact Hi; try exact Hk; reflexivity.
    + (* the layout has returned *)
      eapply load_finished; try exact Hi; try exact Hk; reflexivity.
    + (* a page of the layout pass *)
      assert (a = true) as ->.
      { unfold attached in Ha. rewrite Forall_lookup in Ha. specialize (Ha k _ Hk).
        destruct a; [reflexivity|contradiction]. }
      pose proof (load_pending_unloaded pdfDoc w _ k Hk eq_refl) as Hu.
      destruct (l_quiet _ _ _ _ Hi Hu) as (_ & _ & _ & Hfl).
      unfold calculate_gotPage. cbn.
      destruct r; [|eapply load_failure; try exact Hi; try exact Hk; reflexivity].
      destruct (pdfDoc (state w)) as [doc|] eqn:Hdoc; cbn;
        [|eapply load_failure; try exact Hi; try exact Hk; auto].
      destruct (Pdfjs.getPage doc (i + 1)) as [page|];
        [|eapply load_failure; try exact Hi; try exact Hk; auto].
      destruct (pages (state w) !! i) as [p|];
        [|eapply load_failure; try exact Hi; try exact Hk; auto].
      unfold calculate_loop. cbn.
      destruct (S i <? pageCount (state w))%nat.
      * eapply (load_progress _ _ _ _ _ k _ (LayoutAwaitPage (S i) true));
          try exact Hi; try exact Hk; try reflexivity;
          cbn; try (rewrite Hdoc; discriminate).
        unfold flags in *; cbn; rewrite flags_alter by reflexivity; exact Hfl.
      * eapply (load_progress _ _ _ _ _ k _ LoadAwaitLayout);
          try exact Hi; try exact Hk; try reflexivity;
          cbn; try (rewrite Hdoc; discriminate).
        unfold flags in *; cbn; rewrite flags_alter by reflexivity; exact Hfl.
    + (* the page of a render *)
      pose proof (render_pending_loaded pdfDoc flags pageCount w _ k Hi Hk eq_refl) as Hu.
      pose proof (loadTasks_delete_other _ _ _ Hk eq_refl) as Hdel.
      unfold renderPage_gotPage, renderPage_catch. cbn.
      repeat case_match; eapply loaded_step; try exact Hi; try exact Hu;
        try reflexivity; try exact Hdel;
        try (eapply failed_render; reflexivity).
      cbn. rewrite loadTasks_app, Hdel. apply app_nil_r.
    + (* the rasterization of a render *)
      pose proof (render_pending_loaded pdfDoc flags pageCount w _ k Hi Hk eq_refl) as Hu.
      pose proof (loadTasks_delete_other _ _ _ Hk eq_refl) as Hdel.
      unfold renderPage_rasterized, renderPage_catch. cbn.
      repeat case_match; eapply loaded_step; try exact Hi; try exact Hu;
        try reflexivity; try exact Hdel;
        try (eapply failed_render; reflexivity).
  - (* Destroy *)
    unfold mounted. destruct (phase w) eqn:Hph; try exact Hi.
    eapply neutral_step; try exact Hi; auto.
    + right. rewrite Hph. split; discriminate.
    + cbn. intros ->. apply nil_length_inv.
      rewrite TrackerFacts.disconnectAll_length. reflexivity.
    + unfold flags. cbn. rewrite flags_map by reflexivity. auto.
Qed.

Lemma simple_init_loading doc : loading (init doc).
Proof.
  split; [split; cbn|constructor].
  - lia.
  - reflexivity.
  - auto.
  - intros _. repeat split; constructor.
  - intros _. repeat split; constructor.
Qed.

Lemma simple_run_loading events (w : World) : loading w -> loading (run events w).
Proof.
  unfold run, Loop.run. revert w.
  induction events as [|e events IH]; intros w Hl; cbn; [exact Hl|].
  apply IH. destruct Hl as [Hi Ha]. split.
  - by apply simple_step_loaded.
  - by apply simple_step_attached.
Qed.
End SimpleLoadingFacts.

Module HighQualityLoadingFacts.
Import HighQuality Loading LoadingFacts LoadingSteps HighQualityLoading.

#[local] Arguments Nat.ltb : simpl never.

Lemma hq_flags_alter (f : PageState -> PageState) i (l : list PageState) :
  (forall p, rendered (f p) = rendered p) ->
  map rendered (alter f i l) = map rendered l.
Proof.
  intros Hf. revert i. induction l as [|p l IH]; intros [|i]; cbn; try reflexivity.
  - by rewrite Hf.
  - by rewrite IH.
Qed.

Lemma hq_flags_map (f : PageState -> PageState) (l : list PageState) :
  (forall p, rendered (f p) = rendered p) ->
  map rendered (map f l) = map rendered l.
Proof.
  intros Hf. induction l as [|p l IH]; cbn; [reflexivity|]. by rewrite Hf, IH.
Qed.

Lemma hq_flags_newPages n : Forall (fun b => b = false) (map rendered (newPages n)).
Proof.
  unfold newPages. rewrite map_map. cbn.
  induction (seq 0 n) as [|i l IH]; cbn; constructor; [reflexivity|exact IH].
Qed.

Lemma hq_flags_lookup (l : list PageState) i p :
  Forall (fun b => b = false) (map rendered l) -> l !! i = Some p -> rendered p = false.
Proof.
  intros Hf Hp. rewrite Forall_lookup in Hf. apply (Hf i).
  change (map rendered l) with (rendered <$> l). rewrite list_lookup_fmap, Hp. reflexivity.
Qed.

Lemma hq_bindCanvas_rendered c p : rendered (bindCanvas c p) = rendered p.
Proof. unfold bindCanvas. destruct (canvas p); reflexivity. Qed.

(** What a call of [renderPage] changes. *)
Lemma hq_renderPage_effect i (w : World) :
  state (renderPage i w) = state w /\ console (renderPage i w) = console w
  /\ phase (renderPage i w) = phase w
  /\ (pending (renderPage i w) = pending w
      \/ pending (renderPage i w) = pending w ++ [RenderAwaitPage i]).
Proof. unfold renderPage. repeat case_match; repeat split; auto. Qed.

Lemma hq_callback_effect i entries (w : World) :
  let w' := intersectionCallback i entries w in
  state w' = state w /\ console w' = console w /\ phase w' = phase w
  /\ exists n, pending w' = pending w ++ replicate n (RenderAwaitPage i).
Proof.
  unfold intersectionCallback. revert w.
  induction entries as [|e entries IH]; intros w; cbn [foldl].
  - repeat split; try reflexivity. exists 0%nat. cbn. by rewrite app_nil_r.
  - match goal with |- context [foldl ?f ?w0 entries] =>
      destruct (IH w0) as (Hs & Hc & Hp & n & Hn);
      assert (state w0 = state w /\ console w0 = console w /\ phase w0 = phase w
              /\ (pending w0 = pending w
                  \/ pending w0 = pending w ++ [RenderAwaitPage i])) as (Hs0 & Hc0 & Hp0 & Hn0)
    end.
    { repeat case_match; try (repeat split; auto; fail). apply hq_renderPage_effect. }
    rewrite Hs, Hc, Hp, Hn. repeat split; auto.
    destruct Hn0 as [-> | ->]; [by exists n|].
    exists (S n). rewrite <- app_assoc. reflexivity.
Qed.


Local Abbreviation HI := (loading_invariant pdfDoc flags pageCount).

(** The page iteration of a layout pass, for a page that is not
    rendered: the layout is written and the loop goes on. *)
Lemma hq_layout_unrendered i awaited (w : World) doc page p :
  pdfDoc (state w) = Some doc -> Pdfjs.getPage doc (i + 1) = Some page ->
  pages (state w) !! i = Some p -> rendered p = false ->
  calculate_gotPage i awaited Pdfjs.Fulfilled w
  = calculate_loop (S i) awaited
      (update_page i (layoutPage (containerWidth (state w)) page) w).
Proof.
  intros Hdoc Hpage Hp Hr. unfold calculate_gotPage. rewrite Hdoc. cbn.
  rewrite Hpage, Hp, Hr. reflexivity.
Qed.

Lemma hq_layout_detached_effect i r (w : World) :
  let w' := calculate_gotPage i false r w in
  phase w' = phase w /\ pdfDoc (state w') = pdfDoc (state w)
  /\ console w' = console w /\ loadTasks (pending w') = loadTasks (pending w).
Proof.
  unfold calculate_gotPage, calculate_loop, calculate_return, calculate_throw.
  destruct r; [|repeat split; reflexivity].
  destruct (pdfDoc (state w) ≫= _) as [page|]; [|repeat split; reflexivity].
  destruct (pages (state w) !! i) as [p|]; [|repeat split; reflexivity].
  match goal with |- context [if ?b then renderPage i ?w1 else ?w2] =>
    set (w3 := if b then renderPage i w1 else w2)
  end.
  assert (phase w3 = phase w /\ pdfDoc (state w3) = pdfDoc (state w)
          /\ console w3 = console w
          /\ pageCount (state w3) = pageCount (state w)
          /\ loadTasks (pending w3) = loadTasks (pending w)) as (Hp & Hd & Hc & Hn & Hl).
  { subst w3. destruct (_ && _); [|repeat split; reflexivity].
    match goal with |- context [renderPage i ?w1] =>
      destruct (hq_renderPage_effect i w1) as (Hs & Hc & Hp & Hn) end.
    rewrite Hs, Hc, Hp. repeat split; try reflexivity.
    destruct Hn as [-> | ->]; [reflexivity|].
    rewrite loadTasks_app. apply app_nil_r. }
  clearbody w3. cbn.
  destruct (S i <? pageCount (state w3))%nat; cbn; repeat split; auto.
  rewrite loadTasks_app, Hl. apply app_nil_r.
Qed.

Lemma hq_step_loaded e (w : World) : HI w -> HI (step e w).
Proof.
  intros Hi. destruct e; cbn.
  - (* Mount *)
    destruct (phase w) eqn:Hph; try exact Hi.
    eapply load_started; try exact Hi; try reflexivity. exact Hph.
  - (* Progress *)
    destruct (phase w) eqn:Hph; try exact Hi.
    all: eapply neutral_step; try exact Hi; auto;
      unfold onProgress; destruct (Qlt_le_dec _ _); cbn; auto.
  - (* Flush *)
    unfold mounted. destruct (phase w) eqn:Hph; try exact Hi.
    unfold flush. destruct (HighQuality.loading (state w)).
    + eapply neutral_step; try exact Hi; auto.
    + eapply neutral_step; try exact Hi; auto.
      unfold flags. cbn. rewrite hq_flags_map by apply hq_bindCanvas_rendered. auto.
  - (* Resize *)
    unfold mounted. destruct (phase w) eqn:Hph; try exact Hi.
    destruct entries as [|entry entries]; [exact Hi|]. cbn.
    unfold calculatePageDimensions, calculate_return, calculate_loop. cbn.
    destruct (pdfDoc (state w)) as [doc|] eqn:Hdoc; cbn.
    2:{ eapply neutral_step; try exact Hi; auto. }
    destruct (Qeq_bool _ _); cbn.
    { eapply neutral_step; try exact Hi; auto. }
    destruct (0 <? pageCount (state w))%nat.
    2:{ eapply neutral_step; try exact Hi; auto. }
    eapply neutral_step; try exact Hi; auto; cbn.
    + rewrite loadTasks_app. apply app_nil_r.
    + rewrite Hdoc, Hph. intros [?|?]; discriminate.
    + intros Hf. apply Forall_app. split; [exact Hf|repeat constructor].
  - (* Intersect *)
    destruct (created w !! observer) as [ob|] eqn:Ho; [|exact Hi].
    destruct (Dom.observing ob); [|exact Hi].
    destruct (hq_callback_effect (Dom.closure ob) entries w) as (Hs & Hc & Hp & n & Hn).
    eapply loaded_step; try exact Hi.
    + eapply observer_loaded; eassumption.
    + exact Hp.
    + rewrite Hn, loadTasks_app, loadTasks_replicate_render. apply app_nil_r.
    + unfold failed. by rewrite Hc.
    + by rewrite Hs.
  - (* Settle *)
    destruct (pending w !! k) as [t|] eqn:Hk; [|exact Hi].
    destruct t as [| |i a|i|i]; cbn.
    + (* the document *)
      destruct r; [|eapply load_failure; try exact Hi; try exact Hk; reflexivity].
      unfold loadPDF_gotDocument, calculatePageDimensions, calculate_return. cbn.
      destruct (Qeq_bool _ _); cbn.
      { eapply (load_progress _ _ _ _ _ k _ LoadAwaitLayout);
          try exact Hi; try exact Hk; try reflexivity; try discriminate.
        apply hq_flags_newPages. }
      unfold calculate_loop, calculate_return. cbn.
      destruct (0 <? Pdfjs.numPages (portfolio w))%nat.
      -- eapply (load_progress _ _ _ _ _ k _ (LayoutAwaitPage 0 true));
           try exact Hi; try exact Hk; try reflexivity; try discriminate.
         apply hq_flags_newPages.
      -- eapply (load_progress _ _ _ _ _ k _ LoadAwaitLayout);
           try exact Hi; try exact Hk; try reflexivity; try discriminate.
         apply hq_flags_newPages.
    + (* the layout has returned *)
      eapply load_finished; try exact Hi; try exact Hk; reflexivity.
    + (* a page of a layout pass *)
      destruct a.
      * (* awaited by loadPDF *)
        pose proof (load_pending_unloaded pdfDoc w _ k Hk eq_refl) as Hu.
        destruct (l_quiet _ _ _ _ Hi Hu) as (_ & _ & _ & Hfl).
        destruct r;
          [|eapply load_failure; try exact Hi; try exact Hk; reflexivity].
        destruct (pdfDoc (state w)) as [doc|] eqn:Hdoc.
        2:{ unfold calculate_gotPage. cbn. rewrite Hdoc. cbn.
            eapply load_failure; try exact Hi; try exact Hk; auto. }
        destruct (Pdfjs.getPage doc (i + 1)) as [page|] eqn:Hpage.
        2:{ unfold calculate_gotPage. cbn. rewrite Hdoc. cbn. rewrite Hpage.
            eapply load_failure; try exact Hi; try exact Hk; auto. }
        destruct (pages (state w) !! i) as [p|] eqn:Hp.
        2:{ unfold calculate_gotPage. cbn. rewrite Hdoc. cbn. rewrite Hpage, Hp.
            eapply load_failure; try exact Hi; try exact Hk; auto. }
        rewrite (hq_layout_unrendered i true (with_pending (delete k (pending w)) w)
                   doc page p Hdoc Hpage Hp
                   (hq_flags_lookup _ _ _ Hfl Hp)).
        unfold calculate_loop, calculate_return. cbn.
        destruct (S i <? pageCount (state w))%nat.
        -- eapply (load_progress _ _ _ _ _ k _ (LayoutAwaitPage (S i) true));
             try exact Hi; try exact Hk; try reflexivity;
             cbn; try (rewrite Hdoc; discriminate).
           unfold flags in *; cbn; rewrite hq_flags_alter by reflexivity; exact Hfl.
        -- eapply (load_progress _ _ _ _ _ k _ LoadAwaitLayout);
             try exact Hi; try exact Hk; try reflexivity;
             cbn; try (rewrite Hdoc; discriminate).
           unfold flags in *; cbn; rewrite hq_flags_alter by reflexivity; exact Hfl.
      * (* started by a resize *)
        pose proof (loadTasks_delete_other _ _ _ Hk eq_refl) as Hdel.
        destruct (unloaded_dec pdfDoc w) as [Hu|Hu].
        -- destruct (l_quiet _ _ _ _ Hi Hu) as (_ & _ & Hrt & Hfl).
           assert (Forall (fun t => isRenderTask t = false) (delete k (pending w)))
             as Hrt' by (by apply Forall_delete).
           destruct r.
           2:{ eapply neutral_step; try exact Hi; auto; cbn.
               intros [Hnone|Hph].
               - destruct (l_closed _ _ _ _ Hi Hnone) as (Hall & _).
                 rewrite Forall_lookup in Hall. specialize (Hall k _ Hk). discriminate.
               - exfalso. by eapply (pending_mounted pdfDoc flags pageCount w). }
           destruct (pdfDoc (state w)) as [doc|] eqn:Hdoc.
           2:{ destruct (l_closed _ _ _ _ Hi Hdoc) as (Hall & _).
               rewrite Forall_lookup in Hall. specialize (Hall k _ Hk). discriminate. }
           assert (phase w <> Dom.Unmounted) as Hm
             by (by eapply (pending_mounted pdfDoc flags pageCount w)).
           destruct (Pdfjs.getPage doc (i + 1)) as [page|] eqn:Hpage.
           2:{ unfold calculate_gotPage. cbn. rewrite Hdoc. cbn. rewrite Hpage.
               eapply neutral_step; try exact Hi; auto; cbn.
               rewrite Hdoc. intros [?|?]; [discriminate|contradiction]. }
           destruct (pages (state w) !! i) as [p|] eqn:Hp.
           2:{ unfold calculate_gotPage. cbn. rewrite Hdoc. cbn. rewrite Hpage, Hp.
               eapply neutral_step; try exact Hi; auto; cbn.
               rewrite Hdoc. intros [?|?]; [discriminate|contradiction]. }
           rewrite (hq_layout_unrendered i false (with_pending (delete k (pending w)) w)
                      doc page p Hdoc Hpage Hp
                      (hq_flags_lookup _ _ _ Hfl Hp)).
           unfold calculate_loop, calculate_return. cbn.
           destruct (S i <? pageCount (state w))%nat.
           ++ eapply neutral_step; try exact Hi; auto; cbn.
              ** rewrite loadTasks_app, Hdel. apply app_nil_r.
              ** rewrite Hdoc. intros [?|?]; [discriminate|contradiction].
              ** intros _. apply Forall_app. split; [exact Hrt'|repeat constructor].
              ** intros _. unfold flags in *. cbn.
                 rewrite hq_flags_alter by reflexivity. exact Hfl.
           ++ eapply neutral_step; try exact Hi; auto; cbn.
              ** rewrite Hdoc. intros [?|?]; [discriminate|contradiction].
              ** intros _. unfold flags in *. cbn.
                 rewrite hq_flags_alter by reflexivity. exact Hfl.
        -- match goal with |- HI (calculate_gotPage i false r ?w0) =>
             destruct (hq_layout_detached_effect i r w0) as (Hp & Hd & Hc & Hl) end.
           eapply loaded_step; try exact Hi; try exact Hu.
           ++ exact Hp.
           ++ rewrite Hl. exact Hdel.
           ++ unfold failed. rewrite Hc. reflexivity.
           ++ exact Hd.
    + (* the page of a render *)
      pose proof (render_pending_loaded pdfDoc flags pageCount w _ k Hi Hk eq_refl) as Hu.
      pose proof (loadTasks_delete_other _ _ _ Hk eq_refl) as Hdel.
      unfold renderPage_gotPage, renderPage_catch. cbn.
      repeat case_match; eapply loaded_step; try exact Hi; try exact Hu;
        try reflexivity; try exact Hdel;
        try (eapply failed_render; reflexivity).
      cbn. rewrite loadTasks_app, Hdel. apply app_nil_r.
    + (* the rasterization of a render *)
      pose proof (render_pending_loaded pdfDoc flags pageCount w _ k Hi Hk eq_refl) as Hu.
      pose proof (loadTasks_delete_other _ _ _ Hk eq_refl) as Hdel.
      unfold renderPage_rasterized, renderPage_catch. cbn.
      repeat case_match; eapply loaded_step; try exact Hi; try exact Hu;
        try reflexivity; try exact Hdel;
        try (eapply failed_render; reflexivity).
  - (* Destroy *)
    unfold mounted. destruct (phase w) eqn:Hph; try exact Hi.
    eapply neutral_step; try exact Hi; auto.
    + right. rewrite Hph. split; discriminate.
    + cbn. intros ->. apply nil_length_inv.
      rewrite TrackerFacts.disconnectAll_length. reflexivity.
    + unfold flags. cbn. rewrite hq_flags_map by reflexivity. auto.
Qed.

Lemma hq_init_loading doc : loading (init doc).
Proof.
  split; cbn.
  - lia.
  - reflexivity.
  - auto.
  - intros _. repeat split; constructor.
  - intros _. repeat split; constructor.
Qed.

Lemma hq_run_loading events (w : World) : loading w -> loading (run events w).
Proof.
  unfold run, Loop.run. revert w.
  induction events as [|e events IH]; intros w Hl; cbn; [exact Hl|].
  apply IH. by apply hq_step_loaded.
Qed.
End HighQualityLoadingFacts.

(** ** Layout and canvases of the simple viewer *)

Module SimpleLayoutFacts.
Import Simple Loading LoadingFacts LoadingSteps SimpleLoading SimpleLoadingFacts.
Import SimpleShape SimpleShapeFacts SimpleLayout.

#[local] Arguments Nat.ltb : simpl never.

Lemma sizes_lookup (w w' : World) i p' :
  sizes w' = sizes w -> pages (state w') !! i = Some p' ->
  exists p, pages (state w) !! i = Some p /\ width p = width p' /\ height p = height p'.
Proof.
  unfold sizes. intros Hs Hp'.
  assert ((fun p => (width p, height p)) <$> pages (state w') !! i
          = (fun p => (width p, height p)) <$> pages (state w) !! i) as Hl.
  { rewrite <- !list_lookup_fmap. change (fmap ?f ?l) with (map f l). by rewrite Hs. }
  rewrite Hp' in Hl. cbn in Hl.
  destruct (pages (state w) !! i) as [p|]; [|discriminate].
  injection Hl as Hw Hh. exists p. auto.
Qed.

Lemma laidOutUpTo_frame (w w' : World) j :
  sizes w' = sizes w -> portfolio w' = portfolio w ->
  laidOutUpTo j w -> laidOutUpTo j w'.
Proof.
  intros Hs Hpf Hl i p' Hi Hp'.
  destruct (sizes_lookup w w' i p' Hs Hp') as (p & Hp & Hw & Hh).
  destruct (Hl i p Hi Hp) as (page & Hpage & Hpw & Hph).
  exists page. rewrite Hpf. split; [exact Hpage|].
  cbn in *. split; congruence.
Qed.

(** A step that leaves the display sizes alone, parks no new layout call
    and does not finish [loadPDF]. *)
Lemma layout_frame (w w' : World) :
  layout_invariant w ->
  sizes w' = sizes w -> portfolio w' = portfolio w ->
  pageCount (state w') = pageCount (state w) ->
  (forall k t, pending w' !! k = Some t ->
     (exists j a, t = LayoutAwaitPage j a) \/ t = LoadAwaitLayout ->
     exists k', pending w !! k' = Some t) ->
  (unloaded pdfDoc w -> unloaded pdfDoc w') ->
  layout_invariant w'.
Proof.
  intros [Hpass Hdone Hloaded] Hs Hpf Hpc Hsub Hun. split.
  - intros k j a Hk. destruct (Hsub k _ Hk) as (k' & Hk'); [left; eauto|].
    eapply laidOutUpTo_frame; eauto.
  - intros k Hk. destruct (Hsub k _ Hk) as (k' & Hk'); [by right|].
    rewrite Hpc. eapply laidOutUpTo_frame; eauto.
  - intros Hu. rewrite Hpc. eapply laidOutUpTo_frame; eauto.
Qed.

Lemma lookup_delete_sub {A} (l : list A) k i x :
  delete k l !! i = Some x -> exists i', l !! i' = Some x.
Proof.
  intros Hi. apply list_elem_of_lookup_2 in Hi.
  assert (x ∈ l) as Hin.
  { revert k Hi. induction l as [|y l IH]; intros [|k] Hi; cbn in Hi.
    - by apply elem_of_nil in Hi.
    - by apply elem_of_nil in Hi.
    - by right.
    - apply elem_of_cons in Hi as [->|Hi]; [by left|right; eauto]. }
  apply list_elem_of_lookup_1 in Hin. exact Hin.
Qed.

Lemma sizes_alter (f : PageState -> PageState) i (l : list PageState) :
  (forall p, width (f p) = width p /\ height (f p) = height p) ->
  map (fun p => (width p, height p)) (alter f i l)
  = map (fun p => (width p, height p)) l.
Proof.
  intros Hf. revert i. induction l as [|p l IH]; intros [|i]; cbn; try reflexivity.
  - destruct (Hf p) as [-> ->]. reflexivity.
  - by rewrite IH.
Qed.

Lemma sizes_map (f : PageState -> PageState) (l : list PageState) :
  (forall p, width (f p) = width p /\ height (f p) = height p) ->
  map (fun p => (width p, height p)) (map f l)
  = map (fun p => (width p, height p)) l.
Proof.
  intros Hf. induction l as [|p l IH]; cbn; [reflexivity|].
  destruct (Hf p) as [-> ->]. by rewrite IH.
Qed.


Lemma unloaded_same (w w' : World) :
  loadTasks (pending w') = loadTasks (pending w) -> console w' = console w ->
  pdfDoc (state w') = pdfDoc (state w) ->
  unloaded pdfDoc w -> unloaded pdfDoc w'.
Proof. unfold unloaded, failed. intros -> -> ->. auto. Qed.

Lemma no_other_load_task (w : World) k t i t' :
  SimpleLoading.loading w -> pending w !! k = Some t -> isLoadTask t = true ->
  delete k (pending w) !! i = Some t' ->
  (exists j a, t' = LayoutAwaitPage j a) \/ t' = LoadAwaitLayout -> False.
Proof.
  intros [Hi Ha] Hk Ht Hi' Hkind.
  pose proof (loadTasks_delete_load _ _ _ Hk Ht (l_single _ _ _ _ Hi)) as Hnil.
  assert (isLoadTask t' = true) as Hload.
  { destruct Hkind as [(j & a & ->)| ->]; [|reflexivity].
    destruct (lookup_delete_sub _ _ _ _ Hi') as (i' & Hin).
    unfold attached in Ha. rewrite Forall_lookup in Ha. specialize (Ha i' _ Hin).
    destruct a; [reflexivity|contradiction]. }
  assert (t' ∈ loadTasks (delete k (pending w))) as Hin.
  { apply list_elem_of_filter. split; [exact Hload|].
    eapply list_elem_of_lookup_2. exact Hi'. }
  rewrite Hnil in Hin. by apply elem_of_nil in Hin.
Qed.

Lemma lookup_snoc_inv {A} (l : list A) x i y :
  (l ++ [x]) !! i = Some y -> l !! i = Some y \/ y = x.
Proof.
  intros H. apply lookup_app_Some in H as [H|[_ H]]; [by left|right].
  apply list_lookup_singleton_Some in H as [_ <-]. reflexivity.
Qed.

Lemma simple_step_layout e (w : World) :
  numbered w -> SimpleLoading.loading w -> layout_invariant w ->
  layout_invariant (step e w).
Proof.
  intros Hn Hl Hf. pose proof Hl as [Hi Ha]. destruct e; cbn.
  - (* Mount *)
    destruct (phase w) eqn:Hph; try exact Hf.
    eapply layout_frame; try exact Hf; try reflexivity.
    + cbn. intros k t Hk Hkind. apply lookup_snoc_inv in Hk as [Hk| ->]; [eauto|].
      destruct Hkind as [(j & a & ?)|?]; discriminate.
    + intros _. eapply (load_pending_unloaded _ _ LoadAwaitDocument (length (pending w))).
      * cbn. rewrite lookup_app_r by lia. by rewrite Nat.sub_diag.
      * reflexivity.
  - (* Progress *)
    destruct (phase w) eqn:Hph; try exact Hf.
    all: eapply layout_frame; try exact Hf; try reflexivity; eauto;
      unfold sizes, onProgress; cbn; destruct (Qlt_le_dec _ _); try reflexivity;
      apply unloaded_same; reflexivity.
  - (* Flush *)
    unfold mounted. destruct (phase w) eqn:Hph; try exact Hf.
    unfold flush. destruct (Simple.loading (state w)).
    + eapply layout_frame; try exact Hf; try reflexivity; eauto.
    + eapply layout_frame; try exact Hf; try reflexivity; eauto.
      unfold sizes. cbn. apply sizes_map. intros p. unfold bindCanvas.
      destruct (canvas p); auto.
  - exact Hf.
  - (* Intersect *)
    destruct (created w !! observer) as [ob|] eqn:Ho; [|exact Hf].
    destruct (Dom.observing ob); [|exact Hf].
    destruct (simple_callback_effect (Dom.closure ob) entries w) as (Hs & Hc & Hp & n & Hpe).
    eapply layout_frame; try exact Hf.
    + unfold sizes. by rewrite Hs.
    + unfold intersectionCallback. clear. revert w.
      induction entries as [|e entries IH]; intros w; cbn; [reflexivity|].
      rewrite IH. unfold renderPage. repeat case_match; reflexivity.
    + by rewrite Hs.
    + intros k t Hk Hkind. rewrite Hpe in Hk.
      apply lookup_app_Some in Hk as [Hk|[_ Hk]]; [eauto|].
      apply list_elem_of_lookup_2, elem_of_replicate in Hk as [-> _].
      destruct Hkind as [(j & a & ?)|?]; discriminate.
    + apply unloaded_same; [|exact Hc|by rewrite Hs].
      rewrite Hpe, loadTasks_app, loadTasks_replicate_render. apply app_nil_r.
  - (* Settle *)
    destruct (pending w !! k) as [t|] eqn:Hk; [|exact Hf].
    destruct t as [| |j a|j|j]; cbn.
    + (* the document *)
      destruct r.
      2:{ eapply layout_frame; try exact Hf; try reflexivity.
          - cbn. intros i t Hi' _. eapply lookup_delete_sub. exact Hi'.
          - intros _. right. left. unfold failed. cbn. apply elem_of_app. right.
            apply list_elem_of_here. }
      unfold loadPDF_gotDocument, calculatePageDimensions. cbn.
      unfold calculate_loop. cbn.
      destruct (0 <? Pdfjs.numPages (portfolio w))%nat eqn:Hlt; split; cbn.
      * intros i j a Hi'. apply lookup_snoc_inv in Hi' as [Hi'|Heq].
        -- exfalso. eapply (no_other_load_task w k _ i); eauto.
        -- injection Heq as -> ->. intros i0 p Hlt0. lia.
      * intros i Hi'. apply lookup_snoc_inv in Hi' as [Hi'|Heq]; [|discriminate].
        exfalso. eapply (no_other_load_task w k _ i); eauto.
      * intros Hu. exfalso. apply Hu. left. cbn.
        rewrite loadTasks_app. unfold loadTasks at 2.
        rewrite filter_cons_True by reflexivity.
        intros Hnil. apply app_eq_nil in Hnil as [_ Hnil]. discriminate.
      * intros i j a Hi'. apply lookup_snoc_inv in Hi' as [Hi'|Heq]; [|discriminate].
        exfalso. eapply (no_other_load_task w k _ i); eauto.
      * intros i Hi'. apply Nat.ltb_ge in Hlt. intros i0 p Hlt0. lia.
      * intros Hu. exfalso. apply Hu. left. cbn.
        rewrite loadTasks_app. unfold loadTasks at 2.
        rewrite filter_cons_True by reflexivity.
        intros Hnil. apply app_eq_nil in Hnil as [_ Hnil]. discriminate.
    + (* the layout has returned *)
      pose proof (f_done w Hf k Hk) as Hall.
      split; cbn.
      * intros i j a Hi'. exfalso. eapply (no_other_load_task w k _ i); eauto.
      * intros i Hi'. exfalso. eapply (no_other_load_task w k _ i); eauto.
      * intros _. exact Hall.
    + (* a page of the layout pass *)
      assert (a = true) as ->.
      { unfold attached in Ha. rewrite Forall_lookup in Ha. specialize (Ha k _ Hk).
        destruct a; [reflexivity|contradiction]. }
      assert (layout_invariant (loadPDF_catch (with_pending (delete k (pending w)) w)))
        as Hcatch.
      { eapply layout_frame; try exact Hf; try reflexivity.
        - cbn. intros i t Hi' _. eapply lookup_delete_sub. exact Hi'.
        - intros _. right. left. unfold failed. cbn. apply elem_of_app. right.
          apply list_elem_of_here. }
      unfold calculate_gotPage. cbn.
      destruct r; [|exact Hcatch].
      destruct (pdfDoc (state w)) as [doc|] eqn:Hdoc; cbn; [|exact Hcatch].
      destruct (Pdfjs.getPage doc (j + 1)) as [page|] eqn:Hpage; [|exact Hcatch].
      destruct (pages (state w) !! j) as [p|] eqn:Hp; [|exact Hcatch].
      destruct Hn as [Hnum Hd]. rewrite Hdoc in Hd. destruct Hd as [-> Hcount].
      assert (laidOutUpTo (S j)
                (update_page j (layoutPage page) (with_pending (delete k (pending w)) w)))
        as Hnext.
      { intros i p' Hlt Hp'. cbn in Hp'. destruct (decide (i = j)) as [->|Hne].
        - rewrite list_lookup_alter_eq, Hp in Hp'. injection Hp' as <-.
          exists page. cbn. auto.
        - rewrite list_lookup_alter_ne in Hp' by congruence.
          destruct (f_pass w Hf k j true Hk i p' ltac:(lia) Hp') as (pg & Hpg & Hw & Hh).
          exists pg. cbn. auto. }
      assert (j < pageCount (state w))%nat as Hj.
      { apply lookup_lt_Some in Hp.
        assert (length (pages (state w)) = pageCount (state w)) as <-; [|exact Hp].
        rewrite <- (length_map pageNum), Hnum. apply length_seq. }
      unfold calculate_loop. cbn.
      destruct (S j <? pageCount (state w))%nat eqn:Hlt; split; cbn.
      * intros i j' a Hi'. apply lookup_snoc_inv in Hi' as [Hi'|Heq].
        -- exfalso. eapply (no_other_load_task w k _ i); eauto.
        -- injection Heq as -> ->. exact Hnext.
      * intros i Hi'. apply lookup_snoc_inv in Hi' as [Hi'|Heq]; [|discriminate].
        exfalso. eapply (no_other_load_task w k _ i); eauto.
      * intros Hu. exfalso. apply Hu. left. cbn.
        rewrite loadTasks_app. unfold loadTasks at 2.
        rewrite filter_cons_True by reflexivity.
        intros Hnil. apply app_eq_nil in Hnil as [_ Hnil]. discriminate.
      * intros i j' a Hi'. apply lookup_snoc_inv in Hi' as [Hi'|Heq]; [|discriminate].
        exfalso. eapply (no_other_load_task w k _ i); eauto.
      * intros i Hi'. apply Nat.ltb_ge in Hlt. intros i0 p0 Hlt0 Hp0.
        apply (Hnext i0 p0); [lia|exact Hp0].
      * intros Hu. exfalso. apply Hu. left. cbn.
        rewrite loadTasks_app. unfold loadTasks at 2.
        rewrite filter_cons_True by reflexivity.
        intros Hnil. apply app_eq_nil in Hnil as [_ Hnil]. discriminate.
    + (* the page of a render *)
      pose proof (render_pending_loaded pdfDoc flags pageCount w _ k Hi Hk eq_refl) as Hu.
      unfold renderPage_gotPage, renderPage_catch. cbn.
      repeat case_match; eapply layout_frame; try exact Hf; try reflexivity;
        try (intros; contradiction);
        try (unfold sizes; cbn; apply sizes_alter; intros; auto; fail);
        cbn; intros i t Hi' Hkind;
        try (apply lookup_snoc_inv in Hi' as [Hi'| ->];
             [|destruct Hkind as [(? & ? & ?)|?]; discriminate]);
        eapply lookup_delete_sub; exact Hi'.
    + (* the rasterization of a render *)
      pose proof (render_pending_loaded pdfDoc flags pageCount w _ k Hi Hk eq_refl) as Hu.
      unfold renderPage_rasterized, renderPage_catch. cbn.
      repeat case_match; eapply layout_frame; try exact Hf; try reflexivity;
        try (intros; contradiction);
        try (unfold sizes; cbn; apply sizes_alter; intros; auto; fail);
        cbn; intros i t Hi' Hkind; eapply lookup_delete_sub; exact Hi'.
  - (* Destroy *)
    unfold mounted. destruct (phase w) eqn:Hph; try exact Hf.
    eapply layout_frame; try exact Hf; try reflexivity; eauto.
    unfold sizes. cbn. apply sizes_map. intros p. auto.
Qed.
End SimpleLayoutFacts.

Module SimpleCanvasFacts.
Import Simple Loading LoadingFacts LoadingSteps SimpleLoading SimpleLoadingFacts.
Import SimpleShape SimpleShapeFacts SimpleLayout SimpleLayoutFacts SimpleCanvas.

#[local] Arguments Nat.ltb : simpl never.

Lemma numbered_lookup (w : World) i p :
  numbered w -> pages (state w) !! i = Some p -> pageNum p = (i + 1)%nat.
Proof.
  intros [Hnum _] Hp.
  assert (map pageNum (pages (state w)) !! i = Some (pageNum p)) as Hl.
  { change (map pageNum ?l) with (pageNum <$> l). by rewrite list_lookup_fmap, Hp. }
  rewrite Hnum in Hl. apply lookup_seq in Hl as [-> _]. lia.
Qed.

Lemma quiet_canvas (w : World) : quiet flags w -> canvas_invariant w.
Proof.
  intros (_ & _ & Hrt & Hfl).
  assert (forall i p, pages (state w) !! i = Some p -> drawn i p w -> False) as Hnone.
  { intros i p Hp [Hr|Hin].
    - unfold flags in Hfl. rewrite Forall_lookup in Hfl.
      assert (map rendered (pages (state w)) !! i = Some (rendered p)) as Hl.
      { change (map rendered ?l) with (rendered <$> l).
        by rewrite list_lookup_fmap, Hp. }
      specialize (Hfl i _ Hl). congruence.
    - rewrite Forall_forall in Hrt. apply list_elem_of_In in Hin.
      specialize (Hrt _ Hin). discriminate. }
  split.
  - intros i p c Hp _ Hd. destruct (Hnone i p Hp Hd).
  - intros _ i p Hp Hd. destruct (Hnone i p Hp Hd).
Qed.

(** A step that leaves the canvases, the flags and the sizes alone and
    starts no rasterization. *)
Lemma canvas_frame (w w' : World) :
  canvas_invariant w ->
  (forall i p', pages (state w') !! i = Some p' ->
     exists p, pages (state w) !! i = Some p /\ canvas p' = canvas p
               /\ rendered p' = rendered p /\ width p' = width p
               /\ height p' = height p) ->
  (forall i, RenderAwaitRaster i ∈ pending w' -> RenderAwaitRaster i ∈ pending w) ->
  (phase w' = Dom.Mounted -> phase w = Dom.Mounted) ->
  canvas_invariant w'.
Proof.
  intros [Hm Hb] Hpages Hpend Hph.
  assert (forall i p' p, rendered p' = rendered p -> drawn i p' w' -> drawn i p w) as Hd.
  { intros i p' p Hr [H|H]; [left; congruence|right; auto]. }
  split.
  - intros i p' c Hp' Hc Hdr.
    destruct (Hpages i p' Hp') as (p & Hp & Hcv & Hr & Hw & Hh).
    rewrite Hw, Hh. apply (Hm i p c Hp); [congruence|eauto].
  - intros Hmounted i p' Hp' Hdr.
    destruct (Hpages i p' Hp') as (p & Hp & Hcv & Hr & Hw & Hh).
    rewrite Hcv. apply (Hb (Hph Hmounted) i p Hp). eauto.
Qed.

Lemma same_pages (w w' : World) :
  pages (state w') = pages (state w) ->
  forall i p', pages (state w') !! i = Some p' ->
    exists p, pages (state w) !! i = Some p /\ canvas p' = canvas p
              /\ rendered p' = rendered p /\ width p' = width p
              /\ height p' = height p.
Proof. intros -> i p' Hp'. exists p'. auto. Qed.

Lemma delete_subseteq_elem {A} (l : list A) k x : x ∈ delete k l -> x ∈ l.
Proof.
  intros Hin. apply list_elem_of_lookup_1 in Hin as (i & Hi).
  destruct (lookup_delete_sub _ _ _ _ Hi) as (i' & Hi').
  eapply list_elem_of_lookup_2. exact Hi'.
Qed.


Lemma simple_unloaded_park (w : World) t :
  isLoadTask t = true -> unloaded pdfDoc (park t w).
Proof.
  intros Ht. left. cbn. rewrite loadTasks_app. unfold loadTasks at 2.
  rewrite filter_cons_True by exact Ht.
  intros Hnil. apply app_eq_nil in Hnil as [_ Hnil]. discriminate.
Qed.

Lemma simple_unloaded_catch (w : World) : unloaded pdfDoc (loadPDF_catch w).
Proof.
  right. left. unfold failed. cbn. apply elem_of_app. right. apply list_elem_of_here.
Qed.

Lemma simple_step_canvas e (w : World) :
  numbered w -> SimpleLoading.loading w -> layout_invariant w -> canvas_invariant w ->
  canvas_invariant (step e w).
Proof.
  intros Hn Hl Hf Hc. pose proof Hl as [Hi Ha].
  pose proof (simple_step_loaded e w Hi Ha) as Hi'.
  destruct (unloaded_dec pdfDoc (step e w)) as [Hu'|Hu'].
  { apply quiet_canvas. apply (l_quiet _ _ _ _ Hi' Hu'). }
  clear Hi'. destruct e; cbn in *.
  - (* Mount *)
    destruct (phase w) eqn:Hph; try exact Hc.
    exfalso. apply Hu'. by apply simple_unloaded_park.
  - (* Progress *)
    destruct (phase w) eqn:Hph; try exact Hc.
    all: eapply canvas_frame; try exact Hc; auto;
      apply same_pages; unfold onProgress; destruct (Qlt_le_dec _ _); reflexivity.
  - (* Flush *)
    unfold mounted in *. destruct (phase w) eqn:Hph; try exact Hc.
    unfold flush in *. destruct (Simple.loading (state w)).
    { eapply canvas_frame; try exact Hc; auto. apply same_pages. reflexivity. }
    destruct Hc as [Hm Hb]. specialize (Hb Hph).
    assert (forall i p', map (bindCanvas context2d) (pages (state w)) !! i = Some p' ->
              exists p, pages (state w) !! i = Some p /\ p' = bindCanvas context2d p)
      as Hlook.
    { intros i p' Hp'. change (map ?f ?l) with (f <$> l) in Hp'.
      rewrite list_lookup_fmap in Hp'.
      destruct (pages (state w) !! i) as [p|]; [|discriminate].
      injection Hp' as <-. eauto. }
    split; cbn.
    + intros i p' c Hp' Hcv [Hr|Hin];
        destruct (Hlook i p' Hp') as (p & Hp & ->);
        rewrite ?bindCanvas_rendered in *.
      * destruct (Hb i p Hp (or_introl Hr)) as [c0 Hc0].
        unfold bindCanvas in *. rewrite Hc0 in *.
        apply (Hm i p c Hp Hcv). by left.
      * destruct (Hb i p Hp (or_intror Hin)) as [c0 Hc0].
        unfold bindCanvas in *. rewrite Hc0 in *.
        apply (Hm i p c Hp Hcv). by right.
    + intros _ i p' Hp' _. destruct (Hlook i p' Hp') as (p & Hp & ->).
      unfold bindCanvas. destruct (canvas p) eqn:E; cbn; rewrite ?E; eauto.
  - exact Hc.
  - (* Intersect *)
    destruct (created w !! observer) as [ob|] eqn:Ho; [|exact Hc].
    destruct (Dom.observing ob); [|exact Hc].
    destruct (simple_callback_effect (Dom.closure ob) entries w) as (Hs & Hco & Hp & n & Hpe).
    eapply canvas_frame; try exact Hc.
    + apply same_pages. by rewrite Hs.
    + intros i. rewrite Hpe, elem_of_app. intros [Hin|Hin]; [exact Hin|].
      apply elem_of_replicate in Hin as [? _]. discriminate.
    + by rewrite Hp.
  - (* Settle *)
    destruct (pending w !! k) as [t|] eqn:Hk; [|exact Hc].
    destruct t as [| |j a|j|j]; cbn in *.
    + (* the document *)
      exfalso. apply Hu'. destruct r; [|apply simple_unloaded_catch].
      unfold loadPDF_gotDocument, calculatePageDimensions, calculate_loop. cbn.
      destruct (0 <? _)%nat; by apply simple_unloaded_park.
    + (* the layout has returned *)
      eapply canvas_frame; try exact Hc; auto.
      * apply same_pages. reflexivity.
      * cbn. intros i. apply delete_subseteq_elem.
    + (* a page of the layout pass *)
      exfalso. apply Hu'.
      unfold calculate_gotPage, calculate_loop.
      repeat case_match;
        first [by apply simple_unloaded_park | apply simple_unloaded_catch].
    + (* the page of a render *)
      pose proof (render_pending_loaded pdfDoc flags pageCount w _ k Hi Hk eq_refl) as Hu.
      assert (canvas_invariant (with_pending (delete k (pending w)) w)) as Hc0.
      { eapply canvas_frame; try exact Hc; auto.
        - apply same_pages. reflexivity.
        - cbn. intros i. apply delete_subseteq_elem. }
      unfold renderPage_gotPage, renderPage_catch in *. cbn in *.
      destruct (pages (state w) !! j) as [p|] eqn:Hp; [|exact Hc0].
      assert (forall e0, canvas_invariant
                (log e0 (with_pending (delete k (pending w)) w))) as Hlog.
      { intros e0. eapply canvas_frame; try exact Hc0; auto. apply same_pages. reflexivity. }
      destruct r; [|apply Hlog].
      destruct (pdfDoc (state w)) as [doc|] eqn:Hdoc; cbn in *; [|apply Hlog].
      destruct (Pdfjs.getPage doc (pageNum p)) as [page|] eqn:Hpage; [|apply Hlog].
      destruct (canvas p) as [c|] eqn:Hcv; [|apply Hlog].
      (* the page has its display size, computed from the same engine page *)
      assert (Pdfjs.width (Pdfjs.getViewport page (fitScale (Pdfjs.getViewport page 1)))
              = width p
              /\ Pdfjs.height (Pdfjs.getViewport page (fitScale (Pdfjs.getViewport page 1)))
                 = height p) as [Hw Hh].
      { assert (j < pageCount (state w))%nat as Hj.
        { destruct Hn as [Hnum _]. apply lookup_lt_Some in Hp.
          assert (length (pages (state w)) = pageCount (state w)) as <-; [|exact Hp].
          rewrite <- (length_map pageNum), Hnum. apply length_seq. }
        destruct (f_loaded w Hf Hu j p Hj Hp) as (pg & Hpg & Hpw & Hph).
        rewrite (numbered_lookup w j p Hn Hp) in Hpage.
        destruct Hn as [_ Hd]. rewrite Hdoc in Hd. destruct Hd as [-> _].
        rewrite Hpage in Hpg. injection Hpg as <-.
        cbn in *. split; congruence. }
      cbn in Hw, Hh.
      destruct Hc as [Hm Hb].
      destruct (Dom.context2d c) eqn:Hctx; split; cbn.
      * intros i p' c' Hp' Hc' Hdr. unfold drawn in Hdr. cbn in Hdr. destruct (decide (i = j)) as [->|Hne].
        -- rewrite list_lookup_alter_eq, Hp in Hp'. injection Hp' as <-.
           cbn in Hc'. injection Hc' as <-. cbn.
           by rewrite Hw, Hh.
        -- rewrite list_lookup_alter_ne in Hp' by congruence.
           apply (Hm i p' c' Hp' Hc'). destruct Hdr as [Hr|Hin]; [by left|right].
           apply elem_of_app in Hin as [Hin|Hin]; [by eapply delete_subseteq_elem|].
           apply list_elem_of_singleton in Hin. congruence.
      * intros Hph i p' Hp' Hdr. unfold drawn in Hdr. cbn in Hdr. destruct (decide (i = j)) as [->|Hne].
        -- rewrite list_lookup_alter_eq, Hp in Hp'. injection Hp' as <-. cbn. eauto.
        -- rewrite list_lookup_alter_ne in Hp' by congruence.
           apply (Hb Hph i p' Hp'). destruct Hdr as [Hr|Hin]; [by left|right].
           apply elem_of_app in Hin as [Hin|Hin]; [by eapply delete_subseteq_elem|].
           apply list_elem_of_singleton in Hin. congruence.
      * intros i p' c' Hp' Hc' Hdr. unfold drawn in Hdr. cbn in Hdr. destruct (decide (i = j)) as [->|Hne].
        -- rewrite list_lookup_alter_eq, Hp in Hp'. injection Hp' as <-.
           cbn in Hc'. injection Hc' as <-. cbn.
           by rewrite Hw, Hh.
        -- rewrite list_lookup_alter_ne in Hp' by congruence.
           apply (Hm i p' c' Hp' Hc'). destruct Hdr as [Hr|Hin]; [by left|right].
           by eapply delete_subseteq_elem.
      * intros Hph i p' Hp' Hdr. unfold drawn in Hdr. cbn in Hdr. destruct (decide (i = j)) as [->|Hne].
        -- rewrite list_lookup_alter_eq, Hp in Hp'. injection Hp' as <-. cbn. eauto.
        -- rewrite list_lookup_alter_ne in Hp' by congruence.
           apply (Hb Hph i p' Hp'). destruct Hdr as [Hr|Hin]; [by left|right].
           by eapply delete_subseteq_elem.
    + (* the rasterization of a render *)
      assert (canvas_invariant (with_pending (delete k (pending w)) w)) as Hc0.
      { eapply canvas_frame; try exact Hc; auto.
        - apply same_pages. reflexivity.
        - cbn. intros i. apply delete_subseteq_elem. }
      unfold renderPage_rasterized, renderPage_catch in *. cbn in *.
      destruct (pages (state w) !! j) as [p|] eqn:Hp; [|exact Hc0].
      destruct r.
      2:{ eapply canvas_frame; try exact Hc0; auto. apply same_pages. reflexivity. }
      assert (RenderAwaitRaster j ∈ pending w) as Hin
        by (eapply list_elem_of_lookup_2; exact Hk).
      destruct Hc as [Hm Hb]. split; cbn.
      * intros i p' c' Hp' Hc' Hdr. unfold drawn in Hdr. cbn in Hdr. destruct (decide (i = j)) as [->|Hne].
        -- rewrite list_lookup_alter_eq, Hp in Hp'. injection Hp' as <-.
           cbn in *. apply (Hm j p c' Hp Hc'). by right.
        -- rewrite list_lookup_alter_ne in Hp' by congruence.
           apply (Hm i p' c' Hp' Hc'). destruct Hdr as [Hr|Hin']; [by left|right].
           by eapply delete_subseteq_elem.
      * intros Hph i p' Hp' Hdr. unfold drawn in Hdr. cbn in Hdr. destruct (decide (i = j)) as [->|Hne].
        -- rewrite list_lookup_alter_eq, Hp in Hp'. injection Hp' as <-.
           cbn. apply (Hb Hph j p Hp). by right.
        -- rewrite list_lookup_alter_ne in Hp' by congruence.
           apply (Hb Hph i p' Hp'). destruct Hdr as [Hr|Hin']; [by left|right].
           by eapply delete_subseteq_elem.
  - (* Destroy *)
    unfold mounted in *. destruct (phase w) eqn:Hph; try exact Hc.
    split; cbn.
    + intros i p' c Hp' Hcv. change (map ?f ?l) with (f <$> l) in Hp'.
      rewrite list_lookup_fmap in Hp'.
      destruct (pages (state w) !! i) as [p|]; [|discriminate].
      injection Hp' as <-. discriminate.
    + discriminate.
Qed.
End SimpleCanvasFacts.

Module SimpleReachable.
Import Simple Loading LoadingFacts LoadingSteps SimpleLoading SimpleLoadingFacts.
Import SimpleShape SimpleShapeFacts SimpleLayout SimpleLayoutFacts.
Import SimpleCanvas SimpleCanvasFacts.

Lemma simple_init_numbered doc : numbered (init doc).
Proof. split; reflexivity. Qed.

Lemma simple_init_layout doc : layout_invariant (init doc).
Proof.
  split; cbn.
  - intros k j a Hk. discriminate.
  - intros k Hk. discriminate.
  - intros _ i p Hi. lia.
Qed.

Lemma simple_init_canvas doc : canvas_invariant (init doc).
Proof.
  split; cbn.
  - intros i p c Hp. discriminate.
  - discriminate.
Qed.

Lemma simple_run_canvas events (w : World) :
  numbered w -> SimpleLoading.loading w -> layout_invariant w -> canvas_invariant w ->
  let w' := run events w in
  numbered w' /\ SimpleLoading.loading w' /\ layout_invariant w' /\ canvas_invariant w'.
Proof.
  unfold run, Loop.run. revert w.
  induction events as [|e events IH]; intros w Hn Hl Hf Hc; cbn; [auto|].
  apply IH.
  - by apply step_numbered.
  - apply (simple_run_loading [e] w Hl).
  - by apply simple_step_layout.
  - by apply simple_step_canvas.
Qed.

Lemma simple_drawn_loaded (w : World) i p :
  loading_invariant pdfDoc flags pageCount w ->
  pages (state w) !! i = Some p -> drawn i p w -> ~ unloaded pdfDoc w.
Proof.
  intros Hi Hp Hd Hu. destruct (l_quiet _ _ _ _ Hi Hu) as (_ & _ & Hrt & Hfl).
  destruct Hd as [Hr|Hin].
  - unfold flags in Hfl. rewrite Forall_lookup in Hfl.
    assert (map rendered (pages (state w)) !! i = Some (rendered p)) as Hl.
    { change (map rendered ?l) with (rendered <$> l). by rewrite list_lookup_fmap, Hp. }
    specialize (Hfl i _ Hl). congruence.
  - rewrite Forall_forall in Hrt. apply list_elem_of_In in Hin.
    specialize (Hrt _ Hin). discriminate.
Qed.

End SimpleReachable.

(** ** What every run keeps *)

(** X1.  With [0 <= loaded <= total] and [total > 0], the progress set by
    the callback is a whole number between 0 and 100; it is 100 when
    everything is loaded, and it does not decrease when [loaded] grows.
    Both viewers. *)
Theorem progress_is_a_percentage (loaded loaded' total : Q)
    (s : Simple.ViewerState) (s' : HighQuality.ViewerState) :
  (0 < total)%Q -> (0 <= loaded)%Q -> (loaded <= loaded')%Q -> (loaded' <= total)%Q ->
  let p := Simple.loadingProgress (Simple.onProgress loaded total s) in
  let p' := Simple.loadingProgress (Simple.onProgress loaded' total s) in
  (exists z : Z, (0 <= z <= 100)%Z /\ p = inject_Z z)
  /\ (p <= p')%Q
  /\ Simple.loadingProgress (Simple.onProgress total total s) = 100%Q
  /\ HighQuality.loadingProgress (HighQuality.onProgress loaded total s') = p.
Proof.
  intros Ht Hl Hll Hlt. unfold Simple.onProgress, HighQuality.onProgress.
  destruct (Qlt_le_dec 0 total) as [_|Hle]; [|lra]. cbn.
  split; [|split; [|split; [|reflexivity]]].
  - apply ProgressFacts.round_range; apply ProgressFacts.percentage_range; lra.
  - apply ProgressFacts.round_monotone, ProgressFacts.percentage_monotone; assumption.
  - assert (total / total * 100 == 100)%Q as Hx by (field; lra).
    unfold Math.round. rewrite Hx. reflexivity.
Qed.

Lemma progress_is_a_percentage_witness :
  (exists z : Z, (0 <= z <= 100)%Z
     /\ Simple.loadingProgress (Simple.onProgress 1 3 Simple.initialState) = inject_Z z)
  /\ (Simple.loadingProgress (Simple.onProgress 1 3 Simple.initialState)
      <= Simple.loadingProgress (Simple.onProgress 2 3 Simple.initialState))%Q
  /\ Simple.loadingProgress (Simple.onProgress 3 3 Simple.initialState) = 100%Q
  /\ HighQuality.loadingProgress (HighQuality.onProgress 1 3 HighQuality.initialState)
     = Simple.loadingProgress (Simple.onProgress 1 3 Simple.initialState).
Proof.
  apply (progress_is_a_percentage 1 2 3 Simple.initialState HighQuality.initialState);
    vm_compute; congruence.
Defined.

(** X2.  In every world either viewer can reach from its initial state,
    the page states are numbered 1 to [pageCount] in order, as the
    template's [data-page] and the observers' selector assume; and either
    no document is open and there are no pages, or the open document is
    the one at [pdfUrl] and [pageCount] is its number of pages. *)
Theorem pages_are_numbered (doc : Pdfjs.PDFDocumentProxy) (events : list Event) :
  let w := Simple.run events (Simple.init doc) in
  let v := HighQuality.run events (HighQuality.init doc) in
  (map Simple.pageNum (Simple.pages (state w)) = seq 1 (Simple.pageCount (state w))
   /\ (Simple.pdfDoc (state w) = None /\ Simple.pageCount (state w) = 0%nat
       \/ Simple.pdfDoc (state w) = Some doc
          /\ Simple.pageCount (state w) = Pdfjs.numPages doc))
  /\ (map HighQuality.pageNum (HighQuality.pages (state v))
      = seq 1 (HighQuality.pageCount (state v))
      /\ (HighQuality.pdfDoc (state v) = None /\ HighQuality.pageCount (state v) = 0%nat
          \/ HighQuality.pdfDoc (state v) = Some doc
             /\ HighQuality.pageCount (state v) = Pdfjs.numPages doc)).
Proof.
  intros w v. split.
  - apply SimpleShapeFacts.simple_run_numbered.
  - apply HighQualityShapeFacts.hq_run_numbered_from.
Qed.

(** X3.  The simple viewer renders nothing before [loadPDF] has run to its
    end.  In every world reachable from the initial state, as long as a
    continuation of [loadPDF] (or of the layout pass it awaits) is parked,
    or 'Error loading PDF' has been logged, or no document is open: no
    IntersectionObserver has been constructed, nothing has been
    rasterized, no call of [renderPage] is parked, and no page is flagged
    [rendered].  In particular a failed load is final: no page of that
    component is ever rendered. *)
Theorem simple_load_gates_rendering (doc : Pdfjs.PDFDocumentProxy)
    (events : list Event) :
  let w := Simple.run events (Simple.init doc) in
  Loading.unloaded Simple.pdfDoc w -> Loading.quiet SimpleLoading.flags w.
Proof.
  intros w Hu.
  destruct (SimpleLoadingFacts.simple_run_loading events (Simple.init doc)
              (SimpleLoadingFacts.simple_init_loading doc)) as [Hi _].
  exact (Loading.l_quiet _ _ _ _ Hi Hu).
Qed.

Lemma simple_load_gates_rendering_witness :
  Loading.quiet SimpleLoading.flags
    (Simple.run [Mount; Settle 0 Pdfjs.Rejected; Flush true; Intersect 0 [true]]
       (Simple.init threePages)).
Proof.
  apply (simple_load_gates_rendering threePages
           [Mount; Settle 0 Pdfjs.Rejected; Flush true; Intersect 0 [true]]).
  right. left. vm_compute. constructor.
Defined.

(** X4.  The high-quality viewer renders nothing before [loadPDF] has run
    to its end, resize notifications included: a layout pass started by
    [handleResize] while [loadPDF] is still parked finds no rendered page
    to render again. *)
Theorem hq_load_gates_rendering (doc : Pdfjs.PDFDocumentProxy)
    (events : list Event) :
  let w := HighQuality.run events (HighQuality.init doc) in
  Loading.unloaded HighQuality.pdfDoc w -> Loading.quiet HighQualityLoading.flags w.
Proof.
  intros w Hu.
  pose proof (HighQualityLoadingFacts.hq_run_loading events (HighQuality.init doc)
                (HighQualityLoadingFacts.hq_init_loading doc)) as Hi.
  exact (Loading.l_quiet _ _ _ _ Hi Hu).
Qed.

Lemma hq_load_gates_rendering_witness :
  Loading.quiet HighQualityLoading.flags
    (HighQuality.run [Mount; settled; Flush true; resized 1000 700; Intersect 0 [true]]
       (HighQuality.init threePages)).
Proof.
  apply (hq_load_gates_rendering threePages
           [Mount; settled; Flush true; resized 1000 700; Intersect 0 [true]]).
  left. vm_compute. discriminate.
Defined.

(** X5.  [loadPDF] runs once and in sequence.  In every world either
    viewer can reach from its initial state, at most one continuation of
    [loadPDF] is parked (the load itself, one page fetch of the layout
    pass it awaits, or its resumption after that pass); once 'Error
    loading PDF' has been logged none is, so [setupIntersectionObservers]
    will not run; and no page has been fetched while no document is
    open. *)
Theorem load_runs_once (doc : Pdfjs.PDFDocumentProxy) (events : list Event) :
  let w := Simple.run events (Simple.init doc) in
  let v := HighQuality.run events (HighQuality.init doc) in
  ((length (Loading.loadTasks (pending w)) <= 1)%nat
   /\ (Loading.failed w -> Loading.loadTasks (pending w) = [])
   /\ (Simple.pdfDoc (state w) = None -> getPageCalls w = []))
  /\ ((length (Loading.loadTasks (pending v)) <= 1)%nat
      /\ (Loading.failed v -> Loading.loadTasks (pending v) = [])
      /\ (HighQuality.pdfDoc (state v) = None -> getPageCalls v = [])).
Proof.
  intros w v.
  destruct (SimpleLoadingFacts.simple_run_loading events (Simple.init doc)
              (SimpleLoadingFacts.simple_init_loading doc)) as [Hw _].
  pose proof (HighQualityLoadingFacts.hq_run_loading events (HighQuality.init doc)
                (HighQualityLoadingFacts.hq_init_loading doc)) as Hv.
  fold w in Hw. fold v in Hv.
  split; (split; [|split]).
  - apply (Loading.l_single _ _ _ _ Hw).
  - apply (Loading.l_failed _ _ _ _ Hw).
  - intros Hd. apply (Loading.l_closed _ _ _ _ Hw Hd).
  - apply (Loading.l_single _ _ _ _ Hv).
  - apply (Loading.l_failed _ _ _ _ Hv).
  - intros Hd. apply (Loading.l_closed _ _ _ _ Hv Hd).
Qed.

Lemma load_runs_once_witness :
  Loading.loadTasks
    (pending (Simple.run [Mount; settled; Settle 0 Pdfjs.Rejected]
                (Simple.init threePages))) = [].
Proof.
  pose proof (load_runs_once threePages [Mount; settled; Settle 0 Pdfjs.Rejected])
    as [(_ & Hfailed & _) _].
  apply Hfailed. vm_compute. constructor.
Defined.

(** ** Canvas sizes *)

Module DomFacts.



End DomFacts.



(** ** The observers and their callbacks, one turn at a time *)

(** X7.  The visibility callback of the simple viewer, for the observer
    that closes over [state.pages[i]].  While the guard of [renderPage]
    is closed (no document, page [rendered], or no canvas) the callback
    does nothing, whatever the entries.  While it is open, every entry
    with [isIntersecting] starts its own render: one [getPage] of the
    page's number and one parked call per such entry, since nothing the
    callback does closes the guard; the state, the rasterizer, the console
    and the observers are left alone. *)
Theorem simple_callback_renders_per_entry (i : nat) (entries : list bool)
    (w : Simple.World) (p : Simple.PageState) :
  Simple.pages (state w) !! i = Some p ->
  let w' := Simple.intersectionCallback i entries w in
  (Simple.pdfDoc (state w) = None \/ Simple.rendered p = true \/ Simple.canvas p = None ->
   w' = w)
  /\ (is_Some (Simple.pdfDoc (state w)) -> Simple.rendered p = false ->
      is_Some (Simple.canvas p) ->
      state w' = state w
      /\ pending w'
         = pending w ++ replicate (Coverage.intersecting entries) (RenderAwaitPage i)
      /\ getPageCalls w'
         = getPageCalls w ++ replicate (Coverage.intersecting entries) (Simple.pageNum p)
      /\ renderCalls w' = renderCalls w /\ console w' = console w
      /\ tracker w' = tracker w).
Proof.
  intros Hp w'. split.
  - intros Hg. by apply (CallbackFacts.simple_callback_guarded i entries w p).
  - intros Hdoc Hr Hc. by apply (CallbackFacts.simple_callback_open i entries w p).
Qed.

Lemma simple_callback_renders_per_entry_witness :
  let w := Simple.run openedSimple (Simple.init threePages) in
  let w' := Simple.intersectionCallback 1 [true; false; true] w in
  pending w' = pending w ++ [RenderAwaitPage 1; RenderAwaitPage 1]
  /\ getPageCalls w' = getPageCalls w ++ [2; 2]%nat.
Proof.
  intros w w'.
  assert (exists p, Simple.pages (state w) !! 1%nat = Some p
                    /\ Simple.pageNum p = 2%nat /\ Simple.rendered p = false
                    /\ is_Some (Simple.pdfDoc (state w)) /\ is_Some (Simple.canvas p))
    as (p & Hp & Hnum & Hr & Hd & Hc).
  { vm_compute. eexists. split; [reflexivity|]. split; [reflexivity|].
    split; [reflexivity|]. split; eexists; reflexivity. }
  destruct (simple_callback_renders_per_entry 1 [true; false; true] w p Hp) as [_ H].
  destruct (H Hd Hr Hc) as (_ & Hpend & Hcalls & _).
  rewrite Hnum in Hcalls. split; [exact Hpend|exact Hcalls].
Defined.

(** X8.  The visibility callback of the high-quality viewer: as in the
    simple viewer, it does nothing while the guard of [renderPage] is
    closed, and starts one render per intersecting entry while it is
    open. *)
Theorem hq_callback_renders_per_entry (i : nat) (entries : list bool)
    (w : HighQuality.World) (p : HighQuality.PageState) :
  HighQuality.pages (state w) !! i = Some p ->
  let w' := HighQuality.intersectionCallback i entries w in
  (HighQuality.pdfDoc (state w) = None \/ HighQuality.rendered p = true
   \/ HighQuality.canvas p = None ->
   w' = w)
  /\ (is_Some (HighQuality.pdfDoc (state w)) -> HighQuality.rendered p = false ->
      is_Some (HighQuality.canvas p) ->
      state w' = state w
      /\ pending w'
         = pending w ++ replicate (Coverage.intersecting entries) (RenderAwaitPage i)
      /\ getPageCalls w'
         = getPageCalls w
           ++ replicate (Coverage.intersecting entries) (HighQuality.pageNum p)
      /\ renderCalls w' = renderCalls w /\ console w' = console w
      /\ tracker w' = tracker w).
Proof.
  intros Hp w'. split.
  - intros Hg. by apply (CallbackFacts.hq_callback_guarded i entries w p).
  - intros Hdoc Hr Hc. by apply (CallbackFacts.hq_callback_open i entries w p).
Qed.

Lemma hq_callback_renders_per_entry_witness :
  let w := HighQuality.run (laidOut 1000) (HighQuality.init threePages) in
  let w' := HighQuality.intersectionCallback 2 [true; true; true] w in
  pending w' = pending w ++ [RenderAwaitPage 2; RenderAwaitPage 2; RenderAwaitPage 2]
  /\ getPageCalls w' = getPageCalls w ++ [3; 3; 3]%nat.
Proof.
  intros w w'.
  assert (exists p, HighQuality.pages (state w) !! 2%nat = Some p
                    /\ HighQuality.pageNum p = 3%nat /\ HighQuality.rendered p = false
                    /\ is_Some (HighQuality.pdfDoc (state w))
                    /\ is_Some (HighQuality.canvas p))
    as (p & Hp & Hnum & Hr & Hd & Hc).
  { vm_compute. eexists. split; [reflexivity|]. split; [reflexivity|].
    split; [reflexivity|]. split; eexists; reflexivity. }
  destruct (hq_callback_renders_per_entry 2 [true; true; true] w p Hp) as [_ H].
  destruct (H Hd Hr Hc) as (_ & Hpend & Hcalls & _).
  rewrite Hnum in Hcalls. split; [exact Hpend|exact Hcalls].
Defined.

(** X9.  [setupIntersectionObservers], the body shared by both viewers,
    for [n] page states.  It constructs one observer per page state,
    whether or not the page has an element.  Afterwards every page whose
    element [containerRef] holds is observed by an observer listed in
    [observers] that calls back for that page, and [observers] lists
    nothing but such observers; when [containerRef] is not bound,
    [observers] is left empty and no page is observed. *)
Theorem setup_observes_the_pages_present (containerRef : option (list nat))
    (n : nat) (observers : list nat) (created : list Dom.IntersectionObserver) :
  let acc := setupObservers containerRef n observers created in
  length (snd acc) = (length created + n)%nat
  /\ (forall i, (i < n)%nat -> querySelector containerRef (i + 1) = true ->
        Coverage.observed (fst acc) (snd acc) i)
  /\ (forall o, o ∈ fst acc ->
        exists i, (i < n)%nat /\ querySelector containerRef (i + 1) = true
                  /\ snd acc !! o = Some (Coverage.pageObserver i))
  /\ (containerRef = None -> fst acc = []).
Proof.
  intros acc.
  destruct (CoverageFacts.setupObservers_covering containerRef n observers created)
    as [Hlen Hobs Honly].
  fold acc in Hlen, Hobs, Honly.
  rewrite TrackerFacts.disconnectAll_length in Hlen.
  split; [exact Hlen|]. split; [exact Hobs|]. split; [exact Honly|].
  intros ->. destruct (fst acc) as [|o l] eqn:Hacc; [reflexivity|].
  destruct (Honly o) as (i & _ & Hq & _); [apply list_elem_of_here|]. discriminate.
Qed.

Lemma setup_observes_the_pages_present_witness :
  let w := Simple.run openedSimple (Simple.init threePages) in
  Coverage.observed (observers w) (created w) 2.
Proof.
  intros w.
  pose proof (setup_observes_the_pages_present (Some [1; 2; 3]%nat) 3 [] [])
    as (_ & Hobs & _).
  apply (Hobs 2%nat); [lia|reflexivity].
Defined.

(** ** The requests to the document engine *)

Module SimpleRequestFacts.
Import Simple SimpleShape SimpleShapeFacts Requests.

#[local] Arguments Nat.ltb : simpl never.

Lemma simple_numbered_count (w : World) :
  numbered w ->
  length (pages (state w)) = pageCount (state w)
  /\ (pageCount (state w) <= Pdfjs.numPages (portfolio w))%nat.
Proof.
  intros [Hnum Hdoc]. split.
  - rewrite <- (length_map pageNum), Hnum. apply length_seq.
  - destruct (pdfDoc (state w)) as [d|]; [destruct Hdoc as [-> ->]; lia|lia].
Qed.

Lemma simple_numbered_bound (w : World) i p :
  numbered w -> pages (state w) !! i = Some p ->
  pageNum p = (i + 1)%nat /\ (1 <= pageNum p <= Pdfjs.numPages (portfolio w))%nat.
Proof.
  intros Hn Hp. destruct (simple_numbered_count w Hn) as [Hlen Hle].
  assert (map pageNum (pages (state w)) !! i = Some (pageNum p)) as Hl.
  { change (map pageNum ?l) with (pageNum <$> l). by rewrite list_lookup_fmap, Hp. }
  destruct Hn as [Hnum _]. rewrite Hnum in Hl. apply lookup_seq in Hl as [-> Hlt]. lia.
Qed.

Lemma inRange_frame {State} (w w' : Loop.World State) :
  getPageCalls w' = getPageCalls w -> portfolio w' = portfolio w ->
  inRange w -> inRange w'.
Proof. unfold inRange. intros -> ->. auto. Qed.

Lemma inRange_call {State} (w w' : Loop.World State) n :
  getPageCalls w' = getPageCalls w ++ [n] -> portfolio w' = portfolio w ->
  (1 <= n <= Pdfjs.numPages (portfolio w))%nat ->
  inRange w -> inRange w'.
Proof.
  unfold inRange. intros -> -> Hn Hr. apply Forall_app. split; [exact Hr|].
  constructor; [exact Hn|constructor].
Qed.

Lemma simple_renderPage_requests i (w : World) :
  numbered w -> inRange w -> inRange (renderPage i w).
Proof.
  intros Hn Hr. unfold renderPage.
  destruct (pages (state w) !! i) as [p|] eqn:Hp; [|exact Hr].
  destruct (renderGuard (state w) p); [exact Hr|].
  eapply inRange_call; try exact Hr; try reflexivity.
  apply (simple_numbered_bound w i p Hn Hp).
Qed.

Lemma simple_callback_requests i entries (w : World) :
  numbered w -> inRange w -> inRange (intersectionCallback i entries w).
Proof.
  unfold intersectionCallback. revert w.
  induction entries as [|e entries IH]; intros w Hn Hr; cbn [foldl]; [exact Hr|].
  apply IH.
  - repeat case_match; try exact Hn.
    eapply numbered_frame; [apply renderPage_skeleton|exact Hn].
  - repeat case_match; try exact Hr. by apply simple_renderPage_requests.
Qed.

Lemma simple_calculate_loop_requests i (w : World) :
  (pageCount (state w) <= Pdfjs.numPages (portfolio w))%nat ->
  inRange w -> inRange (calculate_loop i w).
Proof.
  intros Hle Hr. unfold calculate_loop.
  destruct (i <? pageCount (state w))%nat eqn:Hi; [|exact Hr].
  apply Nat.ltb_lt in Hi.
  eapply inRange_call; try exact Hr; try reflexivity. lia.
Qed.

Lemma simple_step_requests e (w : World) :
  numbered w -> inRange w -> inRange (step e w).
Proof.
  intros Hn Hr. destruct (simple_numbered_count w Hn) as [_ Hle]. destruct e; cbn.
  - destruct (phase w); exact Hr.
  - destruct (phase w); exact Hr.
  - unfold flush. repeat case_match; exact Hr.
  - exact Hr.
  - repeat case_match; try exact Hr. by apply simple_callback_requests.
  - destruct (pending w !! k) as [t|]; [|exact Hr].
    destruct t as [| |i a|i|i]; cbn.
    + destruct r; [|exact Hr]. unfold loadPDF_gotDocument, calculatePageDimensions. cbn.
      apply simple_calculate_loop_requests; [cbn; lia|exact Hr].
    + exact Hr.
    + unfold calculate_gotPage. repeat case_match; try exact Hr.
      apply simple_calculate_loop_requests; [exact Hle|exact Hr].
    + unfold renderPage_gotPage, renderPage_catch. repeat case_match; exact Hr.
    + unfold renderPage_rasterized, renderPage_catch. repeat case_match; exact Hr.
  - destruct (mounted w); exact Hr.
Qed.

Lemma simple_run_requests events (w : World) :
  numbered w -> inRange w -> inRange (run events w).
Proof.
  unfold run, Loop.run. revert w.
  induction events as [|e events IH]; intros w Hn Hr; cbn; [exact Hr|].
  apply IH; [by apply step_numbered|by apply simple_step_requests].
Qed.

End SimpleRequestFacts.

Module HighQualityRequestFacts.
Import HighQuality HighQualityShape HighQualityShapeFacts Requests.
Import SimpleRequestFacts.

#[local] Arguments Nat.ltb : simpl never.

Lemma hq_numbered_count (w : World) :
  numbered w ->
  length (pages (state w)) = pageCount (state w)
  /\ (pageCount (state w) <= Pdfjs.numPages (portfolio w))%nat.
Proof.
  intros [Hnum Hdoc]. split.
  - rewrite <- (length_map pageNum), Hnum. apply length_seq.
  - destruct (pdfDoc (state w)) as [d|]; [destruct Hdoc as [-> ->]; lia|lia].
Qed.

Lemma hq_numbered_bound (w : World) i p :
  numbered w -> pages (state w) !! i = Some p ->
  pageNum p = (i + 1)%nat /\ (1 <= pageNum p <= Pdfjs.numPages (portfolio w))%nat.
Proof.
  intros Hn Hp. destruct (hq_numbered_count w Hn) as [Hlen Hle].
  assert (map pageNum (pages (state w)) !! i = Some (pageNum p)) as Hl.
  { change (map pageNum ?l) with (pageNum <$> l). by rewrite list_lookup_fmap, Hp. }
  destruct Hn as [Hnum _]. rewrite Hnum in Hl. apply lookup_seq in Hl as [-> Hlt]. lia.
Qed.

Lemma hq_renderPage_requests i (w : World) :
  numbered w -> inRange w -> inRange (renderPage i w).
Proof.
  intros Hn Hr. unfold renderPage.
  destruct (pages (state w) !! i) as [p|] eqn:Hp; [|exact Hr].
  destruct (renderGuard (state w) p); [exact Hr|].
  eapply inRange_call; try exact Hr; try reflexivity.
  apply (hq_numbered_bound w i p Hn Hp).
Qed.

Lemma hq_callback_requests i entries (w : World) :
  numbered w -> inRange w -> inRange (intersectionCallback i entries w).
Proof.
  unfold intersectionCallback. revert w.
  induction entries as [|e entries IH]; intros w Hn Hr; cbn [foldl]; [exact Hr|].
  apply IH.
  - repeat case_match; try exact Hn.
    eapply hq_numbered_frame; [apply hq_renderPage_skeleton|exact Hn].
  - repeat case_match; try exact Hr. by apply hq_renderPage_requests.
Qed.

Lemma hq_calculate_loop_requests i a (w : World) :
  (pageCount (state w) <= Pdfjs.numPages (portfolio w))%nat ->
  inRange w -> inRange (calculate_loop i a w).
Proof.
  intros Hle Hr. unfold calculate_loop, calculate_return.
  destruct (i <? pageCount (state w))%nat eqn:Hi; [|destruct a; exact Hr].
  apply Nat.ltb_lt in Hi.
  eapply inRange_call; try exact Hr; try reflexivity. lia.
Qed.

Lemma hq_calculatePageDimensions_requests a (w : World) :
  (pageCount (state w) <= Pdfjs.numPages (portfolio w))%nat ->
  inRange w -> inRange (calculatePageDimensions a w).
Proof.
  intros Hle Hr. unfold calculatePageDimensions, calculate_return.
  case_match; [destruct a; exact Hr|]. by apply hq_calculate_loop_requests.
Qed.

Lemma hq_step_requests e (w : World) :
  numbered w -> inRange w -> inRange (step e w).
Proof.
  intros Hn Hr. destruct (hq_numbered_count w Hn) as [_ Hle]. destruct e; cbn.
  - destruct (phase w); exact Hr.
  - destruct (phase w); exact Hr.
  - unfold flush. repeat case_match; exact Hr.
  - destruct (mounted w); [|exact Hr]. unfold handleResize.
    destruct entries as [|entry entries]; [exact Hr|].
    apply hq_calculatePageDimensions_requests; [exact Hle|exact Hr].
  - repeat case_match; try exact Hr. by apply hq_callback_requests.
  - destruct (pending w !! k) as [t|]; [|exact Hr].
    destruct t as [| |i a|i|i]; cbn.
    + destruct r; [|exact Hr]. unfold loadPDF_gotDocument.
      apply hq_calculatePageDimensions_requests; [cbn; lia|exact Hr].
    + exact Hr.
    + unfold calculate_gotPage, calculate_throw.
      destruct r; [|destruct a; exact Hr].
      destruct (_ ≫= _) as [page|]; [|destruct a; exact Hr].
      cbn [state with_pending].
      destruct (pages (state w) !! i) as [p|] eqn:Hp; [|destruct a; exact Hr].
      assert (numbered (with_pending (delete k (pending w)) w)) as Hn0 by exact Hn.
      set (w0 := with_pending (delete k (pending w)) w) in *.
      assert (numbered (update_page i (layoutPage (containerWidth (state w)) page) w0))
        as Hn1 by (eapply hq_numbered_frame; [|exact Hn0]; hq_skel).
      assert (inRange (update_page i (layoutPage (containerWidth (state w)) page) w0))
        as Hr1 by exact Hr.
      set (w1 := update_page i (layoutPage (containerWidth (state w)) page) w0) in *.
      apply hq_calculate_loop_requests.
      * case_match; [|exact Hle].
        assert (skeleton (renderPage i (update_page i (set_rendered false) w1))
                = skeleton w) as [= _ Hc _ Hpf].
        { rewrite hq_renderPage_skeleton. subst w1 w0. hq_skel. }
        rewrite Hc, Hpf. exact Hle.
      * case_match; [|exact Hr1].
        apply hq_renderPage_requests; [|exact Hr1].
        eapply hq_numbered_frame; [|exact Hn1]. hq_skel.
    + unfold renderPage_gotPage, renderPage_catch. repeat case_match; exact Hr.
    + unfold renderPage_rasterized, renderPage_catch. repeat case_match; exact Hr.
  - destruct (mounted w); exact Hr.
Qed.

Lemma hq_run_requests events (w : World) :
  numbered w -> inRange w -> inRange (run events w).
Proof.
  unfold run, Loop.run. revert w.
  induction events as [|e events IH]; intros w Hn Hr; cbn; [exact Hr|].
  apply IH; [by apply hq_step_numbered|by apply hq_step_requests].
Qed.

End HighQualityRequestFacts.

(** X10.  Neither viewer ever asks the document engine for a page the
    document does not have: in every world reachable from the initial
    state, every [getPage(n)] issued so far, by the layout pass or by
    [renderPage], has [1 <= n <= numPages], so the engine has such a
    page. *)
Theorem fetches_are_in_range (doc : Pdfjs.PDFDocumentProxy) (events : list Event) :
  let w := Simple.run events (Simple.init doc) in
  let v := HighQuality.run events (HighQuality.init doc) in
  Forall (fun n => is_Some (Pdfjs.getPage doc n)) (getPageCalls w)
  /\ Forall (fun n => is_Some (Pdfjs.getPage doc n)) (getPageCalls v).
Proof.
  intros w v.
  assert (forall n, (1 <= n <= Pdfjs.numPages doc)%nat -> is_Some (Pdfjs.getPage doc n))
    as Hget.
  { intros [|n] Hn; [lia|]. cbn. apply lookup_lt_is_Some. unfold Pdfjs.numPages in Hn. lia. }
  split.
  - assert (Requests.inRange w) as Hr.
    { apply SimpleRequestFacts.simple_run_requests; [split; reflexivity|constructor]. }
    unfold Requests.inRange in Hr.
    replace (portfolio w) with doc in Hr
      by (symmetry; apply SimpleShapeFacts.simple_run_portfolio).
    revert Hr. apply List.Forall_impl. intros n Hn. by apply Hget.
  - assert (Requests.inRange v) as Hr.
    { apply HighQualityRequestFacts.hq_run_requests; [split; reflexivity|constructor]. }
    unfold Requests.inRange in Hr.
    replace (portfolio v) with doc in Hr
      by (symmetry; apply HighQualityShapeFacts.hq_run_portfolio).
    revert Hr. apply List.Forall_impl. intros n Hn. by apply Hget.
Qed.

(** ** Rejections *)

Module RejectionFacts.
Import Detached.

#[local] Arguments Nat.ltb : simpl never.

Lemma simple_callback_rejections i entries (w : Simple.World) :
  unhandledRejections (Simple.intersectionCallback i entries w) = unhandledRejections w.
Proof.
  unfold Simple.intersectionCallback. revert w.
  induction entries as [|e entries IH]; intros w; cbn [foldl]; [reflexivity|].
  rewrite IH. unfold Simple.renderPage. repeat case_match; reflexivity.
Qed.

Lemma simple_step_rejections e (w : Simple.World) :
  unhandledRejections (Simple.step e w) = unhandledRejections w.
Proof.
  destruct e; cbn.
  - destruct (phase w); reflexivity.
  - destruct (phase w); reflexivity.
  - unfold Simple.flush. repeat case_match; reflexivity.
  - reflexivity.
  - repeat case_match; try reflexivity. apply simple_callback_rejections.
  - destruct (pending w !! k) as [t|]; [|reflexivity].
    destruct t as [| |i a|i|i]; cbn;
      unfold Simple.loadPDF_gotDocument, Simple.calculate_gotPage,
        Simple.calculatePageDimensions, Simple.calculate_loop, Simple.loadPDF_catch,
        Simple.renderPage_gotPage, Simple.renderPage_rasterized, Simple.renderPage_catch;
      repeat case_match; reflexivity.
  - destruct (Simple.mounted w); reflexivity.
Qed.

Lemma hq_callback_rejections i entries (w : HighQuality.World) :
  unhandledRejections (HighQuality.intersectionCallback i entries w)
  = unhandledRejections w.
Proof.
  unfold HighQuality.intersectionCallback. revert w.
  induction entries as [|e entries IH]; intros w; cbn [foldl]; [reflexivity|].
  rewrite IH. unfold HighQuality.renderPage. repeat case_match; reflexivity.
Qed.

Lemma awaited_delete {State} (w : World State) k :
  awaited w -> awaited (with_pending (delete k (pending w)) w).
Proof.
  unfold awaited. cbn. apply Forall_delete.
Qed.

Ltac parked :=
  unfold awaited in *; cbn;
  rewrite ?Forall_app; repeat split; auto; repeat constructor.

(** Without a resize notification no detached pass starts, and no
    rejection goes unhandled. *)
Lemma hq_step_awaited e (w : HighQuality.World) :
  isResize e = false -> awaited w ->
  awaited (HighQuality.step e w)
  /\ unhandledRejections (HighQuality.step e w) = unhandledRejections w.
Proof.
  intros He Ha. destruct e; try discriminate He; cbn.
  - destruct (phase w); split; try reflexivity; try exact Ha. parked.
  - destruct (phase w); split; try reflexivity; exact Ha.
  - unfold HighQuality.flush. repeat case_match; split; try reflexivity; exact Ha.
  - destruct (created w !! observer) as [ob|]; [|by split].
    destruct (Dom.observing ob); [|by split].
    split; [|apply hq_callback_rejections].
    destruct (HighQualityLoadingFacts.hq_callback_effect (Dom.closure ob) entries w)
      as (_ & _ & _ & n & Hn).
    unfold awaited. rewrite Hn. apply Forall_app. split; [exact Ha|].
    apply Forall_replicate. reflexivity.
  - destruct (pending w !! k) as [t|] eqn:Hk; [|by split].
    assert (detached t = false) as Ht.
    { unfold awaited in Ha. rewrite Forall_lookup in Ha. by apply (Ha k). }
    pose proof (awaited_delete w k Ha) as Ha0.
    set (w0 := with_pending (delete k (pending w)) w) in *.
    assert (unhandledRejections w0 = unhandledRejections w) as <- by reflexivity.
    clearbody w0.
    destruct t as [| |i a|i|i]; cbn.
    + unfold HighQuality.loadPDF_gotDocument, HighQuality.calculatePageDimensions,
        HighQuality.calculate_loop, HighQuality.calculate_return,
        HighQuality.loadPDF_catch.
      repeat case_match; split; try reflexivity; parked.
    + split; [exact Ha0|reflexivity].
    + destruct a; [|discriminate Ht].
      unfold HighQuality.calculate_gotPage, HighQuality.calculate_loop,
        HighQuality.calculate_return, HighQuality.calculate_throw,
        HighQuality.loadPDF_catch, HighQuality.renderPage.
      repeat case_match; split; try reflexivity; parked.
    + unfold HighQuality.renderPage_gotPage, HighQuality.renderPage_catch.
      repeat case_match; split; try reflexivity; parked.
    + unfold HighQuality.renderPage_rasterized, HighQuality.renderPage_catch.
      repeat case_match; split; try reflexivity; parked.
  - destruct (HighQuality.mounted w); split; try reflexivity; exact Ha.
Qed.

Lemma hq_run_awaited events (w : HighQuality.World) :
  awaited w ->
  unhandledRejections (HighQuality.run (withoutResize events) w) = unhandledRejections w.
Proof.
  unfold HighQuality.run, Loop.run, withoutResize. revert w.
  induction events as [|e events IH]; intros w Ha; [reflexivity|].
  destruct (isResize e) eqn:He.
  - rewrite filter_cons_False by (rewrite He; discriminate). by apply IH.
  - rewrite filter_cons_True by exact He. cbn [foldl].
    destruct (hq_step_awaited e w He Ha) as [Ha' Hu'].
    rewrite IH by exact Ha'. exact Hu'.
Qed.

End RejectionFacts.

(** X11.  Every rejection is caught, except in a layout pass started by
    [handleResize].  The simple viewer never leaves a rejection
    unhandled, whatever happens: [loadPDF] and [renderPage] catch what
    they await, and [calculatePageDimensions] is only called awaited by
    [loadPDF].  The same holds of the high-quality viewer in every run
    without resize notifications. *)
Theorem rejections_are_caught (doc : Pdfjs.PDFDocumentProxy) (events : list Event) :
  unhandledRejections (Simple.run events (Simple.init doc)) = 0%nat
  /\ unhandledRejections
       (HighQuality.run (withoutResize events) (HighQuality.init doc)) = 0%nat.
Proof.
  split.
  - assert (forall w : Simple.World,
              unhandledRejections (Simple.run events w) = unhandledRejections w) as Hrun.
    { unfold Simple.run, Loop.run.
      induction events as [|e events IH]; intros w; cbn; [reflexivity|].
      by rewrite IH, RejectionFacts.simple_step_rejections. }
    apply Hrun.
  - rewrite RejectionFacts.hq_run_awaited; [reflexivity|constructor].
Qed.

(** ** What a page of the simple viewer keeps *)

Module SimplePermanence.
Import Simple Loading LoadingFacts LoadingSteps SimpleLoading SimpleLoadingFacts.
Import SimpleCanvas SimpleReachable.

#[local] Arguments Nat.ltb : simpl never.

(** What a page keeps once it is rendered. *)
Lemma simple_step_rendered e (w : World) i p :
  SimpleLoading.loading w ->
  pages (state w) !! i = Some p -> rendered p = true ->
  exists p', pages (state (step e w)) !! i = Some p' /\ rendered p' = true
             /\ pageNum p' = pageNum p /\ width p' = width p /\ height p' = height p.
Proof.
  intros [Hi Ha] Hp Hr.
  pose proof (simple_drawn_loaded w i p Hi Hp (or_introl Hr)) as Hu.
  assert (forall f : PageState -> PageState,
            (forall q, rendered q = true -> rendered (f q) = true)
            -> (forall q, pageNum (f q) = pageNum q /\ width (f q) = width q
                          /\ height (f q) = height q) ->
            exists p', map f (pages (state w)) !! i = Some p' /\ rendered p' = true
                       /\ pageNum p' = pageNum p /\ width p' = width p
                       /\ height p' = height p) as Hmap.
  { intros f Hfr Hf. exists (f p). change (map f ?l) with (f <$> l).
    rewrite list_lookup_fmap, Hp. destruct (Hf p) as (? & ? & ?). auto. }
  assert (forall j (f : PageState -> PageState),
            (forall q, rendered q = true -> rendered (f q) = true)
            -> (forall q, pageNum (f q) = pageNum q /\ width (f q) = width q
                          /\ height (f q) = height q) ->
            exists p', alter f j (pages (state w)) !! i = Some p' /\ rendered p' = true
                       /\ pageNum p' = pageNum p /\ width p' = width p
                       /\ height p' = height p) as Halter.
  { intros j f Hfr Hf. destruct (decide (i = j)) as [->|Hne].
    - exists (f p). rewrite list_lookup_alter_eq, Hp. destruct (Hf p) as (? & ? & ?). auto.
    - exists p. rewrite list_lookup_alter_ne by congruence. auto. }
  assert (exists p', pages (state w) !! i = Some p' /\ rendered p' = true
                     /\ pageNum p' = pageNum p /\ width p' = width p
                     /\ height p' = height p) as Hsame by (exists p; auto).
  destruct e; cbn.
  - destruct (phase w); exact Hsame.
  - destruct (phase w); [exact Hsame| |];
      unfold onProgress; destruct (Qlt_le_dec _ _); exact Hsame.
  - destruct (mounted w); [|exact Hsame]. unfold flush.
    destruct (Simple.loading (state w)); [exact Hsame|]. cbn.
    apply Hmap; intros q; unfold bindCanvas; destruct (canvas q); auto.
  - exact Hsame.
  - destruct (created w !! observer) as [ob|]; [|exact Hsame].
    destruct (Dom.observing ob); [|exact Hsame].
    destruct (simple_callback_effect (Dom.closure ob) entries w) as (-> & _).
    exact Hsame.
  - destruct (pending w !! k) as [t|] eqn:Hk; [|exact Hsame].
    destruct t as [| |j a|j|j].
    + destruct Hu. by apply (load_pending_unloaded pdfDoc w _ k Hk).
    + destruct Hu. by apply (load_pending_unloaded pdfDoc w _ k Hk).
    + destruct Hu. apply (load_pending_unloaded pdfDoc w _ k Hk).
      unfold attached in Ha. rewrite Forall_lookup in Ha. specialize (Ha k _ Hk).
      destruct a; [reflexivity|contradiction].
    + cbn. unfold renderPage_gotPage, renderPage_catch. cbn.
      repeat case_match; try exact Hsame; cbn; apply Halter; auto.
    + cbn. unfold renderPage_rasterized, renderPage_catch. cbn.
      repeat case_match; try exact Hsame; cbn; apply Halter; auto.
  - destruct (mounted w); [|exact Hsame]. cbn. apply Hmap; auto.
Qed.

Lemma simple_run_rendered events (w : World) i p :
  SimpleLoading.loading w ->
  pages (state w) !! i = Some p -> rendered p = true ->
  exists p', pages (state (run events w)) !! i = Some p' /\ rendered p' = true
             /\ pageNum p' = pageNum p /\ width p' = width p /\ height p' = height p.
Proof.
  unfold run, Loop.run. revert w p.
  induction events as [|e events IH]; intros w p Hl Hp Hr; cbn; [exists p; auto|].
  destruct (simple_step_rendered e w i p Hl Hp Hr) as (p1 & Hp1 & Hr1 & Hn1 & Hw1 & Hh1).
  destruct (IH (step e w) p1 (simple_run_loading [e] w Hl) Hp1 Hr1)
    as (p' & Hp' & Hr' & Hn' & Hw' & Hh').
  exists p'. repeat split; congruence.
Qed.

End SimplePermanence.

(** X12.  In the simple viewer a rendered page stays rendered.  From any
    world reachable from the initial state in which page [i] is flagged
    [rendered], whatever happens next (resize notifications, the
    destruction of the component and late settlements included) the page
    is still there, still flagged [rendered], with the same number and the
    same display size: nothing in this viewer clears the flag or lays a
    page out again. *)
Theorem simple_rendered_is_permanent (doc : Pdfjs.PDFDocumentProxy)
    (events later : list Event) (i : nat) (p : Simple.PageState) :
  let w := Simple.run events (Simple.init doc) in
  Simple.pages (state w) !! i = Some p -> Simple.rendered p = true ->
  exists p', Simple.pages (state (Simple.run later w)) !! i = Some p'
             /\ Simple.rendered p' = true /\ Simple.pageNum p' = Simple.pageNum p
             /\ Simple.width p' = Simple.width p /\ Simple.height p' = Simple.height p.
Proof.
  intros w Hp Hr. apply SimplePermanence.simple_run_rendered; [|exact Hp|exact Hr].
  apply SimpleLoadingFacts.simple_run_loading, SimpleLoadingFacts.simple_init_loading.
Qed.

Lemma simple_rendered_is_permanent_witness :
  let w := Simple.run firstPageRenderedSimple (Simple.init threePages) in
  exists p p',
    Simple.pages (state w) !! 0%nat = Some p
    /\ Simple.pages (state (Simple.run [resized 500 700; Intersect 0 [true]; Destroy] w))
         !! 0%nat = Some p'
    /\ Simple.rendered p' = true /\ Simple.pageNum p' = Simple.pageNum p
    /\ Simple.width p' = Simple.width p /\ Simple.height p' = Simple.height p.
Proof.
  intros w.
  assert (exists p, Simple.pages (state w) !! 0%nat = Some p /\ Simple.rendered p = true)
    as (p & Hp & Hr).
  { vm_compute. eexists. split; reflexivity. }
  destruct (simple_rendered_is_permanent threePages firstPageRenderedSimple
              [resized 500 700; Intersect 0 [true]; Destroy] 0 p Hp Hr)
    as (p' & Hp' & H).
  exists p, p'. split; [exact Hp|]. split; [exact Hp'|exact H].
Defined.

(** X13.  The simple viewer lays every page out before it observes any.
    In every world reachable from the initial state in which [loadPDF] is
    about to call [setupIntersectionObservers], or an observer has been
    constructed, or [loadPDF] has run to its end without error, every page
    state [i] has the display size of page [i + 1] of the document at
    [Math.min(MAX_WIDTH / viewport.width, 1.5)]. *)
Theorem simple_layout_precedes_observers (doc : Pdfjs.PDFDocumentProxy)
    (events : list Event) (i : nat) (p : Simple.PageState) :
  let w := Simple.run events (Simple.init doc) in
  LoadAwaitLayout ∈ pending w \/ created w <> []
  \/ ~ Loading.unloaded Simple.pdfDoc w ->
  Simple.pages (state w) !! i = Some p ->
  exists page,
    Pdfjs.getPage doc (i + 1) = Some page
    /\ let viewport :=
         Pdfjs.getViewport page (Simple.fitScale (Pdfjs.getViewport page 1)) in
       Simple.width p = Pdfjs.width viewport /\ Simple.height p = Pdfjs.height viewport.
Proof.
  intros w Hwhen Hp.
  destruct (SimpleReachable.simple_run_canvas events (Simple.init doc)
              (SimpleReachable.simple_init_numbered doc)
              (SimpleLoadingFacts.simple_init_loading doc)
              (SimpleReachable.simple_init_layout doc)
              (SimpleReachable.simple_init_canvas doc)) as (Hn & [Hi Ha] & Hf & _).
  fold w in Hn, Hi, Ha, Hf.
  assert (i < Simple.pageCount (state w))%nat as Hlt.
  { destruct Hn as [Hnum _]. apply lookup_lt_Some in Hp.
    assert (length (Simple.pages (state w)) = Simple.pageCount (state w)) as <-;
      [|exact Hp].
    rewrite <- (length_map Simple.pageNum), Hnum. apply length_seq. }
  assert (SimpleLayout.laidOutUpTo (Simple.pageCount (state w)) w) as Hall.
  { destruct Hwhen as [Hin|[Hc|Hu]].
    - apply list_elem_of_lookup_1 in Hin as (k & Hk).
      apply (SimpleLayout.f_done w Hf k Hk).
    - apply (SimpleLayout.f_loaded w Hf). intros Hu.
      destruct (Loading.l_quiet _ _ _ _ Hi Hu) as (Hcr & _). contradiction.
    - apply (SimpleLayout.f_loaded w Hf Hu). }
  destruct (Hall i p Hlt Hp) as (page & Hpage & Hw & Hh).
  assert (portfolio w = doc) as Hpf
    by (subst w; apply SimpleShapeFacts.simple_run_portfolio).
  rewrite Hpf in Hpage. exists page. split; [exact Hpage|]. cbn in *. auto.
Qed.

Lemma simple_layout_precedes_observers_witness :
  let w := Simple.run openedSimple (Simple.init threePages) in
  exists p,
    Simple.pages (state w) !! 2%nat = Some p
    /\ exists page,
         Pdfjs.getPage threePages (2 + 1) = Some page
         /\ let viewport :=
              Pdfjs.getViewport page (Simple.fitScale (Pdfjs.getViewport page 1)) in
            Simple.width p = Pdfjs.width viewport
            /\ Simple.height p = Pdfjs.height viewport.
Proof.
  intros w. eexists. split; [lazy; reflexivity|].
  apply (simple_layout_precedes_observers threePages openedSimple 2).
  - right. left. vm_compute. discriminate.
  - vm_compute. reflexivity.
Defined.

(** ** The layout of the high-quality viewer *)

Module HighQualityLayoutFacts.
Import HighQuality HighQualityFacts HighQualityShape HighQualityShapeFacts.
Import HighQualityLayout.

Lemma layout_kept doc i (p p' : PageState) :
  layout p' = layout p -> fresh p \/ scaled doc i p -> fresh p' \/ scaled doc i p'.
Proof.
  unfold layout, fresh, scaled. intros [= -> -> -> -> ->]. auto.
Qed.

Lemma coherent_pages (w w' : World) :
  pages (state w') = pages (state w) -> portfolio w' = portfolio w ->
  coherent w -> coherent w'.
Proof. unfold coherent. intros -> ->. auto. Qed.

Lemma coherent_alter (w w' : World) j (f : PageState -> PageState) :
  pages (state w') = alter f j (pages (state w)) -> portfolio w' = portfolio w ->
  (forall q, layout (f q) = layout q) ->
  coherent w -> coherent w'.
Proof.
  unfold coherent. intros -> -> Hf Hc i p' Hp'.
  destruct (decide (i = j)) as [->|Hne].
  - rewrite list_lookup_alter_eq in Hp'.
    destruct (pages (state w) !! j) as [p|] eqn:Hp; [|discriminate].
    cbn in Hp'. injection Hp' as <-. apply (layout_kept _ _ p); [apply Hf|]. by apply Hc.
  - rewrite list_lookup_alter_ne in Hp' by congruence. by apply Hc.
Qed.

Lemma coherent_map (w w' : World) (f : PageState -> PageState) :
  pages (state w') = map f (pages (state w)) -> portfolio w' = portfolio w ->
  (forall q, layout (f q) = layout q) ->
  coherent w -> coherent w'.
Proof.
  unfold coherent. intros -> -> Hf Hc i p' Hp'.
  change (map f ?l) with (f <$> l) in Hp'. rewrite list_lookup_fmap in Hp'.
  destruct (pages (state w) !! i) as [p|] eqn:Hp; [|discriminate].
  cbn in Hp'. injection Hp' as <-. apply (layout_kept _ _ p); [apply Hf|]. by apply Hc.
Qed.

Lemma coherent_newPages n i p : newPages n !! i = Some p -> fresh p.
Proof.
  unfold newPages. change (map ?f ?l) with (f <$> l). rewrite list_lookup_fmap.
  destruct (seq 0 n !! i); [|discriminate]. cbn. intros [= <-]. repeat split.
Qed.

Lemma hq_callback_state i entries (w : World) :
  state (intersectionCallback i entries w) = state w.
Proof.
  unfold intersectionCallback. revert w.
  induction entries as [|e entries IH]; intros w; cbn [foldl]; [reflexivity|].
  rewrite IH. repeat case_match; try reflexivity. apply hq_renderPage_state.
Qed.

Lemma hq_calculatePageDimensions_state a (w : World) :
  state (calculatePageDimensions a w) = state w.
Proof.
  unfold calculatePageDimensions, calculate_return.
  case_match; [destruct a; reflexivity|apply hq_calculate_loop_state].
Qed.

Lemma hq_step_coherent e (w : World) :
  numbered w -> coherent w -> coherent (step e w).
Proof.
  intros Hn Hc. pose proof (hq_step_portfolio e w) as Hpf. revert Hpf.
  destruct e; cbn.
  - destruct (phase w); intros Hpf; exact Hc.
  - destruct (phase w); intros Hpf; try exact Hc;
      (eapply (coherent_pages w); [|reflexivity|exact Hc]);
      cbn; unfold onProgress; destruct (Qlt_le_dec _ _); reflexivity.
  - destruct (mounted w); intros Hpf; [|exact Hc]. unfold flush.
    destruct (loading (state w)); [exact Hc|].
    eapply (coherent_map w); [reflexivity|reflexivity| |exact Hc].
    intros q. unfold bindCanvas. destruct (canvas q); reflexivity.
  - destruct (mounted w); intros Hpf; [|exact Hc].
    eapply (coherent_pages w); [|exact Hpf|exact Hc].
    unfold handleResize. destruct entries as [|entry entries]; [reflexivity|].
    rewrite hq_calculatePageDimensions_state. reflexivity.
  - destruct (created w !! observer) as [ob|]; [|intros _; exact Hc].
    destruct (Dom.observing ob); [|intros _; exact Hc]. intros Hpf.
    eapply (coherent_pages w); [|exact Hpf|exact Hc]. by rewrite hq_callback_state.
  - destruct (pending w !! k) as [t|] eqn:Hk; [|intros _; exact Hc].
    destruct t as [| |i a|i|i]; cbn; intros Hpf.
    + destruct r.
      * unfold loadPDF_gotDocument in *. intros j p Hp.
        rewrite hq_calculatePageDimensions_state in Hp. cbn in Hp.
        left. by eapply coherent_newPages.
      * eapply (coherent_pages w); [|exact Hpf|exact Hc]. reflexivity.
    + exact Hc.
    + unfold calculate_gotPage, calculate_throw in *.
      destruct r; [|eapply (coherent_pages w); [|exact Hpf|exact Hc]; by destruct a].
      cbn [state with_pending] in *.
      destruct (pdfDoc (state w)) as [doc|] eqn:Hdoc; cbn [mbind option_bind] in *;
        [|eapply (coherent_pages w); [|exact Hpf|exact Hc]; by destruct a].
      destruct (Pdfjs.getPage doc (i + 1)) as [page|] eqn:Hpage;
        [|eapply (coherent_pages w); [|exact Hpf|exact Hc]; by destruct a].
      destruct (pages (state w) !! i) as [p|] eqn:Hp;
        [|eapply (coherent_pages w); [|exact Hpf|exact Hc]; by destruct a].
      assert (doc = portfolio w) as ->.
      { destruct Hn as [_ Hd]. rewrite Hdoc in Hd. by destruct Hd. }
      set (laid := layoutPage (containerWidth (state w)) page) in *.
      assert (forall w1 : World,
                portfolio w1 = portfolio w ->
                pages (state w1) = alter laid i (pages (state w)) -> coherent w1)
        as Hlaid.
      { intros w1 Hpf1 Hp1 j q Hq. rewrite Hp1 in Hq. rewrite Hpf1.
        destruct (decide (j = i)) as [->|Hne].
        - rewrite list_lookup_alter_eq, Hp in Hq. injection Hq as <-.
          right. exists page. split; [exact Hpage|]. repeat split.
        - rewrite list_lookup_alter_ne in Hq by congruence. by apply Hc. }
      intros j q Hq. rewrite hq_calculate_loop_state in Hq. rewrite Hpf.
      destruct (rendered p && bool_decide (is_Some (canvas p))).
      * rewrite hq_renderPage_state in Hq. cbn in Hq.
        destruct (decide (j = i)) as [->|Hne].
        -- rewrite !list_lookup_alter_eq, Hp in Hq. injection Hq as <-.
           right. exists page. split; [exact Hpage|]. repeat split.
        -- rewrite !list_lookup_alter_ne in Hq by congruence. by apply Hc.
      * apply (Hlaid (update_page i laid (with_pending (delete k (pending w)) w)));
          [reflexivity|reflexivity|exact Hq].
    + unfold renderPage_gotPage, renderPage_catch in *. cbn in *.
      repeat case_match; try exact Hc.
      all: try (eapply (coherent_pages w); [|exact Hpf|exact Hc]; reflexivity).
      all: eapply (coherent_alter w); [reflexivity|reflexivity| |exact Hc]; reflexivity.
    + unfold renderPage_rasterized, renderPage_catch in *. cbn in *.
      repeat case_match; try exact Hc.
      all: try (eapply (coherent_pages w); [|exact Hpf|exact Hc]; reflexivity).
      all: eapply (coherent_alter w); [reflexivity|reflexivity| |exact Hc]; reflexivity.
  - destruct (mounted w); intros Hpf; [|exact Hc].
    eapply (coherent_map w); [reflexivity|reflexivity| |exact Hc]. reflexivity.
Qed.

Lemma hq_run_coherent events (w : World) :
  numbered w -> coherent w -> coherent (run events w).
Proof.
  unfold run, Loop.run. revert w.
  induction events as [|e events IH]; intros w Hn Hc; cbn; [exact Hc|].
  apply IH; [by apply hq_step_numbered|by apply hq_step_coherent].
Qed.

End HighQualityLayoutFacts.

(** X14.  The layout of a page of the high-quality viewer is always
    coherent.  In every world reachable from the initial state a page
    state [i] either still has the layout [loadPDF] gave it (all sizes 0
    and [scale] 1), or [actualWidth] and [actualHeight] are the natural
    size of page [i + 1] of the document and [width] and [height] are that
    size times [scale]: resizes, renders and failures never leave a page
    with a display size that does not match its scale. *)
Theorem hq_layout_is_coherent (doc : Pdfjs.PDFDocumentProxy) (events : list Event)
    (i : nat) (p : HighQuality.PageState) :
  let w := HighQuality.run events (HighQuality.init doc) in
  HighQuality.pages (state w) !! i = Some p ->
  HighQualityLayout.fresh p \/ HighQualityLayout.scaled doc i p.
Proof.
  intros w Hp.
  assert (HighQualityLayout.coherent w) as Hc.
  { apply HighQualityLayoutFacts.hq_run_coherent; [split; reflexivity|].
    intros j q Hq. discriminate. }
  assert (portfolio w = doc) as Hpf
    by (subst w; apply HighQualityShapeFacts.hq_run_portfolio).
  rewrite <- Hpf. by apply Hc.
Qed.

Lemma hq_layout_is_coherent_witness :
  let w := HighQuality.run resizedMidRender (HighQuality.init threePages) in
  exists p,
    HighQuality.pages (state w) !! 0%nat = Some p
    /\ (HighQualityLayout.fresh p \/ HighQualityLayout.scaled threePages 0 p).
Proof.
  intros w. eexists. split; [lazy; reflexivity|].
  apply (hq_layout_is_coherent threePages resizedMidRender 0).
  vm_compute. reflexivity.
Defined.

Module UnmeasuredFacts.
Import HighQuality HighQualityFacts HighQualityShape HighQualityShapeFacts.
Import HighQualityLayout HighQualityLayoutFacts Unmeasured.

Lemma fresh_kept (p p' : PageState) : layout p' = layout p -> fresh p -> fresh p'.
Proof. unfold layout, fresh. intros [= -> -> -> -> ->]. auto. Qed.

Lemma unmeasured_frame (w w' : World) :
  unmeasured w ->
  containerWidth (state w') = containerWidth (state w) ->
  (forall i p', pages (state w') !! i = Some p' ->
     exists p, pages (state w) !! i = Some p /\ layout p' = layout p) ->
  (forall t, t ∈ pending w' -> t ∈ pending w \/ isLayoutTask t = false) ->
  portfolio w' = portfolio w -> renderCalls w' = renderCalls w ->
  unmeasured w'.
Proof.
  intros [Hw Hf Hp Hc] Hcw Hpages Hpend Hpf Hrc. split.
  - congruence.
  - intros i p' Hp'. destruct (Hpages i p' Hp') as (p & Hpp & Hl).
    apply (fresh_kept p); [exact Hl|]. by apply (Hf i).
  - rewrite list.Forall_forall in *. intros t Ht.
    destruct (Hpend t Ht) as [Hin|Hl]; [by apply Hp|exact Hl].
  - by rewrite Hpf, Hrc.
Qed.

Lemma pages_same (w w' : World) :
  pages (state w') = pages (state w) ->
  forall i p', pages (state w') !! i = Some p' ->
    exists p, pages (state w) !! i = Some p /\ layout p' = layout p.
Proof. intros -> i p' Hp'. by exists p'. Qed.

Lemma pages_alter (w w' : World) j (f : PageState -> PageState) :
  pages (state w') = alter f j (pages (state w)) ->
  (forall q, layout (f q) = layout q) ->
  forall i p', pages (state w') !! i = Some p' ->
    exists p, pages (state w) !! i = Some p /\ layout p' = layout p.
Proof.
  intros -> Hf i p' Hp'. destruct (decide (i = j)) as [->|Hne].
  - rewrite list_lookup_alter_eq in Hp'.
    destruct (pages (state w) !! j) as [p|] eqn:Hp; [|discriminate].
    cbn in Hp'. injection Hp' as <-. exists p. auto.
  - rewrite list_lookup_alter_ne in Hp' by congruence. by exists p'.
Qed.

Lemma pages_map (w w' : World) (f : PageState -> PageState) :
  pages (state w') = map f (pages (state w)) ->
  (forall q, layout (f q) = layout q) ->
  forall i p', pages (state w') !! i = Some p' ->
    exists p, pages (state w) !! i = Some p /\ layout p' = layout p.
Proof.
  intros -> Hf i p' Hp'. change (map f ?l) with (f <$> l) in Hp'.
  rewrite list_lookup_fmap in Hp'.
  destruct (pages (state w) !! i) as [p|] eqn:Hp; [|discriminate].
  cbn in Hp'. injection Hp' as <-. exists p. auto.
Qed.

Lemma pending_same {State} (w w' : Loop.World State) :
  pending w' = pending w ->
  forall t, t ∈ pending w' -> t ∈ pending w \/ isLayoutTask t = false.
Proof. intros -> t Ht. by left. Qed.

Lemma pending_parked {State} (w w' : Loop.World State) t0 :
  pending w' = pending w ++ [t0] -> isLayoutTask t0 = false ->
  forall t, t ∈ pending w' -> t ∈ pending w \/ isLayoutTask t = false.
Proof.
  intros -> Ht0 t Ht. apply elem_of_app in Ht as [Ht|Ht]; [by left|].
  apply list_elem_of_singleton in Ht as ->. by right.
Qed.

Lemma unmeasured_delete (w : World) k :
  unmeasured w -> unmeasured (with_pending (delete k (pending w)) w).
Proof.
  intros [Hw Hf Hp Hc]. split; try assumption. cbn. by apply Forall_delete.
Qed.

(** With the container unmeasured a layout pass returns at once. *)
Lemma unmeasured_calculate a (w : World) :
  containerWidth (state w) = 0%Q ->
  calculatePageDimensions a w = calculate_return a w.
Proof.
  intros Hw. unfold calculatePageDimensions. rewrite Hw.
  by rewrite orb_true_r.
Qed.

Lemma hq_renderPage_unmeasured i (w : World) :
  unmeasured w -> unmeasured (renderPage i w).
Proof.
  intros Hu. unfold renderPage. repeat case_match; try exact Hu.
  eapply (unmeasured_frame _ _ Hu); try reflexivity.
  - apply pages_same. reflexivity.
  - eapply pending_parked; reflexivity.
Qed.

Lemma hq_callback_unmeasured i entries (w : World) :
  unmeasured w -> unmeasured (intersectionCallback i entries w).
Proof.
  unfold intersectionCallback. revert w.
  induction entries as [|e entries IH]; intros w Hu; cbn [foldl]; [exact Hu|].
  apply IH. repeat case_match; try exact Hu. by apply hq_renderPage_unmeasured.
Qed.

Lemma hq_step_unmeasured e (w : World) :
  isResize e = false -> numbered w -> unmeasured w -> unmeasured (step e w).
Proof.
  intros He Hn Hu. destruct e; try discriminate He; cbn.
  - destruct (phase w); try exact Hu.
    eapply (unmeasured_frame _ _ Hu); try reflexivity.
    + apply pages_same. reflexivity.
    + eapply pending_parked; reflexivity.
  - destruct (phase w); try exact Hu.
    all: eapply (unmeasured_frame _ _ Hu); try reflexivity;
      try (apply pending_same; reflexivity);
      try (apply pages_same); cbn; unfold onProgress;
      destruct (Qlt_le_dec _ _); reflexivity.
  - destruct (mounted w); [|exact Hu]. unfold flush.
    destruct (loading (state w)).
    + eapply (unmeasured_frame _ _ Hu); try reflexivity.
      * apply pages_same. reflexivity.
      * apply pending_same. reflexivity.
    + eapply (unmeasured_frame _ _ Hu); try reflexivity.
      * eapply pages_map; [reflexivity|].
        intros q. unfold bindCanvas. destruct (canvas q); reflexivity.
      * apply pending_same. reflexivity.
  - repeat case_match; try exact Hu. by apply hq_callback_unmeasured.
  - destruct (pending w !! k) as [t|] eqn:Hk; [|exact Hu].
    assert (isLayoutTask t = false) as Ht.
    { destruct Hu as [_ _ Hp _]. rewrite Forall_lookup in Hp. by apply (Hp k). }
    pose proof (unmeasured_delete w k Hu) as Hu0.
    assert (numbered (with_pending (delete k (pending w)) w)) as Hn0 by exact Hn.
    set (w0 := with_pending (delete k (pending w)) w) in *. clearbody w0.
    destruct t as [| |i a|i|i]; cbn; try discriminate Ht.
    + destruct r.
      * unfold loadPDF_gotDocument.
        rewrite unmeasured_calculate by (cbn; apply (u_width _ Hu0)).
        destruct Hu0 as [Hw Hf Hp Hc]. unfold calculate_return. split; cbn.
        -- exact Hw.
        -- intros j q Hq. by eapply coherent_newPages.
        -- apply Forall_app. split; [exact Hp|]. by repeat constructor.
        -- exact Hc.
      * eapply (unmeasured_frame _ _ Hu0); try reflexivity.
        -- apply pages_same. reflexivity.
        -- apply pending_same. reflexivity.
    + eapply (unmeasured_frame _ _ Hu0); try reflexivity.
      * apply pages_same. reflexivity.
      * apply pending_same. reflexivity.
    + unfold renderPage_gotPage, renderPage_catch.
      destruct (pages (state w0) !! i) as [p|] eqn:Hp; [|exact Hu0].
      assert (unmeasured (log (Dom.ErrorRenderingPage (pageNum p)) w0)) as Hlog.
      { eapply (unmeasured_frame _ _ Hu0); try reflexivity.
        - apply pages_same. reflexivity.
        - apply pending_same. reflexivity. }
      destruct r; [|exact Hlog].
      destruct (pdfDoc (state w0)) as [doc|] eqn:Hdoc; cbn [mbind option_bind];
        [|exact Hlog].
      destruct (Pdfjs.getPage doc (pageNum p)) as [page|] eqn:Hpage; [|exact Hlog].
      destruct (canvas p) as [c|] eqn:Hcv; [|exact Hlog].
      assert (doc = portfolio w0) as ->.
      { destruct Hn0 as [_ Hd]. rewrite Hdoc in Hd. by destruct Hd. }
      destruct (u_fresh _ Hu0 i p Hp) as (_ & _ & Hs & _). rewrite Hs.
      destruct (Dom.context2d c).
      * destruct Hu0 as [Hw Hf Hpe Hc]. split; cbn.
        -- exact Hw.
        -- intros j q Hq.
           destruct (decide (j = i)) as [->|Hne].
           ++ rewrite list_lookup_alter_eq, Hp in Hq. cbn in Hq. injection Hq as <-.
              apply (fresh_kept p); [reflexivity|]. by apply (Hf i).
           ++ rewrite list_lookup_alter_ne in Hq by congruence. by apply (Hf j).
        -- apply Forall_app. split; [exact Hpe|]. by repeat constructor.
        -- apply Forall_app. split; [exact Hc|]. constructor; [|constructor].
           exists page. split; [exact Hpage|reflexivity].
      * eapply (unmeasured_frame _ _ Hu0); try reflexivity.
        -- eapply pages_alter; [reflexivity|]. reflexivity.
        -- apply pending_same. reflexivity.
    + unfold renderPage_rasterized, renderPage_catch.
      destruct (pages (state w0) !! i) as [p|] eqn:Hp; [|exact Hu0].
      destruct r.
      * eapply (unmeasured_frame _ _ Hu0); try reflexivity.
        -- eapply pages_alter; [reflexivity|]. reflexivity.
        -- apply pending_same. reflexivity.
      * eapply (unmeasured_frame _ _ Hu0); try reflexivity.
        -- apply pages_same. reflexivity.
        -- apply pending_same. reflexivity.
  - destruct (mounted w); [|exact Hu].
    eapply (unmeasured_frame _ _ Hu); try reflexivity.
    + eapply pages_map; [reflexivity|]. reflexivity.
    + apply pending_same. reflexivity.
Qed.

Lemma hq_run_unmeasured events (w : World) :
  numbered w -> unmeasured w -> unmeasured (run (withoutResize events) w).
Proof.
  unfold run, Loop.run, withoutResize. revert w.
  induction events as [|e events IH]; intros w Hn Hu; [exact Hu|].
  destruct (isResize e) eqn:He.
  - rewrite filter_cons_False by (rewrite He; discriminate). by apply IH.
  - rewrite filter_cons_True by exact He. cbn [foldl].
    apply IH; [by apply hq_step_numbered|by apply hq_step_unmeasured].
Qed.

End UnmeasuredFacts.

(** X15.  The high-quality viewer lays nothing out until a resize
    notification arrives.  In every run from the initial state without
    resize notifications [containerWidth] stays 0, so the layout pass
    that [loadPDF] awaits returns before its loop and no iteration of it
    is ever parked; every page keeps the layout [loadPDF] gave it (display
    size 0 by 0, [scale] 1); and every rasterization is of the page at
    [1 * QUALITY_SCALE], twice its natural size. *)
Theorem hq_unmeasured_without_resize (doc : Pdfjs.PDFDocumentProxy)
    (events : list Event) :
  let w := HighQuality.run (withoutResize events) (HighQuality.init doc) in
  HighQuality.containerWidth (state w) = 0%Q
  /\ (forall i p, HighQuality.pages (state w) !! i = Some p -> HighQualityLayout.fresh p)
  /\ Forall (fun t => Unmeasured.isLayoutTask t = false) (pending w)
  /\ Forall (Unmeasured.atNaturalScale doc) (renderCalls w).
Proof.
  intros w.
  assert (Unmeasured.unmeasured w) as [Hw Hf Hp Hc].
  { apply UnmeasuredFacts.hq_run_unmeasured; [split; reflexivity|].
    split; cbn; [reflexivity|intros i p Hp; discriminate|constructor|constructor]. }
  assert (portfolio w = doc) as Hpf
    by (subst w; apply HighQualityShapeFacts.hq_run_portfolio).
  rewrite Hpf in Hc. auto.
Qed.

Lemma hq_unmeasured_without_resize_witness :
  let w := HighQuality.run (opened ++ [Intersect 0 [true]; settled; settled])
             (HighQuality.init threePages) in
  exists p, HighQuality.pages (state w) !! 0%nat = Some p
            /\ HighQuality.rendered p = true /\ HighQualityLayout.fresh p.
Proof.
  intros w.
  pose proof (hq_unmeasured_without_resize threePages
                (opened ++ [Intersect 0 [true]; settled; settled])) as (_ & Hf & _).
  eexists. split; [lazy; reflexivity|]. split; [reflexivity|].
  apply (Hf 0%nat). vm_compute. reflexivity.
Defined.

(** ** The ResizeObserver *)

Module WiredFacts.
Import Loop Scheduler.
Import HighQuality HighQualityFacts Wired.

Lemma hq_step_phase e (w : World) :
  phase w <> Dom.Unmounted -> phase (HighQuality.step e w) <> Dom.Unmounted.
Proof.
  intros Hph.
  assert (forall w' : World, Tracker.tracker w' = Tracker.tracker w ->
            phase w' <> Dom.Unmounted) as Htr.
  { unfold Tracker.tracker. intros w' [= -> _ _ _]. exact Hph. }
  destruct e; cbn.
  - destruct (phase w) eqn:E; cbn; rewrite ?E; congruence.
  - destruct (phase w) eqn:E; cbn; rewrite ?E; congruence.
  - unfold flush. repeat case_match; exact Hph.
  - destruct (mounted w); [|exact Hph]. apply Htr, handleResize_tracker.
  - repeat case_match; try exact Hph. apply Htr, hq_intersectionCallback_tracker.
  - destruct (pending w !! k) as [t|]; [|exact Hph].
    destruct (decide (t = LoadAwaitLayout)) as [->|Ht]; [exact Hph|].
    rewrite <- (hq_resume_tracker t r (with_pending (delete k (pending w)) w) Ht) in Htr.
    by apply Htr.
  - destruct (mounted w); [|exact Hph]. cbn. discriminate.
Qed.

Lemma hq_step_pristine e (w : World) : pristine w -> pristine (HighQuality.step e w).
Proof.
  intros Hw Hph'.
  assert (phase w = Dom.Unmounted \/ phase w <> Dom.Unmounted) as [Hph|Hph]
    by (destruct (phase w); auto; right; discriminate).
  - destruct (Hw Hph) as (Hc & Hcr & Hpe & Hl). revert Hph'.
    destruct e; cbn; unfold mounted; rewrite ?Hph, ?Hcr, ?Hpe; cbn; auto.
    discriminate.
  - destruct (hq_step_phase e w Hph Hph').
Qed.

Lemma hq_run_pristine events (w : World) :
  pristine w -> pristine (HighQuality.run events w).
Proof.
  unfold HighQuality.run, Loop.run. revert w.
  induction events as [|e events IH]; intros w Hw; cbn; [exact Hw|].
  apply IH, hq_step_pristine, Hw.
Qed.

(** One turn of the component is one turn of its handlers, except that a
    change of size of the container reaches nobody. *)
Lemma wired_step e (c : Component) :
  unattached c ->
  unattached (Wired.step e c)
  /\ world (Wired.step e c)
     = if isResize e then world c else HighQuality.step e (world c).
Proof.
  intros [Hw Ho]. destruct e; cbn.
  - destruct (phase (world c)) eqn:Hph; cbn; rewrite ?Hph.
    + destruct (Hw Hph) as (Hc & _). split; [|reflexivity]. split; cbn.
      * intros H. discriminate H.
      * rewrite Hc. intros [=].
    + by split.
    + by split.
  - split; [|reflexivity]. split; [|exact Ho].
    apply (hq_step_pristine (Progress loaded total)), Hw.
  - split; [|reflexivity]. split; [|exact Ho].
    apply (hq_step_pristine (Flush context2d)), Hw.
  - destruct (resizeObserver c) as [[|]|] eqn:Hro; [congruence| |];
      (split; [split; [exact Hw|congruence]|reflexivity]).
  - split; [|reflexivity]. split; [|exact Ho].
    apply (hq_step_pristine (Intersect observer entries)), Hw.
  - split; [|reflexivity]. split; [|exact Ho].
    apply (hq_step_pristine (Settle k r)), Hw.
  - destruct (mounted (world c)) eqn:Hm; [|by split].
    split; [|reflexivity]. split; cbn.
    + intros H. discriminate H.
    + destruct (resizeObserver c); discriminate.
Qed.

Lemma wired_run events (c : Component) :
  unattached c ->
  unattached (Wired.run events c)
  /\ world (Wired.run events c) = HighQuality.run (withoutResize events) (world c).
Proof.
  unfold Wired.run, HighQuality.run, Loop.run, withoutResize. revert c.
  induction events as [|e events IH]; intros c Hc; [by split|].
  destruct (wired_step e c Hc) as [Hc' Hw']. cbn [foldl].
  destruct (IH _ Hc') as [Hd Hrun]. split; [exact Hd|].
  rewrite Hrun, Hw'. destruct (isResize e) eqn:He.
  - rewrite filter_cons_False by (rewrite He; discriminate). reflexivity.
  - rewrite filter_cons_True by exact He. reflexivity.
Qed.

Lemma wired_init doc : unattached (Wired.init doc).
Proof. split; [|discriminate]. intros _. repeat split; reflexivity. Qed.

End WiredFacts.

(** X16.  The ResizeObserver of the high-quality viewer never observes
    the container.  [onMount] creates it and calls
    [resizeObserver.observe(containerRef)] only if [containerRef] is
    bound; it runs while [state.loading] is still true, when the
    container is not in the DOM, and nothing calls [observe] later.  So
    in every run of the component no change of size of the container is
    delivered to [handleResize]: the run goes as the run of the handlers
    with the resize events left out. *)
Theorem resize_observer_is_not_attached (doc : Pdfjs.PDFDocumentProxy)
    (events : list Event) :
  let c := Wired.run events (Wired.init doc) in
  Wired.resizeObserver c <> Some true
  /\ Wired.world c = HighQuality.run (withoutResize events) (HighQuality.init doc).
Proof.
  intros c.
  destruct (WiredFacts.wired_run events (Wired.init doc) (WiredFacts.wired_init doc))
    as [[_ Ho] Hrun].
  split; [exact Ho|exact Hrun].
Qed.

(** C1.  The resize reaction never happens.  The component hears of its
    container through a ResizeObserver that observes nothing (it is
    created by [onMount] before the container exists), so whatever the
    container does, in every run: [containerWidth] stays 0, no iteration
    of the layout loop is ever parked, and every page keeps the layout
    [loadPDF] gave it, display size 0 by 0 and scale 1.  The loop that
    recomputes the layout and clears the [rendered] flags never runs.

    For three pages of 600 x 800: once the document is open and shown, a
    change of the container to 1000 x 700 leaves the component exactly as
    it was, with no page fetched; a call of [handleResize] with that size
    would have started the layout pass, whose first turn gives page 1 the
    display size 900 x 1200. *)
Theorem resize_reaction_is_dead :
  (forall doc events,
     let c := Wired.run events (Wired.init doc) in
     HighQuality.containerWidth (state (Wired.world c)) = 0%Q
     /\ (forall i p, HighQuality.pages (state (Wired.world c)) !! i = Some p ->
           HighQualityLayout.fresh p)
     /\ Forall (fun t => Unmeasured.isLayoutTask t = false) (pending (Wired.world c)))
  /\ (let c := Wired.run opened (Wired.init threePages) in
      let called := HighQuality.handleResize [measured 1000 700] (Wired.world c) in
      Wired.resizeObserver c = Some false
      /\ containerRef (Wired.world c) = Some [1; 2; 3]%nat
      /\ Wired.step (resized 1000 700) c = c
      /\ getPageCalls (Wired.world c) = []
      /\ pending called = [LayoutAwaitPage 0 false]
      /\ exists p',
           HighQuality.pages
             (state (HighQuality.step (Settle 0 Pdfjs.Fulfilled) called)) !! 0%nat
           = Some p'
           /\ (HighQuality.width p' == 900)%Q /\ (HighQuality.height p' == 1200)%Q).
Proof.
  split.
  - intros doc events c.
    destruct (WiredFacts.wired_run events (Wired.init doc) (WiredFacts.wired_init doc))
      as [_ Hrun].
    fold c in Hrun. cbn in Hrun. rewrite Hrun.
    assert (Unmeasured.unmeasured
              (HighQuality.run (withoutResize events) (HighQuality.init doc)))
      as [Hw Hf Hp _].
    { apply UnmeasuredFacts.hq_run_unmeasured; [split; reflexivity|].
      split; cbn; [reflexivity|intros i p Hp; discriminate|constructor|constructor]. }
    auto.
  - vm_compute. repeat split; try reflexivity.
    eexists. repeat split; reflexivity.
Qed.

(** ** One turn of the layout pass and of a render *)

#[local] Arguments Nat.ltb : simpl never.

(** X17.  One iteration of the layout loop of the high-quality viewer, when
    the fetch of page [i + 1] settles.  A page that was rendered and has a
    canvas gets the new layout with [rendered] cleared, and [renderPage]
    is called for it at once: the page is fetched again and the call is
    parked before the loop goes on.  A page that was not rendered, or has
    no canvas, only gets the new layout.  In both cases the loop then
    fetches the next page, or returns after the last one; no other page
    state is written, and nothing is rasterized or logged in that turn. *)
Theorem layout_rerenders_rendered_pages (w : HighQuality.World) (k i : nat)
    (awaited : bool) (doc : Pdfjs.PDFDocumentProxy) (page : Pdfjs.PDFPageProxy)
    (p : HighQuality.PageState) :
  pending w !! k = Some (LayoutAwaitPage i awaited) ->
  HighQuality.pdfDoc (state w) = Some doc ->
  Pdfjs.getPage doc (i + 1) = Some page ->
  HighQuality.pages (state w) !! i = Some p ->
  let w' := HighQuality.step (Settle k Pdfjs.Fulfilled) w in
  let laid := HighQuality.layoutPage (HighQuality.containerWidth (state w)) page p in
  let more := bool_decide (S i < HighQuality.pageCount (state w))%nat in
  let next :=
    if more then [LayoutAwaitPage (S i) awaited]
    else if awaited then [LoadAwaitLayout] else [] in
  let nextFetch := if more then [S i + 1]%nat else [] in
  (HighQuality.rendered p = true -> is_Some (HighQuality.canvas p) ->
   HighQuality.pages (state w') !! i = Some (HighQuality.set_rendered false laid)
   /\ pending w' = delete k (pending w) ++ RenderAwaitPage i :: next
   /\ getPageCalls w' = getPageCalls w ++ HighQuality.pageNum p :: nextFetch)
  /\ (HighQuality.rendered p = false \/ HighQuality.canvas p = None ->
      HighQuality.pages (state w') !! i = Some laid
      /\ pending w' = delete k (pending w) ++ next
      /\ getPageCalls w' = getPageCalls w ++ nextFetch)
  /\ (forall j, j <> i ->
      HighQuality.pages (state w') !! j = HighQuality.pages (state w) !! j)
  /\ renderCalls w' = renderCalls w /\ console w' = console w
  /\ unhandledRejections w' = unhandledRejections w.
Proof.
  intros Hk Hdoc Hpage Hp w' laid more next nextFetch.
  subst w' laid more next nextFetch. cbn. rewrite Hk. cbn.
  unfold HighQuality.calculate_gotPage. cbn. rewrite Hdoc. cbn. rewrite Hpage, Hp.
  unfold HighQuality.calculate_loop, HighQuality.calculate_return.
  split; [|split; [|split]].
  - intros Hr Hc. rewrite Hr, (bool_decide_eq_true_2 _ Hc). cbn.
    erewrite HighQualityFacts.hq_renderPage_open.
    2:{ cbn. rewrite !list_lookup_alter_eq, Hp. reflexivity. }
    2:{ cbn. rewrite Hdoc. eauto. }
    2:{ reflexivity. }
    2:{ exact Hc. }
    cbn. case_bool_decide as Hm.
    + rewrite (proj2 (Nat.ltb_lt _ _) Hm). cbn.
      rewrite !list_lookup_alter_eq, Hp, <- !app_assoc. repeat split.
    + rewrite (proj2 (Nat.ltb_ge _ _)) by lia. destruct awaited; cbn;
        rewrite !list_lookup_alter_eq, Hp, <- ?app_assoc, ?app_nil_r; repeat split.
  - intros Hg.
    assert (HighQuality.rendered p && bool_decide (is_Some (HighQuality.canvas p)) = false)
      as ->.
    { destruct Hg as [-> | ->]; [reflexivity|]. apply andb_false_r. }
    cbn. case_bool_decide as Hm.
    + rewrite (proj2 (Nat.ltb_lt _ _) Hm). cbn.
      rewrite list_lookup_alter_eq, Hp. repeat split.
    + rewrite (proj2 (Nat.ltb_ge _ _)) by lia. destruct awaited; cbn;
        rewrite list_lookup_alter_eq, Hp, ?app_nil_r; repeat split.
  - intros j Hj.
    repeat case_match; cbn; rewrite ?HighQualityFacts.hq_renderPage_state; cbn;
      rewrite ?list_lookup_alter_ne by congruence; reflexivity.
  - unfold HighQuality.renderPage, HighQuality.renderGuard.
    repeat case_match; repeat split; reflexivity.
Qed.

Lemma layout_rerenders_rendered_pages_witness :
  let w := HighQuality.run (firstPageRendered ++ [resized 800 700])
             (HighQuality.init threePages) in
  let w' := HighQuality.step (Settle 0 Pdfjs.Fulfilled) w in
  pending w' = [RenderAwaitPage 0; LayoutAwaitPage 1 false]
  /\ getPageCalls w' = getPageCalls w ++ [1; 2]%nat.
Proof.
  intros w w'.
  epose proof (layout_rerenders_rendered_pages w 0 0 false threePages (page 600 800) _
                 eq_refl eq_refl eq_refl) as (Hre & _).
  { lazy. reflexivity. }
  destruct Hre as (_ & Hpend & Hcalls); [reflexivity|eexists; reflexivity|].
  split; [exact Hpend|exact Hcalls].
Defined.



(** X19.  A page fetch that fails inside [calculatePageDimensions] is not
    caught per page.  In a pass started by a resize the rejection is left
    unhandled: nothing is logged, the pass stops there, and the pages not
    yet reached keep their previous layout.  In the pass that [loadPDF]
    awaits, in either viewer, it lands in the catch of [loadPDF]: 'Error
    loading PDF' is logged, [loading] is cleared, and [loadPDF] does not go
    on to [setupIntersectionObservers].  In all cases the page states are
    left as they are and nothing is fetched again. *)
Theorem layout_failure_stops_the_pass (w : HighQuality.World) (v : Simple.World)
    (k i : nat) (awaited : bool) :
  (pending w !! k = Some (LayoutAwaitPage i false) ->
   let w' := HighQuality.step (Settle k Pdfjs.Rejected) w in
   unhandledRejections w' = S (unhandledRejections w)
   /\ console w' = console w /\ state w' = state w
   /\ pending w' = delete k (pending w)
   /\ getPageCalls w' = getPageCalls w /\ Tracker.tracker w' = Tracker.tracker w)
  /\ (pending w !! k = Some (LayoutAwaitPage i true) ->
      let w' := HighQuality.step (Settle k Pdfjs.Rejected) w in
      console w' = console w ++ [Dom.ErrorLoadingPDF]
      /\ HighQuality.loading (state w') = false
      /\ HighQuality.pages (state w') = HighQuality.pages (state w)
      /\ pending w' = delete k (pending w)
      /\ unhandledRejections w' = unhandledRejections w
      /\ getPageCalls w' = getPageCalls w /\ Tracker.tracker w' = Tracker.tracker w)
  /\ (pending v !! k = Some (LayoutAwaitPage i awaited) ->
      let v' := Simple.step (Settle k Pdfjs.Rejected) v in
      console v' = console v ++ [Dom.ErrorLoadingPDF]
      /\ Simple.loading (state v') = false
      /\ Simple.pages (state v') = Simple.pages (state v)
      /\ pending v' = delete k (pending v)
      /\ unhandledRejections v' = unhandledRejections v
      /\ getPageCalls v' = getPageCalls v /\ Tracker.tracker v' = Tracker.tracker v).
Proof.
  split; [|split]; intros Hk; cbn; rewrite Hk; cbn; repeat split; reflexivity.
Qed.

Lemma layout_failure_stops_the_pass_witness :
  let w := HighQuality.run (opened ++ [resized 1000 700]) (HighQuality.init threePages) in
  let v := Simple.run [Mount; settled] (Simple.init threePages) in
  unhandledRejections (HighQuality.step (Settle 0 Pdfjs.Rejected) w)
  = S (unhandledRejections w)
  /\ console (Simple.step (Settle 0 Pdfjs.Rejected) v)
     = console v ++ [Dom.ErrorLoadingPDF].
Proof.
  intros w v.
  pose proof (layout_failure_stops_the_pass w v 0 0 true) as (Hw & _ & Hv).
  split; [apply Hw; reflexivity|apply Hv; reflexivity].
Defined.
